(** * OceanOptics spectrometer driver: protocol and calibration layer

    A shallow embedding of [OceanOptics/_devices.py] (classes [USB2000] and
    [STS]).  The USB handle is a scripted transport: every [read] and
    [write] consumes the next scripted outcome and is recorded in a trace.
    Python exceptions are an explicit outcome; side effects performed before
    an exception is raised persist, as they do in Python.  Floating-point
    arithmetic (numpy float64, [float], [struct] code [f]) is kept abstract
    behind the class [FloatOps]; exact rational arithmetic is provided as an
    executable instance. *)

From Stdlib Require Import String ZArith Bool Lia QArith List.
From Stdlib.Strings Require Import Byte.
Import ListNotations.
Local Open Scope Z_scope.
Local Open Scope list_scope.

(* ===================================================================== *)
(** ** Bytes and little-endian integers *)
(* ===================================================================== *)

Definition byte_val (b : byte) : Z := Z.of_N (Byte.to_N b).

Definition byte_of_Z (z : Z) : byte :=
  match Byte.of_N (Z.to_N (z mod 256)) with
  | Some b => b
  | None => x00
  end.

(** Little-endian unsigned value of a byte string. *)
Definition le_uint (bs : list byte) : Z :=
  fold_right (fun b acc => byte_val b + 256 * acc) 0 bs.

(** The [n] low-order bytes of [z], least significant first. *)
Fixpoint le_bytes (n : nat) (z : Z) : list byte :=
  match n with
  | O => []
  | S n' => byte_of_Z z :: le_bytes n' (z / 256)
  end.

(** Two's-complement reading of an unsigned 16-bit value. *)
Definition signed16 (u : Z) : Z := if u <? 32768 then u else u - 65536.

(** Wrap-around of a signed 64-bit integer (numpy's default integer on
    the Linux hosts this driver runs on). *)
Definition wrap_int64 (z : Z) : Z :=
  (z + 2 ^ 63) mod 2 ^ 64 - 2 ^ 63.

(* ===================================================================== *)
(** ** Floating point, kept abstract *)
(* ===================================================================== *)

Class FloatOps (F : Type) := {
  of_int : Z -> F;                          (* int -> float64 *)
  fadd : F -> F -> F;
  fmul : F -> F -> F;
  fdiv : F -> F -> F;                       (* numpy division: total *)
  fpow : F -> Z -> F;                       (* float ** int *)
  float_of_bytes : list byte -> option F;   (* float(str), None = ValueError *)
  f32_of_bits : Z -> F                      (* struct code 'f' *)
}.

(** The float literals that occur in the source. *)
Class FloatLiterals (F : Type) := {
  lit_0_003906 : F                          (* 0.003906 *)
}.

(* ===================================================================== *)
(** ** Python values, exceptions, the struct module *)
(* ===================================================================== *)

Inductive exn : Type :=
| USBError                       (* usb.core.USBError *)
| OOError (msg : string)         (* _defines.OceanOpticsError *)
| PyException (msg : string)     (* raise Exception('...') *)
| StructError                    (* struct.error *)
| ValueError
| IndexError
| TypeError
| AttributeError
| ZeroDivisionError.

Inductive outcome (A : Type) : Type :=
| Ok (a : A)
| Raise (e : exn).
Arguments Ok {A} a.
Arguments Raise {A} e.

(** [except usb.core.USBError:] and the bare [except:] (also
    [except Exception:], every exception of the model being one). *)
Definition is_USBError (e : exn) : bool :=
  match e with USBError => true | _ => false end.

Definition any_exception (e : exn) : bool := true.

(** Format codes of [struct], always used with the [<] prefix (little
    endian, standard sizes, no padding). *)
Inductive fcode : Type :=
| cB | cH | ch | cI | cL | cf | cs (n : nat).

Definition fsize (c : fcode) : nat :=
  match c with
  | cB => 1 | cH => 2 | ch => 2 | cI => 4 | cL => 4 | cf => 4
  | cs n => n
  end%nat.

Definition calcsize (fmt : list fcode) : nat :=
  fold_right (fun c acc => (fsize c + acc)%nat) 0%nat fmt.

Section PythonValues.
Context {F : Type} {FO : FloatOps F}.

Inductive pyval : Type :=
| VInt (z : Z)
| VStr (s : list byte)
| VFloat (x : F).

Definition unpack1 (c : fcode) (bs : list byte) : pyval :=
  match c with
  | cB | cH | cI | cL => VInt (le_uint bs)
  | ch => VInt (signed16 (le_uint bs))
  | cf => VFloat (f32_of_bits (le_uint bs))
  | cs _ => VStr bs
  end.

Fixpoint unpack_fields (fmt : list fcode) (bs : list byte) : list pyval :=
  match fmt with
  | [] => []
  | c :: fmt' =>
      unpack1 c (firstn (fsize c) bs) :: unpack_fields fmt' (skipn (fsize c) bs)
  end.

(** [struct.unpack(fmt, bs)]; [None] is [struct.error] (wrong length). *)
Definition struct_unpack (fmt : list fcode) (bs : list byte)
  : option (list pyval) :=
  if Nat.eqb (length bs) (calcsize fmt) then Some (unpack_fields fmt bs)
  else None.

Definition in_range (lo hi z : Z) : bool := (lo <=? z) && (z <=? hi).

Definition pack1 (c : fcode) (v : pyval) : option (list byte) :=
  match c, v with
  | cB, VInt z => if in_range 0 255 z then Some (le_bytes 1 z) else None
  | cH, VInt z => if in_range 0 65535 z then Some (le_bytes 2 z) else None
  | ch, VInt z =>
      if in_range (-32768) 32767 z then Some (le_bytes 2 (z mod 65536))
      else None
  | cI, VInt z | cL, VInt z =>
      if in_range 0 4294967295 z then Some (le_bytes 4 z) else None
  | cs n, VStr s => Some (firstn n s ++ repeat x00 (n - length s))
  | _, _ => None
  end.

(** [struct.pack(fmt, *vals)]; [None] is [struct.error]. *)
Fixpoint struct_pack (fmt : list fcode) (vals : list pyval)
  : option (list byte) :=
  match fmt, vals with
  | [], [] => Some []
  | c :: fmt', v :: vals' =>
      match pack1 c v, struct_pack fmt' vals' with
      | Some a, Some b => Some (a ++ b)
      | _, _ => None
      end
  | _, _ => None
  end.

(** [int(s)] on a byte string: optional surrounding white space, an
    optional sign, then one or more decimal digits. *)
Definition is_space (b : byte) : bool :=
  let v := byte_val b in (v =? 32) || ((9 <=? v) && (v <=? 13)).

Definition digit_of (b : byte) : option Z :=
  let v := byte_val b in
  if (48 <=? v) && (v <=? 57) then Some (v - 48) else None.

Fixpoint lstrip (s : list byte) : list byte :=
  match s with
  | b :: s' => if is_space b then lstrip s' else s
  | [] => []
  end.

Definition strip (s : list byte) : list byte :=
  rev (lstrip (rev (lstrip s))).

Fixpoint digits_value (acc : Z) (s : list byte) : option Z :=
  match s with
  | [] => Some acc
  | b :: s' =>
      match digit_of b with
      | Some d => digits_value (10 * acc + d) s'
      | None => None
      end
  end.

Definition unsigned_of_bytes (s : list byte) : option Z :=
  match s with
  | [] => None
  | _ :: _ => digits_value 0 s
  end.

Definition int_of_bytes (s : list byte) : option Z :=
  match strip s with
  | b :: s' =>
      if byte_val b =? 45 then option_map Z.opp (unsigned_of_bytes s')
      else if byte_val b =? 43 then unsigned_of_bytes s'
      else unsigned_of_bytes (b :: s')
  | [] => None
  end.

(** Position of the first occurrence of byte value [v]: [a.index(v)]. *)
Fixpoint index_of (v : Z) (s : list byte) : option nat :=
  match s with
  | [] => None
  | b :: s' => if byte_val b =? v then Some O else option_map S (index_of v s')
  end.

(** Python slice [s[i:j]] for [0 <= i <= j]. *)
Definition slice (i j : nat) {A : Type} (s : list A) : list A :=
  firstn (j - i) (skipn i s).

(* ===================================================================== *)
(** ** The scripted transport and the monad of driver code *)
(* ===================================================================== *)

Inductive event : Type :=
| EvSetConfiguration
| EvWrite (ep : Z) (data : list byte)
| EvRead (ep : Z) (size : Z)
| EvSleep (us : Z)
| EvPrint (fmt : string) (args : list pyval).

(** [rscript]: outcome of each coming [read] ([None] raises [USBError]; an
    exhausted script is a time-out).  [wscript]: outcome of each coming
    [write] ([false] raises [USBError]; exhausted means success). *)
Record device : Type := mkDevice {
  attached : bool;                       (* usb.core.find finds the device *)
  rscript : list (option (list byte));
  wscript : list bool;
  trace : list event
}.

Record world (Obj : Type) : Type := mkWorld {
  dev : device;
  self : Obj
}.
Arguments mkWorld {Obj} dev self.
Arguments dev {Obj} w.
Arguments self {Obj} w.

Definition M (Obj A : Type) : Type := world Obj -> outcome A * world Obj.

Section Monad.
Context {Obj : Type}.

Definition ret {A} (a : A) : M Obj A := fun w => (Ok a, w).

Definition raise {A} (e : exn) : M Obj A := fun w => (Raise e, w).

Definition bind {A B} (c : M Obj A) (k : A -> M Obj B) : M Obj B :=
  fun w =>
    match c w with
    | (Ok a, w') => k a w'
    | (Raise e, w') => (Raise e, w')
    end.

(** [try: c  except <handled>: h] *)
Definition try_except {A} (c : M Obj A) (handled : exn -> bool)
    (h : M Obj A) : M Obj A :=
  fun w =>
    match c w with
    | (Ok a, w') => (Ok a, w')
    | (Raise e, w') => if handled e then h w' else (Raise e, w')
    end.

(** [for i in range(n): try: body; break  except <handled>: pass
     else: orelse] *)
Fixpoint for_try (n : nat) (body : M Obj unit) (handled : exn -> bool)
    (orelse : M Obj unit) : M Obj unit :=
  match n with
  | O => orelse
  | S n' =>
      fun w =>
        match body w with
        | (Ok _, w') => (Ok tt, w')
        | (Raise e, w') =>
            if handled e then for_try n' body handled orelse w'
            else (Raise e, w')
        end
  end.

Definition lift_opt {A} (e : exn) (o : option A) : M Obj A :=
  match o with
  | Some a => ret a
  | None => raise e
  end.

Definition log (e : event) (d : device) : device :=
  mkDevice (attached d) (rscript d) (wscript d) (trace d ++ [e]).

Definition emit (e : event) : M Obj unit :=
  fun w => (Ok tt, mkWorld (log e (dev w)) (self w)).

(** [self._dev.write(ep, data)] *)
Definition dev_write (ep : Z) (data : list byte) : M Obj unit :=
  fun w =>
    let d := log (EvWrite ep data) (dev w) in
    match wscript d with
    | [] => (Ok tt, mkWorld d (self w))
    | ok :: ws =>
        let d' := mkDevice (attached d) (rscript d) ws (trace d) in
        (if ok then Ok tt else Raise USBError, mkWorld d' (self w))
    end.

(** [self._dev.read(ep, size)]: a transfer longer than [size] is an
    overflow, reported as [USBError]. *)
Definition dev_read (ep : Z) (size : Z) : M Obj (list byte) :=
  fun w =>
    let d := log (EvRead ep size) (dev w) in
    match rscript d with
    | [] => (Raise USBError, mkWorld d (self w))
    | r :: rs =>
        let d' := mkDevice (attached d) rs (wscript d) (trace d) in
        (match r with
         | Some bs =>
             if Z.of_nat (length bs) <=? size then Ok bs else Raise USBError
         | None => Raise USBError
         end, mkWorld d' (self w))
    end.

Definition get_self : M Obj Obj := fun w => (Ok (self w), w).

Definition modify_self (g : Obj -> Obj) : M Obj unit :=
  fun w => (Ok tt, mkWorld (dev w) (g (self w))).

(** Reading an attribute that was never assigned raises
    [AttributeError]. *)
Definition getattr {A} (field : Obj -> option A) : M Obj A :=
  fun w => match field (self w) with
           | Some a => (Ok a, w)
           | None => (Raise AttributeError, w)
           end.

Definition pack (fmt : list fcode) (vals : list pyval) : M Obj (list byte) :=
  lift_opt StructError (struct_pack fmt vals).

Definition unpack (fmt : list fcode) (bs : list byte) : M Obj (list pyval) :=
  lift_opt StructError (struct_unpack fmt bs).

(** [t[i]] on a tuple, list or array. *)
Definition item {A} (l : list A) (i : nat) : M Obj A :=
  lift_opt IndexError (nth_error l i).

Definition as_int (v : pyval) : M Obj Z :=
  match v with
  | VInt z => ret z
  | _ => raise TypeError
  end.

Definition int_item (l : list pyval) (i : nat) : M Obj Z :=
  bind (item l i) as_int.

Definition byte_item (l : list byte) (i : nat) : M Obj Z :=
  bind (item l i) (fun b => ret (byte_val b)).

(** [float(v)] *)
Definition py_float (v : pyval) : M Obj F :=
  match v with
  | VInt z => ret (of_int z)
  | VFloat x => ret x
  | VStr s => lift_opt ValueError (float_of_bytes s)
  end.

(** [[f(x) for x in xs]] *)
Fixpoint for_each {A B} (f : A -> M Obj B) (xs : list A) : M Obj (list B) :=
  match xs with
  | [] => ret []
  | x :: xs' =>
      bind (f x) (fun y => bind (for_each f xs') (fun ys => ret (y :: ys)))
  end.

(** [sum(chunks[1:], chunks[0])] on arrays: concatenation in order. *)
Definition concat_chunks (chunks : list (list byte)) : M Obj (list byte) :=
  match chunks with
  | c0 :: rest => ret (fold_left (@app byte) rest c0)
  | [] => raise IndexError
  end.

(** [np.vstack([a, b])] of two one-dimensional arrays. *)
Definition vstack (a b : list F) : M Obj (list F * list F) :=
  if Nat.eqb (length a) (length b) then ret (a, b) else raise ValueError.

End Monad.

(* ===================================================================== *)
(** ** numpy arrays as lists, element-wise arithmetic *)
(* ===================================================================== *)

(** [np.arange(a, b)] *)
Definition arange (a b : nat) : list Z := map Z.of_nat (seq a (b - a)).

(** [ints ** i] on an int64 array *)
Definition iarr_pow (a : list Z) (i : Z) : list Z :=
  map (fun p => wrap_int64 (p ^ i)) a.

(** [c * ints], a float scalar times an integer array *)
Definition iarr_scale (c : F) (a : list Z) : list F :=
  map (fun v => fmul c (of_int v)) a.

(** [a ** i] on a float array *)
Definition arr_pow (a : list F) (i : Z) : list F :=
  map (fun x => fpow x i) a.

(** [c * a], scalar on the left *)
Definition arr_scale (c : F) (a : list F) : list F := map (fmul c) a.

(** [a * c], scalar on the right *)
Definition arr_scale_r (a : list F) (c : F) : list F :=
  map (fun x => fmul x c) a.

Definition arr_zip (op : F -> F -> F) (a b : list F) : list F :=
  map (fun p => op (fst p) (snd p)) (combine a b).

Definition arr_add := arr_zip fadd.
Definition arr_div := arr_zip fdiv.

(** [sum(terms)] over arrays of length [n]: Python starts from the integer
    [0] and adds the terms from left to right; the scalar start value is
    written here as its broadcast, an array of [n] zeros, which gives the
    same elements (also when there is no term: [a / 0] divides every
    element by zero). *)
Definition arr_sum (n : nat) (terms : list (list F)) : list F :=
  fold_left arr_add terms (repeat (of_int 0) n).

End PythonValues.

Arguments pyval F : clear implicits.
Arguments device F : clear implicits.
Arguments event F : clear implicits.
Arguments world F Obj : clear implicits.
Arguments M F Obj A : clear implicits.
Arguments mkWorld {F Obj} dev self.
Arguments dev {F Obj} w.
Arguments self {F Obj} w.

Declare Scope py_scope.
Delimit Scope py_scope with py.
Notation "x <- c ;; k" := (bind c (fun x => k))
  (at level 61, c at next level, right associativity) : py_scope.
Notation "c ;;; k" := (bind c (fun _ => k))
  (at level 61, right associativity) : py_scope.
Local Open Scope py_scope.

(* ===================================================================== *)
(** ** class USB2000 (legacy single-byte-opcode protocol) *)
(* ===================================================================== *)

Module USB2000.
Section Defs.
Context {F : Type} {FO : FloatOps F}.

(** The attributes assigned by the methods; [None] = not yet assigned. *)
Record obj : Type := mkObj {
  _usbcomm : option Z;
  _it : option Z;
  _wl : option (list F);
  _nl : option (list F);
  _st : option F;
  Serial : option (list byte)
}.

Local Abbreviation Py := (@M F obj).

Definition fresh : obj := mkObj None None None None None None.

Definition set__usbcomm (v : Z) (o : obj) : obj :=
  mkObj (Some v) (_it o) (_wl o) (_nl o) (_st o) (Serial o).
Definition set__it (v : Z) (o : obj) : obj :=
  mkObj (_usbcomm o) (Some v) (_wl o) (_nl o) (_st o) (Serial o).
Definition set__wl (v : list F) (o : obj) : obj :=
  mkObj (_usbcomm o) (_it o) (Some v) (_nl o) (_st o) (Serial o).
Definition set__nl (v : list F) (o : obj) : obj :=
  mkObj (_usbcomm o) (_it o) (_wl o) (Some v) (_st o) (Serial o).
Definition set__st (v : F) (o : obj) : obj :=
  mkObj (_usbcomm o) (_it o) (_wl o) (_nl o) (Some v) (Serial o).
Definition set_Serial (v : list byte) (o : obj) : obj :=
  mkObj (_usbcomm o) (_it o) (_wl o) (_nl o) (_st o) (Some v).

Definition _EP1_out : Z := 0x01.
Definition _EP1_in : Z := 0x81.
Definition _EP2_in : Z := 0x82.
Definition _EP1_in_size : Z := 64.

(** The dictionary returned by [_query_status]. *)
Record status : Type := mkStatus {
  pixels : Z;
  st_integration_time : Z;
  lamp_enable : Z;
  trigger_mode : Z;
  acquisition_status : Z;
  packets_in_spectrum : Z;
  power_down : Z;
  packets_in_endpoint : Z;
  usb_speed : Z
}.

(** 0x01 initialize *)
Definition _initialize : Py unit :=
  cmd <- pack [cB] [VInt 0x01] ;;
  dev_write _EP1_out cmd.

(** 0x02 set integration time *)
Definition _set_integration_time (time_us : Z) : Py unit :=
  cmd <- pack [cB; cI] [VInt 0x02; VInt time_us] ;;
  dev_write _EP1_out cmd.

(** 0x05 query info *)
Definition _query_information (address : Z) (raw : bool)
  : Py (list byte) :=
  cmd <- pack [cB; cB] [VInt 0x05; VInt (address mod 0xFF)] ;;
  dev_write _EP1_out cmd ;;;
  r <- dev_read _EP1_in _EP1_in_size ;;
  if raw then ret r else
  r0 <- byte_item r 0 ;;
  if negb (r0 =? 0x05) then
    raise (PyException "query_information: Wrong answer")
  else
  r1 <- byte_item r 1 ;;
  if negb (r1 =? address mod 0xFF) then
    raise (PyException "query_information: Wrong answer")
  else
  i <- lift_opt ValueError (index_of 0 (skipn 2 r)) ;;
  ret (slice 2 (i + 2) r).

(** 0xFE query status *)
Definition _query_status : Py status :=
  cmd <- pack [cB] [VInt 0xFE] ;;
  dev_write _EP1_out cmd ;;;
  r <- dev_read _EP1_in _EP1_in_size ;;
  data <- unpack [cH; cL; cB; cB; cB; cB; cB; cB; cB; cB; cB; cB] r ;;
  d0 <- int_item data 0 ;;
  d1 <- int_item data 1 ;;
  d2 <- int_item data 2 ;;
  d3 <- int_item data 3 ;;
  d4 <- int_item data 4 ;;
  d5 <- int_item data 5 ;;
  d6 <- int_item data 6 ;;
  d7 <- int_item data 7 ;;
  d10 <- int_item data 10 ;;
  ret (mkStatus d0 d1 d2 d3 d4 d5 d6 d7 d10).

(** 0x09 request spectra *)
Definition _request_spectrum : Py (list (pyval F)) :=
  cmd <- pack [cB] [VInt 0x09] ;;
  dev_write _EP1_out cmd ;;;
  it <- getattr _it ;;
  emit (EvSleep (Z.max (it - 100000) 0)) ;;;
  usbcomm <- getattr _usbcomm ;;
  chunks <- (if usbcomm =? 0x80
             then for_each (fun _ => dev_read _EP2_in 512) (seq 0 8)
             else for_each (fun _ => dev_read _EP2_in 64) (seq 0 64)) ;;
  buf <- concat_chunks chunks ;;
  spectrum <- unpack (repeat ch 2048) buf ;;
  sync <- dev_read _EP2_in 1 ;;
  s0 <- byte_item sync 0 ;;
  if negb (s0 =? 0x69) then
    raise (OOError "request_spectrum: Wrong answer")
  else ret spectrum.

Definition _get_serial : Py (list byte) :=
  _query_information 0 false.

Definition _get_wavelength_calibration : Py (list F) :=
  for_each (fun i => s <- _query_information i false ;; py_float (VStr s))
           (map Z.of_nat (seq 1 4)).

Definition _get_nonlinearity_calibration : Py (list F) :=
  s <- _query_information 14 false ;;
  n <- lift_opt ValueError (int_of_bytes s) ;;
  if negb (n =? 7) then
    raise (OOError "This spectrometer has less correction factors")
  else
    for_each (fun i => s <- _query_information i false ;; py_float (VStr s))
             (map Z.of_nat (seq 6 8)).

Definition _get_saturation_calibration : Py F :=
  r <- _query_information 0x11 true ;;
  vals <- unpack [ch] (slice 6 8 r) ;;
  v <- int_item vals 0 ;;
  if v =? 0 then raise ZeroDivisionError
  else ret (fdiv (of_int 65535) (of_int v)).

Definition integration_time (time_us : option Z) : Py Z :=
  match time_us with
  | Some t => _set_integration_time t
  | None => ret tt
  end ;;;
  st <- _query_status ;;
  modify_self (set__it (st_integration_time st)) ;;;
  getattr _it.

Definition acquire_spectrum : Py (list F * list F) :=
  spectrum <- _request_spectrum ;;
  floats <- for_each py_float spectrum ;;
  let raw_intensity := skipn 20 floats in
  wterms <- for_each (fun i => wl <- getattr _wl ;;
                               c <- item wl i ;;
                               ret (iarr_scale c (iarr_pow (arange 20 2048)
                                                           (Z.of_nat i))))
                     (seq 0 4) ;;
  let wavelength := arr_sum (length (arange 20 2048)) wterms in
  nterms <- for_each (fun i => nl <- getattr _nl ;;
                               c <- item nl i ;;
                               ret (arr_scale c (arr_pow raw_intensity
                                                         (Z.of_nat i))))
                     (seq 0 8) ;;
  st <- getattr _st ;;
  let intensity :=
    arr_scale_r (arr_div raw_intensity
                         (arr_sum (length raw_intensity) nterms)) st in
  vstack wavelength intensity.

(** [__init__], phase by phase in source order. *)
Definition init_open : Py unit :=
  fun w =>
    if negb (attached (dev w)) then
      (Raise (OOError "No OceanOptics USB2000+ spectrometer found!"), w)
    else
      (emit (EvPrint ("*NOTE*: Currently the first device matching the "
                      ++ "Vendor/Product id is used") []) ;;;
       emit EvSetConfiguration ;;;
       _initialize) w.

Definition speed_attempt : Py unit :=
  st <- _query_status ;;
  modify_self (set__usbcomm (usb_speed st)).

Definition detect_speed : Py unit :=
  for_try 10 speed_attempt is_USBError
          (raise (OOError "Initialization USBCOM")).

Definition spectrum_attempt : Py unit :=
  _request_spectrum ;;; ret tt.

Definition verify_acquisition : Py unit :=
  for_try 10 spectrum_attempt any_exception
          (raise (OOError "Initialization SPECTRUM")).

Definition load_wavelength : Py unit :=
  wl <- _get_wavelength_calibration ;;
  modify_self (set__wl wl).

Definition load_nonlinearity : Py unit :=
  nl <- _get_nonlinearity_calibration ;;
  modify_self (set__nl nl).

Definition load_rest : Py unit :=
  st <- _get_saturation_calibration ;;
  modify_self (set__st st) ;;;
  serial <- _get_serial ;;
  modify_self (set_Serial serial).

Definition __init__ : Py unit :=
  init_open ;;;
  detect_speed ;;;
  integration_time (Some 1000) ;;;
  verify_acquisition ;;;
  load_wavelength ;;;
  load_nonlinearity ;;;
  load_rest.

(** The steps of [__init__] that come before the nonlinearity
    calibration. *)
Definition init_before_nonlinearity : Py unit :=
  init_open ;;;
  detect_speed ;;;
  integration_time (Some 1000) ;;;
  verify_acquisition ;;;
  load_wavelength.

(** [USB2000()]: the object exists for the caller only when [__init__]
    returns. *)
Definition constructed (r : outcome unit * world F obj)
  : outcome obj * device F :=
  match r with
  | (Ok _, w) => (Ok (self w), dev w)
  | (Raise e, w) => (Raise e, dev w)
  end.

Definition new (d : device F) : outcome obj * device F :=
  constructed (__init__ (mkWorld d fresh)).

(** 0x6B read register info *)
Definition _read_register_information (address : Z) : Py Z :=
  cmd <- pack [cB; cB] [VInt 0x6B; VInt (address mod 0xFF)] ;;
  dev_write _EP1_out cmd ;;;
  r <- dev_read _EP1_in _EP1_in_size ;;
  r0 <- byte_item r 0 ;;
  if negb (r0 =? address mod 0xFF) then
    raise (PyException "read_register_information: Wrong answer")
  else
  vals <- unpack [ch] (skipn 1 r) ;;
  int_item vals 0.

(** [x, = t]: the tuple must hold exactly one value. *)
Definition single {A} (t : list A) : Py A :=
  match t with
  | [x] => ret x
  | _ => raise ValueError
  end.

Context {FL : FloatLiterals F}.

(** 0x6C read pcb temperature *)
Definition _read_pcb_temperature : Py F :=
  cmd <- pack [cB] [VInt 0x6C] ;;
  dev_write _EP1_out cmd ;;;
  r <- dev_read _EP1_in _EP1_in_size ;;
  r0 <- byte_item r 0 ;;
  if negb (r0 =? 0x08) then
    raise (PyException "read_pcb_temperature: Wrong answer")
  else
  vals <- unpack [ch] (skipn 1 r) ;;
  v <- single vals ;;
  adc <- as_int v ;;
  ret (fmul lit_0_003906 (of_int adc)).

Definition device_temperature : Py F :=
  _read_pcb_temperature.

End Defs.
Arguments obj F : clear implicits.
End USB2000.

(* ===================================================================== *)
(** ** class STS (framed 64-byte protocol) *)
(* ===================================================================== *)

Module STS.
Section Defs.
Context {F : Type} {FO : FloatOps F}.

Record obj : Type := mkObj {
  _scan_averages : option Z;
  _it : option Z;
  _wl : option (list F);
  _nl : option (list F);
  _sl : option (list F);
  Serial : option (pyval F)
}.

Local Abbreviation Py := (@M F obj).

Definition fresh : obj := mkObj None None None None None None.

Definition set__scan_averages (v : Z) (o : obj) : obj :=
  mkObj (Some v) (_it o) (_wl o) (_nl o) (_sl o) (Serial o).
Definition set__it (v : Z) (o : obj) : obj :=
  mkObj (_scan_averages o) (Some v) (_wl o) (_nl o) (_sl o) (Serial o).
Definition set__wl (v : list F) (o : obj) : obj :=
  mkObj (_scan_averages o) (_it o) (Some v) (_nl o) (_sl o) (Serial o).
Definition set__nl (v : list F) (o : obj) : obj :=
  mkObj (_scan_averages o) (_it o) (_wl o) (Some v) (_sl o) (Serial o).
Definition set__sl (v : list F) (o : obj) : obj :=
  mkObj (_scan_averages o) (_it o) (_wl o) (_nl o) (Some v) (Serial o).
Definition set_Serial (v : pyval F) (o : obj) : obj :=
  mkObj (_scan_averages o) (_it o) (_wl o) (_nl o) (_sl o) (Some v).

Definition _EP1_out : Z := 0x01.
Definition _EP1_in : Z := 0x81.
Definition _EP1_in_size : Z := 64.

Definition _START_BYTES : Z := 0xC0C1.
Definition _END_BYTES : Z := 0xC2C3C4C5.
Definition _PROTOCOL_VERSION : Z := 0x0100.

Definition _MSG_GET_SERIAL : Z := 0x00000100.
Definition _MSG_GET_SERIAL_LENGHT : Z := 0x00000101.
Definition _MSG_GET_CORRECTED_SPECTRUM : Z := 0x00101000.
Definition _MSG_SET_INTEGRATION_TIME : Z := 0x00110010.
Definition _MSG_GET_HW_VERSION : Z := 0x00000080.
Definition _MSG_GET_SW_VERSION : Z := 0x00000090.
Definition _MSG_SET_AVG_SCANS : Z := 0x00120010.
Definition _MSG_GET_WAVELENGTH_COEFF : Z := 0x00180101.
Definition _MSG_GET_NONLINEAR_COEFF_COUNT : Z := 0x00181100.
Definition _MSG_GET_NONLINEAR_COEFF : Z := 0x00181101.
Definition _MSG_GET_STRAYLIGHT_COEFF_COUNT : Z := 0x00183100.
Definition _MSG_GET_STRAYLIGHT_COEFF : Z := 0x00183101.

(** [struct.pack('<HHHHLLLHBB16sL16sL', START, VERSION, 0, 0, command,
    0, 0, 0, 0x00, 0x00, '', 0x14, '', END)]: the request without
    immediate data, written out in eight of the methods. *)
Definition plain_request (command : Z) : Py (list byte) :=
  pack [cH; cH; cH; cH; cL; cL; cL; cH; cB; cB; cs 16; cL; cs 16; cL]
       [VInt _START_BYTES; VInt _PROTOCOL_VERSION; VInt 0; VInt 0;
        VInt command; VInt 0; VInt 0; VInt 0; VInt 0x00; VInt 0x00;
        VStr []; VInt 0x14; VStr []; VInt _END_BYTES].

(** The acknowledgement handling shared by the query and set methods:
    [if len(ret) == 64: ack = struct.unpack(fmt, ret);
       if ack[3] == 0: <on_success ack>
       else: print "Error code: %i" % ack[3]; return -1
     else: print "Unexpected msg lenght: %i vs 64" % len(ret); return -1] *)
Definition check_ack (fmt : list fcode) (r : list byte)
    (on_success : list (pyval F) -> Py (pyval F)) : Py (pyval F) :=
  if Nat.eqb (length r) 64 then
    ack <- unpack fmt r ;;
    status <- int_item ack 3 ;;
    if status =? 0 then on_success ack
    else
      emit (EvPrint "Error code: %i" [VInt status]) ;;;
      ret (VInt (-1))
  else
    emit (EvPrint "Unexpected msg lenght: %i vs 64"
                  [VInt (Z.of_nat (length r))]) ;;;
    ret (VInt (-1)).

(** [while True: try: read  except: break] -- every pass consumes one
    scripted read, so the recursion is on the script. *)
Fixpoint drain (rs : list (option (list byte))) (d : device F) : device F :=
  let d1 := log (EvRead _EP1_in _EP1_in_size) d in
  match rs with
  | [] => d1
  | r :: rs' =>
      let d2 := mkDevice (attached d1) rs' (wscript d1) (trace d1) in
      match r with
      | Some bs =>
          if Z.of_nat (length bs) <=? _EP1_in_size then drain rs' d2 else d2
      | None => d2
      end
  end.

(** Empty USB buffer *)
Definition _initialize : Py unit :=
  emit (EvPrint "Initilizing" []) ;;;
  fun w => (Ok tt, mkWorld (drain (rscript (dev w)) (dev w)) (self w)).

Definition _query_coefficient_count (command : Z) : Py (pyval F) :=
  cmd <- plain_request command ;;
  dev_write _EP1_out cmd ;;;
  r <- dev_read _EP1_in _EP1_in_size ;;
  check_ack [cH; cH; cH; cH; cL; cL; cs 6; cB; cB; cB; cs 15; cL; cs 16; cL] r
            (fun ack => item ack 9).

Definition _query_coefficient (index : Z) (command : Z) : Py (pyval F) :=
  cmd <- pack [cH; cH; cH; cH; cL; cL; cL; cH; cB; cB; cB; cs 15; cL; cs 16; cL]
              [VInt _START_BYTES; VInt _PROTOCOL_VERSION; VInt 0; VInt 0;
               VInt command; VInt 0; VInt 0; VInt 0; VInt 0x00; VInt 0x01;
               VInt index; VStr []; VInt 0x14; VStr []; VInt _END_BYTES] ;;
  dev_write _EP1_out cmd ;;;
  r <- dev_read _EP1_in _EP1_in_size ;;
  check_ack [cH; cH; cH; cH; cL; cL; cs 6; cB; cB; cf; cs 12; cL; cs 16; cL] r
            (fun ack => item ack 9).

Definition _get_hw_version : Py (pyval F) :=
  cmd <- plain_request _MSG_GET_HW_VERSION ;;
  dev_write _EP1_out cmd ;;;
  r <- dev_read _EP1_in _EP1_in_size ;;
  check_ack [cH; cH; cH; cH; cL; cL; cs 6; cB; cB; cB; cs 15; cL; cs 16; cL] r
            (fun ack => item ack 9).

Definition _get_sw_version : Py (pyval F) :=
  cmd <- plain_request _MSG_GET_SW_VERSION ;;
  dev_write _EP1_out cmd ;;;
  r <- dev_read _EP1_in _EP1_in_size ;;
  check_ack [cH; cH; cH; cH; cL; cL; cs 6; cB; cB; cB; cs 15; cL; cs 16; cL] r
            (fun ack => item ack 9).

(** [str(v).replace('\0', '')] on a byte string *)
Definition remove_nul (s : list byte) : list byte :=
  filter (fun b => negb (byte_val b =? 0)) s.

Definition _get_serial : Py (pyval F) :=
  n <- _query_coefficient_count _MSG_GET_SERIAL_LENGHT ;;
  serial_leght <- as_int n ;;
  emit (EvPrint "Serial length: %i" [VInt serial_leght]) ;;;
  cmd <- plain_request _MSG_GET_SERIAL ;;
  dev_write _EP1_out cmd ;;;
  r <- dev_read _EP1_in _EP1_in_size ;;
  check_ack [cH; cH; cH; cH; cL; cL; cs 6; cB; cB; cs 16; cL; cs 16; cL] r
            (fun ack => v <- item ack 9 ;;
                        match v with
                        | VStr s => ret (VStr (remove_nul s))
                        | _ => raise TypeError
                        end).

(** Returns [Some (-1)] for [return -1] and [None] when the method falls
    off its end. *)
Definition _set_integration_time (time_us : Z) : Py (option (pyval F)) :=
  cmd <- pack [cH; cH; cH; cH; cL; cL; cL; cH; cB; cB; cL; cs 12; cL; cs 16; cL]
              [VInt _START_BYTES; VInt _PROTOCOL_VERSION; VInt 0; VInt 0;
               VInt _MSG_SET_INTEGRATION_TIME; VInt 0; VInt 0; VInt 0;
               VInt 0x00; VInt 0x04; VInt time_us; VStr []; VInt 0x14;
               VStr []; VInt _END_BYTES] ;;
  dev_write _EP1_out cmd ;;;
  try_except
    (r <- dev_read _EP1_in _EP1_in_size ;;
     v <- check_ack
            [cH; cH; cH; cH; cL; cL; cs 6; cB; cB; cL; cs 12; cL; cs 16; cL] r
            (fun ack =>
               _ <- item ack 9 ;;     (* time_us = ack[9], a dead store *)
               emit (EvPrint "Error setting integration time" []) ;;;
               ret (VInt (-1))) ;;
     ret (Some v))
    any_exception
    (modify_self (set__it time_us) ;;; ret None).

Definition _set_scan_averages (scan_averages : Z) : Py (option (pyval F)) :=
  cmd <- pack [cH; cH; cH; cH; cL; cL; cL; cH; cB; cB; cH; cs 14; cL; cs 16; cL]
              [VInt _START_BYTES; VInt _PROTOCOL_VERSION; VInt 0; VInt 0;
               VInt _MSG_SET_AVG_SCANS; VInt 0; VInt 0; VInt 0;
               VInt 0x00; VInt 0x02; VInt scan_averages; VStr []; VInt 0x14;
               VStr []; VInt _END_BYTES] ;;
  dev_write _EP1_out cmd ;;;
  try_except
    (r <- dev_read _EP1_in _EP1_in_size ;;
     v <- check_ack
            [cH; cH; cH; cH; cL; cL; cs 6; cB; cB; cH; cs 14; cL; cs 16; cL] r
            (fun ack =>
               a9 <- item ack 9 ;;
               emit (EvPrint "%s" [a9]) ;;;
               emit (EvPrint "Error setting integration time" []) ;;;
               ret (VInt (-1))) ;;
     ret (Some v))
    any_exception
    (modify_self (set__scan_averages scan_averages) ;;; ret None).

Definition spectrum_format : list fcode :=
  [cH; cH; cH; cH; cL; cL; cL; cH; cB; cB; cs 16; cL]
    ++ repeat cH 1024 ++ [cs 16; cL].

Definition _request_spectrum : Py (list (pyval F)) :=
  cmd <- plain_request _MSG_GET_CORRECTED_SPECTRUM ;;
  dev_write _EP1_out cmd ;;;
  it <- getattr _it ;;
  sa <- getattr _scan_averages ;;
  emit (EvSleep (Z.max ((it + 100000) * sa) 0)) ;;;
  chunks <- for_each (fun _ => dev_read _EP1_in _EP1_in_size) (seq 0 33) ;;
  buf <- concat_chunks chunks ;;
  spectrum <- unpack spectrum_format buf ;;
  ret (slice 12 1036 spectrum).

Definition _get_wavelength_calibration : Py (list F) :=
  for_each (fun i => v <- _query_coefficient i _MSG_GET_WAVELENGTH_COEFF ;;
                     py_float v)
           (map Z.of_nat (seq 0 4)).

Definition _get_nonlinearity_calibration : Py (list F) :=
  n <- _query_coefficient_count _MSG_GET_NONLINEAR_COEFF_COUNT ;;
  nl_coef <- as_int n ;;
  if negb (nl_coef =? 8) then
    raise (OOError "This spectrometer has less correction factors")
  else
    for_each (fun i => v <- _query_coefficient i _MSG_GET_NONLINEAR_COEFF ;;
                       py_float v)
             (map Z.of_nat (seq 0 (Z.to_nat nl_coef))).

Definition _get_stray_light_calibration : Py (list F) :=
  n <- _query_coefficient_count _MSG_GET_STRAYLIGHT_COEFF_COUNT ;;
  sl_coef <- as_int n ;;
  for_each (fun i => v <- _query_coefficient i _MSG_GET_STRAYLIGHT_COEFF ;;
                     py_float v)
           (map Z.of_nat (seq 0 (Z.to_nat sl_coef))).

Definition integration_time (time_us : option Z) : Py (option Z) :=
  match time_us with
  | Some t => _set_integration_time t ;;; ret tt
  | None => ret tt
  end ;;;
  ret time_us.

Definition set_scan_averages (scan_averages : option Z) : Py unit :=
  match scan_averages with
  | Some n => _set_scan_averages n ;;; ret tt
  | None => ret tt
  end.

Definition acquire_spectrum : Py (list F * list F) :=
  spectrum <- _request_spectrum ;;
  raw_intensity <- for_each py_float spectrum ;;
  nl0 <- getattr _nl ;;
  let nl_coeffs := length nl0 in
  wterms <- for_each (fun i => wl <- getattr _wl ;;
                               c <- item wl i ;;
                               ret (iarr_scale c (iarr_pow (arange 0 1024)
                                                           (Z.of_nat i))))
                     (seq 0 4) ;;
  let wavelength := arr_sum (length (arange 0 1024)) wterms in
  nterms <- for_each (fun i => nl <- getattr _nl ;;
                               c <- item nl i ;;
                               ret (arr_scale c (arr_pow raw_intensity
                                                         (Z.of_nat i))))
                     (seq 0 nl_coeffs) ;;
  let intensity :=
    arr_div raw_intensity (arr_sum (length raw_intensity) nterms) in
  vstack wavelength intensity.

(** [__init__], phase by phase in source order. *)
Definition init_open : Py unit :=
  fun w =>
    if negb (attached (dev w)) then
      (Raise (OOError "No OceanOptics STS spectrometer found!"), w)
    else
      (emit (EvPrint ("*NOTE*: Currently the first device matching the "
                      ++ "Vendor/Product id is used") []) ;;;
       modify_self (set__scan_averages 0) ;;;
       emit EvSetConfiguration ;;;
       _initialize) w.

Definition init_identify : Py unit :=
  hw <- _get_hw_version ;;
  emit (EvPrint "HW Version: %i" [hw]) ;;;
  sw <- _get_sw_version ;;
  emit (EvPrint "SW Version: %i" [sw]) ;;;
  serial <- _get_serial ;;
  modify_self (set_Serial serial) ;;;
  emit (EvPrint "Serial: %s" [serial]).

Definition load_wavelength : Py unit :=
  wl <- _get_wavelength_calibration ;;
  modify_self (set__wl wl).

Definition load_nonlinearity : Py unit :=
  nl <- _get_nonlinearity_calibration ;;
  modify_self (set__nl nl).

Definition load_stray_light : Py unit :=
  sl <- _get_stray_light_calibration ;;
  modify_self (set__sl sl) ;;;
  emit (EvPrint "%s" (map VFloat sl)).

Definition spectrum_attempt : Py unit :=
  _request_spectrum ;;; ret tt.

Definition verify_acquisition : Py unit :=
  for_try 10 spectrum_attempt any_exception
          (raise (OOError "Initialization SPECTRUM")).

Definition __init__ : Py unit :=
  init_open ;;;
  init_identify ;;;
  integration_time (Some 10000) ;;;
  set_scan_averages (Some 10) ;;;
  _request_spectrum ;;;
  load_wavelength ;;;
  load_nonlinearity ;;;
  load_stray_light ;;;
  verify_acquisition.

(** The steps of [__init__] that come before the nonlinearity
    calibration. *)
Definition init_before_nonlinearity : Py unit :=
  init_open ;;;
  init_identify ;;;
  integration_time (Some 10000) ;;;
  set_scan_averages (Some 10) ;;;
  _request_spectrum ;;;
  load_wavelength.

Definition constructed (r : outcome unit * world F obj)
  : outcome obj * device F :=
  match r with
  | (Ok _, w) => (Ok (self w), dev w)
  | (Raise e, w) => (Raise e, dev w)
  end.

Definition new (d : device F) : outcome obj * device F :=
  constructed (__init__ (mkWorld d fresh)).

Definition _MSG_GET_AVG_SCANS : Z := 0x00110510.
Definition _MSG_GET_ALL_TEMPERATURE : Z := 0x00400002.
Definition _MSG_GET_IRRADIANCE_COEFF : Z := 0x00182001.

Definition _get_scan_averages : Py (pyval F) :=
  cmd <- plain_request _MSG_GET_AVG_SCANS ;;
  dev_write _EP1_out cmd ;;;
  r <- dev_read _EP1_in _EP1_in_size ;;
  check_ack [cH; cH; cH; cH; cL; cL; cs 6; cB; cB; cH; cs 14; cL; cs 16; cL] r
            (fun ack => item ack 9).

(** No length or status check here: the response is decoded as it comes. *)
Definition _read_temperatures : Py (list (pyval F)) :=
  cmd <- plain_request _MSG_GET_ALL_TEMPERATURE ;;
  dev_write _EP1_out cmd ;;;
  r <- dev_read _EP1_in _EP1_in_size ;;
  ack <- unpack [cH; cH; cH; cH; cL; cL; cL; cH; cB; cB; cf; cf; cf; cs 4; cL;
                 cs 16; cL] r ;;
  t0 <- item ack 10 ;;
  t1 <- item ack 12 ;;
  ret [t0; t1].

(** Returns the temperature of the detector *)
Definition device_temperature : Py (pyval F) :=
  temperatures <- _read_temperatures ;;
  item temperatures 0.

Definition irradiance_format : list fcode :=
  [cH; cH; cH; cH; cL; cL; cL; cH; cB; cB; cs 16; cL]
    ++ repeat cf 1024 ++ [cs 16; cL].

Definition _read_irradiance_calibration : Py (list (pyval F)) :=
  cmd <- plain_request _MSG_GET_IRRADIANCE_COEFF ;;
  dev_write _EP1_out cmd ;;;
  chunks <- for_each (fun _ => dev_read _EP1_in _EP1_in_size) (seq 0 65) ;;
  buf <- concat_chunks chunks ;;
  spectrum <- unpack irradiance_format buf ;;
  ret (slice 12 1036 spectrum).

Definition acquire_radiance_spectrum : Py (list F * list F) :=
  spectrum <- _request_spectrum ;;
  raw_intensity <- for_each py_float spectrum ;;
  nl0 <- getattr _nl ;;
  let nl_coeffs := length nl0 in
  wterms <- for_each (fun i => wl <- getattr _wl ;;
                               c <- item wl i ;;
                               ret (iarr_scale c (iarr_pow (arange 0 1024)
                                                           (Z.of_nat i))))
                     (seq 0 4) ;;
  let wavelength := arr_sum (length (arange 0 1024)) wterms in
  nterms <- for_each (fun i => nl <- getattr _nl ;;
                               c <- item nl i ;;
                               ret (arr_scale c (arr_pow raw_intensity
                                                         (Z.of_nat i))))
                     (seq 0 nl_coeffs) ;;
  let intensity :=
    arr_div raw_intensity (arr_sum (length raw_intensity) nterms) in
  vstack wavelength intensity.

End Defs.
Arguments obj F : clear implicits.
End STS.

(* ===================================================================== *)
(** ** An executable arithmetic: exact rationals *)
(* ===================================================================== *)

Module Exact.

(** The rational denoted by the bits of a finite binary32 number. *)
Definition Q_of_f32_bits (u : Z) : Q :=
  let sign := (u / 2 ^ 31) mod 2 in
  let e := (u / 2 ^ 23) mod 256 in
  let m := u mod 2 ^ 23 in
  let mag := if e =? 0 then (inject_Z m * Qpower 2 (-149))%Q
             else (inject_Z (2 ^ 23 + m) * Qpower 2 (e - 150))%Q in
  Qred (if sign =? 1 then Qopp mag else mag).

Fixpoint split_dot (s : list byte) : list byte * option (list byte) :=
  match s with
  | [] => ([], None)
  | b :: s' =>
      if byte_val b =? 46 then ([], Some s')
      else let (i, f) := split_dot s' in (b :: i, f)
  end.

Definition unsigned_decimal (s : list byte) : option Q :=
  match split_dot s with
  | (i, None) => option_map inject_Z (unsigned_of_bytes i)
  | (i, Some f) =>
      match i, f with
      | [], [] => None
      | _, _ =>
          match digits_value 0 i, digits_value 0 f with
          | Some a, Some b =>
              Some (inject_Z a
                    + inject_Z b / inject_Z (10 ^ Z.of_nat (length f)))%Q
          | _, _ => None
          end
      end
  end.

(** Plain decimal literals [[+-]digits[.digits]]. *)
Definition Q_of_bytes (s : list byte) : option Q :=
  match strip s with
  | b :: s' =>
      if byte_val b =? 45 then option_map Qopp (unsigned_decimal s')
      else if byte_val b =? 43 then unsigned_decimal s'
      else unsigned_decimal (b :: s')
  | [] => None
  end.

(** Exact arithmetic on rationals.  It is used to run the driver on
    simulated devices; unlike numpy it gives [x / 0 = 0], and it rounds
    nothing. *)
#[export] Instance Q_FloatOps : FloatOps Q := {
  of_int := inject_Z;
  fadd := Qplus;
  fmul := Qmult;
  fdiv := Qdiv;
  fpow := Qpower;
  float_of_bytes := Q_of_bytes;
  f32_of_bits := Q_of_f32_bits
}.

#[export] Instance Q_FloatLiterals : FloatLiterals Q := {
  lit_0_003906 := 3906 # 1000000
}.

End Exact.

(* ===================================================================== *)
(** ** Simulated devices *)
(* ===================================================================== *)

Module Sim.
Import Exact.

Definition bytes (l : list Z) : list byte := map byte_of_Z l.

Definition pad (n : nat) (bs : list byte) : list byte :=
  firstn n (bs ++ repeat x00 n).

(** Legacy status record: pixel count, integration time, ten status bytes
    of which the ninth is the USB speed. *)
Definition status_reply (it speed : Z) : list byte :=
  le_bytes 2 2048 ++ le_bytes 4 it ++ bytes [0; 0; 0; 0; 0; 0; 0; 0; speed; 0].

(** Legacy answer to query-information: echo, address, text, NUL. *)
Definition info_reply (address : Z) (text : string) : list byte :=
  bytes [0x05; address] ++ list_byte_of_string text ++ [x00].

(** Raw calibration record with the saturation level at offset 6. *)
Definition saturation_reply (level : Z) : list byte :=
  bytes [0x05; 0x11; 0; 0; 0; 0] ++ le_bytes 2 level ++ repeat x00 8.

(** A 2048-sample spectrum in which sample [k] is [k mod 7]. *)
Definition pattern : list Z := map (fun k => Z.of_nat k mod 7) (seq 0 2048).

Definition pattern_bytes : list byte :=
  flat_map (fun v => le_bytes 2 v) pattern.

Fixpoint chunked (n size : nat) (bs : list byte) : list (list byte) :=
  match n with
  | O => []
  | S n' => firstn size bs :: chunked n' size (skipn size bs)
  end.

Definition spectrum_reads (speed : Z) : list (option (list byte)) :=
  (if speed =? 0x80 then map Some (chunked 8 512 pattern_bytes)
   else map Some (chunked 64 64 pattern_bytes))
  ++ [Some (bytes [0x69])].

Definition calibration_reads (count : string) : list (option (list byte)) :=
  map Some
    ([info_reply 1 "350"; info_reply 2 "2"; info_reply 3 "-1";
      info_reply 4 "0"]
     ++ [info_reply 14 count]).

Definition nonlinearity_reads : list (option (list byte)) :=
  map Some
    [info_reply 6 "1"; info_reply 7 "2"; info_reply 8 "0"; info_reply 9 "0";
     info_reply 10 "0"; info_reply 11 "0"; info_reply 12 "0";
     info_reply 13 "0"].

Definition usb2000_reads (speed : Z) (count : string)
  : list (option (list byte)) :=
  [Some (status_reply 1000 speed); Some (status_reply 1000 speed)]
  ++ spectrum_reads speed
  ++ calibration_reads count
  ++ nonlinearity_reads
  ++ [Some (saturation_reply 32767); Some (info_reply 0 "USB2+H00001")].

Definition usb2000_device (reads : list (option (list byte))) : device Q :=
  mkDevice true reads [] [].

(** A 64-byte response frame of the framed protocol. *)
Definition sts_frame (start status msg : Z) (payload : list byte)
    (end_marker : Z) : list byte :=
  le_bytes 2 start ++ le_bytes 2 0x0100 ++ le_bytes 2 0 ++ le_bytes 2 status
  ++ le_bytes 4 msg ++ le_bytes 4 0 ++ repeat x00 6
  ++ bytes [0; Z.of_nat (length payload)] ++ pad 16 payload
  ++ le_bytes 4 0x14 ++ repeat x00 16 ++ le_bytes 4 end_marker.

Definition good_frame (msg : Z) (payload : list byte) : list byte :=
  sts_frame 0xC0C1 0 msg payload 0xC2C3C4C5.

(** The 2112-byte spectrum response; pixel [k] holds [k mod 5]. *)
Definition sts_pattern : list Z := map (fun k => Z.of_nat k mod 5) (seq 0 1024).

Definition sts_spectrum_bytes : list byte :=
  le_bytes 2 0xC0C1 ++ le_bytes 2 0x0100 ++ le_bytes 2 0 ++ le_bytes 2 0
  ++ le_bytes 4 0x00101000 ++ le_bytes 4 0 ++ le_bytes 4 0 ++ le_bytes 2 0
  ++ bytes [0; 0] ++ repeat x00 16 ++ le_bytes 4 2068
  ++ flat_map (fun v => le_bytes 2 v) sts_pattern
  ++ repeat x00 16 ++ le_bytes 4 0xC2C3C4C5.

Definition sts_spectrum_reads : list (option (list byte)) :=
  map Some (chunked 33 64 sts_spectrum_bytes).

(** binary32 bit patterns *)
Definition f32_one : Z := 0x3F800000.
Definition f32_two : Z := 0x40000000.

Definition coeff_frame (msg bits : Z) : list byte :=
  good_frame msg (le_bytes 4 bits).

Definition sts_reads (count : Z) : list (option (list byte)) :=
  [None;                                              (* _initialize *)
   Some (good_frame 0x80 (bytes [3]));                (* hardware version *)
   Some (good_frame 0x90 (bytes [7]));                (* software version *)
   Some (good_frame 0x101 (bytes [5]));               (* serial length *)
   Some (good_frame 0x100 (list_byte_of_string "S0042"));
   None;                                              (* integration time *)
   None]                                              (* scan averages *)
  ++ sts_spectrum_reads
  ++ map Some [coeff_frame 0x180101 f32_one; coeff_frame 0x180101 f32_two;
               coeff_frame 0x180101 0; coeff_frame 0x180101 0]
  ++ [Some (good_frame 0x181100 (bytes [count]))]
  ++ map Some [coeff_frame 0x181101 f32_one; coeff_frame 0x181101 0;
               coeff_frame 0x181101 0; coeff_frame 0x181101 0;
               coeff_frame 0x181101 0; coeff_frame 0x181101 0;
               coeff_frame 0x181101 0; coeff_frame 0x181101 0]
  ++ [Some (good_frame 0x183100 (bytes [0]))]
  ++ sts_spectrum_reads.

Definition sts_device (reads : list (option (list byte))) : device Q :=
  mkDevice true reads [] [].

(** Sessions as the constructors leave them. *)
Definition usb_session : USB2000.obj Q :=
  Eval vm_compute in
  match fst (USB2000.new (usb2000_device (usb2000_reads 0x80 "7"))) with
  | Ok o => o
  | Raise _ => USB2000.fresh
  end.

Definition sts_session : STS.obj Q :=
  Eval vm_compute in
  match fst (STS.new (sts_device (sts_reads 8))) with
  | Ok o => o
  | Raise _ => STS.fresh
  end.

(** A legacy session about to read one high-speed spectrum. *)
Definition usb_ready : world Q (USB2000.obj Q) :=
  mkWorld (usb2000_device (spectrum_reads 0x80)) usb_session.

(** A framed session about to read one spectrum. *)
Definition sts_ready : world Q (STS.obj Q) :=
  mkWorld (sts_device sts_spectrum_reads) sts_session.

(** A framed session whose device answers with the response [r]. *)
Definition sts_answering (r : list byte) : world Q (STS.obj Q) :=
  mkWorld (sts_device [Some r]) sts_session.

(** A response with status 5, and a response with both markers wrong. *)
Definition error_frame : list byte :=
  sts_frame 0xC0C1 5 0x180101 (le_bytes 4 f32_one) 0xC2C3C4C5.

Definition unmarked_frame : list byte :=
  sts_frame 0x0000 0 0x181100 (bytes [8]) 0x00000000.

(** A legacy session about to load its nonlinearity calibration. *)
Definition usb_before_nonlinearity : world Q (USB2000.obj Q) :=
  mkWorld (usb2000_device (Some (info_reply 14 "7") :: nonlinearity_reads))
          usb_session.

(** Devices that report five nonlinearity coefficients. *)
Definition usb_five : device Q := usb2000_device (usb2000_reads 0x80 "5").
Definition sts_five : device Q := sts_device (sts_reads 5).

Definition usb_five_checked : world Q (USB2000.obj Q) :=
  snd (USB2000.init_before_nonlinearity (mkWorld usb_five USB2000.fresh)).
Definition sts_five_checked : world Q (STS.obj Q) :=
  snd (STS.init_before_nonlinearity (mkWorld sts_five STS.fresh)).

(** A device whose first nine status reads fail, and one whose first ten
    do. *)
Definition usb_nine_failures : device Q :=
  usb2000_device (repeat None 9 ++ usb2000_reads 0x80 "7").
Definition usb_ten_failures : device Q :=
  usb2000_device (repeat None 10 ++ usb2000_reads 0x80 "7").

Definition usb_nine_opened : world Q (USB2000.obj Q) :=
  snd (USB2000.init_open (mkWorld usb_nine_failures USB2000.fresh)).
Definition usb_ten_opened : world Q (USB2000.obj Q) :=
  snd (USB2000.init_open (mkWorld usb_ten_failures USB2000.fresh)).

(** A legacy session whose device answers with the reply [r], and one
    whose device stays silent. *)
Definition usb_answering (r : list byte) : world Q (USB2000.obj Q) :=
  mkWorld (usb2000_device [Some r]) usb_session.

Definition usb_silent : world Q (USB2000.obj Q) :=
  mkWorld (usb2000_device []) usb_session.

Definition sts_silent : world Q (STS.obj Q) :=
  mkWorld (sts_device []) sts_session.

(** Devices that let the constructors succeed. *)
Definition usb_complete : device Q := usb2000_device (usb2000_reads 0x80 "7").
Definition sts_complete : device Q := sts_device (sts_reads 8).

(** No device on the bus. *)
Definition absent : device Q := mkDevice false [] [] [].

(** A device whose status reply is cut short. *)
Definition usb_short_status : device Q :=
  usb2000_device [Some (bytes [0; 8; 0xE8; 3])].

(** A legacy session facing the four wavelength answers. *)
Definition usb_before_wavelength : world Q (USB2000.obj Q) :=
  mkWorld (usb2000_device
             (map Some [info_reply 1 "350"; info_reply 2 "2";
                        info_reply 3 "-1"; info_reply 4 "0"]))
          usb_session.

(** A framed session with two stale responses in the buffer, then a
    time-out, then a response that must survive. *)
Definition sts_pending : world Q (STS.obj Q) :=
  mkWorld (sts_device [Some [x00]; Some [x01]; None; Some [x02]]) sts_session.

(** A framed session about to be asked for its serial number by a device
    that fails the length query. *)
Definition sts_before_serial : world Q (STS.obj Q) :=
  mkWorld (sts_device
             [Some error_frame;
              Some (good_frame 0x100 (list_byte_of_string "S0042"))])
          sts_session.

(** A framed device that acknowledges the set-integration-time command. *)
Definition sts_acknowledging : device Q :=
  sts_device
    [None;
     Some (good_frame 0x80 (bytes [3]));
     Some (good_frame 0x90 (bytes [7]));
     Some (good_frame 0x101 (bytes [5]));
     Some (good_frame 0x100 (list_byte_of_string "S0042"));
     Some (good_frame 0x110010 (le_bytes 4 10000))].

Definition sts_acknowledging_identified : world Q (STS.obj Q) :=
  snd ((STS.init_open ;;; STS.init_identify)
         (mkWorld sts_acknowledging STS.fresh)).

(** Coefficient responses, the second of which reports an error. *)
Definition mixed_coefficients : list (list byte) :=
  [coeff_frame 0x180101 f32_one; error_frame;
   coeff_frame 0x180101 f32_two; coeff_frame 0x180101 0].

Definition eight_coefficients : list (list byte) :=
  repeat (coeff_frame 0x181101 f32_one) 8.

(** A temperature response: 1.0 at offset 24, 2.0 at offset 32. *)
Definition temperature_frame : list byte :=
  le_bytes 2 0xC0C1 ++ le_bytes 2 0x0100 ++ le_bytes 2 0 ++ le_bytes 2 0
  ++ le_bytes 4 0x00400002 ++ le_bytes 4 0 ++ le_bytes 4 0 ++ le_bytes 2 0
  ++ bytes [0; 12] ++ le_bytes 4 f32_one ++ le_bytes 4 0 ++ le_bytes 4 f32_two
  ++ repeat x00 4 ++ le_bytes 4 0x14 ++ repeat x00 16
  ++ le_bytes 4 0xC2C3C4C5.

(** The 65 chunks of an irradiance calibration that is all zeros. *)
Definition zero_chunks : list (list byte) := repeat (repeat x00 64) 65.

Definition sts_before_irradiance : world Q (STS.obj Q) :=
  mkWorld (sts_device (map Some zero_chunks)) sts_session.

End Sim.

(* ===================================================================== *)
(** * Vocabulary of the statements *)
(* ===================================================================== *)

Section MonadVocabulary.
Context {F : Type} {FO : FloatOps F} {Obj : Type}.
Local Abbreviation Py := (M F Obj).

(** A computation that never assigns an attribute. *)
Definition keeps_self {A} (c : Py A) : Prop :=
  forall w, self (snd (c w)) = self w.

(** A computation that leaves the world as it is. *)
Definition silent {A} (c : Py A) : Prop := forall w, snd (c w) = w.

(** A computation that never removes an event from the trace. *)
Definition trace_grows {A} (c : Py A) : Prop :=
  forall w e, In e (trace (dev w)) -> In e (trace (dev (snd (c w)))).

(** A read that raises: time-out, scripted failure, or overflow. *)
Definition read_raises (size : Z) (rs : list (option (list byte))) : bool :=
  match rs with
  | Some bs :: _ => negb (Z.of_nat (length bs) <=? size)
  | _ => true
  end.

(** Failed attempts of a retried body. *)
Inductive attempts_fail (body : Py unit) (handled : exn -> bool)
  : nat -> world F Obj -> world F Obj -> Prop :=
| fail_none w : attempts_fail body handled 0 w w
| fail_more n w e w1 w2 :
    body w = (Raise e, w1) -> handled e = true ->
    attempts_fail body handled n w1 w2 ->
    attempts_fail body handled (S n) w w2.

End MonadVocabulary.

Section DataVocabulary.
Context {F : Type} {FO : FloatOps F}.
Local Abbreviation uworld := (world F (USB2000.obj F)).
Local Abbreviation sworld := (world F (STS.obj F)).

(** The [k]th signed 16-bit little-endian sample of a buffer. *)
Definition sample16 (bs : list byte) (k : nat) : Z :=
  signed16 (le_uint (firstn 2 (skipn (2 * k) bs))).

(** The [k]th unsigned 16-bit little-endian value of a buffer. *)
Definition sample_u16 (bs : list byte) (k : nat) : Z :=
  le_uint (firstn 2 (skipn (2 * k) bs)).

(** The sum of [n] terms, accumulated from [0] in index order as
    Python's [sum] does. *)
Definition poly_sum (term : nat -> F) (n : nat) : F :=
  fold_left (fun acc i => fadd acc (term i)) (seq 0 n) (of_int 0).

(** The chunking policy in the words of the specification. *)
Definition spec_chunk_count (speed : Z) : nat :=
  if speed =? 0x80 then 8%nat else 64%nat.
Definition spec_chunk_size (speed : Z) : Z :=
  if speed =? 0x80 then 512 else 64.

(** The two rows computed by [acquire_spectrum] from the raw samples. *)
Definition wavelength_row (wl : list F) (first last : nat) : list F :=
  arr_sum (length (arange first last))
    (map (fun i => iarr_scale (nth i wl (of_int 0))
                     (iarr_pow (arange first last) (Z.of_nat i)))
         (seq 0 4)).

Definition linearized (nl : list F) (count : nat) (raw : list F) : list F :=
  arr_div raw
    (arr_sum (length raw)
       (map (fun i => arr_scale (nth i nl (of_int 0))
                        (arr_pow raw (Z.of_nat i)))
            (seq 0 count))).

(** The cubic of the wavelength calibration as the code accumulates it:
    [sum] starts from [0] and adds [c_i * pixel**i] for [i = 0, 1, 2, 3]. *)
Definition cubic_from_zero (c0 c1 c2 c3 : F) (pixel : Z) : F :=
  fadd (fadd (fadd (fadd (of_int 0) (fmul c0 (of_int 1)))
                   (fmul c1 (of_int pixel)))
             (fmul c2 (of_int (pixel ^ 2))))
       (fmul c3 (of_int (pixel ^ 3))).

(** [c0 + c1*pixel + c2*pixel^2 + c3*pixel^3] *)
Definition cubic (c0 c1 c2 c3 : F) (pixel : Z) : F :=
  fadd (fadd (fadd c0 (fmul c1 (of_int pixel)))
             (fmul c2 (of_int (pixel ^ 2))))
       (fmul c3 (of_int (pixel ^ 3))).

(** The commands and reads of the eight coefficient queries. *)
Definition eight_coefficient_queries : list (event F) :=
  flat_map (fun a => [EvWrite USB2000._EP1_out [x05; byte_of_Z a];
                      EvRead USB2000._EP1_in USB2000._EP1_in_size])
           [6; 7; 8; 9; 10; 11; 12; 13].

(** Fields of a 64-byte response frame, by byte offset. *)
Definition frame_status (r : list byte) : Z := le_uint (firstn 2 (skipn 6 r)).
Definition frame_byte24 (r : list byte) : Z := le_uint (firstn 1 (skipn 24 r)).
Definition frame_float24 (r : list byte) : F :=
  f32_of_bits (le_uint (firstn 4 (skipn 24 r))).
Definition frame_start (r : list byte) : Z := le_uint (firstn 2 r).
Definition frame_end (r : list byte) : Z := le_uint (firstn 4 (skipn 60 r)).

(** What [check_ack] prints and returns for a response [r] whose payload
    decodes to [v]. *)
Definition ack_prints (r : list byte) : list (event F) :=
  if Nat.eqb (length r) 64 then
    if frame_status r =? 0 then []
    else [EvPrint "Error code: %i" [VInt (frame_status r)]]
  else [EvPrint "Unexpected msg lenght: %i vs 64" [VInt (Z.of_nat (length r))]].

Definition ack_value (r : list byte) (v : pyval F) : pyval F :=
  if Nat.eqb (length r) 64 && (frame_status r =? 0) then v else VInt (-1).

Definition printed (e : event F) (w : sworld) : sworld :=
  mkWorld (log e (dev w)) (self w).

(** The 64-byte request frame with message type [msg], [immlen] bytes of
    immediate data and the 16-byte payload region [payload]. *)
Definition request_frame (msg immlen : Z) (payload : list byte) : list byte :=
  le_bytes 2 STS._START_BYTES ++ le_bytes 2 STS._PROTOCOL_VERSION
  ++ le_bytes 2 0 ++ le_bytes 2 0 ++ le_bytes 4 msg ++ le_bytes 4 0
  ++ le_bytes 4 0 ++ le_bytes 2 0 ++ le_bytes 1 0 ++ le_bytes 1 immlen
  ++ payload ++ le_bytes 4 0x14 ++ repeat x00 16
  ++ le_bytes 4 STS._END_BYTES.

Definition u32 (z : Z) : Prop := 0 <= z <= 4294967295.

(** What a response to a set command makes [check_ack] print. *)
Definition set_ack_prints (r : list byte) : list (event F) :=
  if Nat.eqb (length r) 64 && (frame_status r =? 0)
  then [EvPrint "Error setting integration time" []]
  else ack_prints r.

(** The world after [k] status queries whose read failed. *)
Fixpoint after_dead_reads (k : nat) (w : uworld) : uworld :=
  match k with
  | O => w
  | S k' =>
      after_dead_reads k'
        (mkWorld (mkDevice (attached (dev w)) (tl (rscript (dev w))) []
                    (trace (dev w)
                     ++ [EvWrite USB2000._EP1_out [xfe];
                         EvRead USB2000._EP1_in USB2000._EP1_in_size]))
                 (self w))
  end.

End DataVocabulary.

Section ExchangeVocabulary.
Context {F : Type} {FO : FloatOps F}.

(** The world after a command that the transport accepted and the reads
    that followed it: the script is down to [rest] and the trace has
    grown by [evs]. *)
Definition after_exchange {Obj} (w : world F Obj)
    (rest : list (option (list byte))) (evs : list (event F)) : world F Obj :=
  mkWorld (mkDevice (attached (dev w)) rest [] (trace (dev w) ++ evs))
          (self w).

(** A byte string without NUL. *)
Definition nul_free (s : list byte) : Prop :=
  Forall (fun b => byte_val b <> 0) s.

(** The command and the read of one legacy exchange. *)
Definition legacy_exchange (cmd : list byte) : list (event F) :=
  [EvWrite USB2000._EP1_out cmd;
   EvRead USB2000._EP1_in USB2000._EP1_in_size].

(** A well-formed text reply to the legacy query of [address]: echo,
    address, text, NUL, anything. *)
Definition text_reply (address : Z) (text tail : list byte) : list byte :=
  x05 :: byte_of_Z (address mod 255) :: text ++ x00 :: tail.

(** The [n]-byte little-endian unsigned value at byte offset [k]. *)
Definition uint_at (n k : nat) (r : list byte) : Z :=
  le_uint (firstn n (skipn k r)).

(** The signed 16-bit little-endian value at byte offset [k]. *)
Definition int16_at (k : nat) (r : list byte) : Z :=
  signed16 (le_uint (firstn 2 (skipn k r))).

(** The binary32 value at byte offset [k]. *)
Definition float_at (k : nat) (r : list byte) : F :=
  f32_of_bits (le_uint (firstn 4 (skipn k r))).

(** The request and the read of one framed exchange without immediate
    data. *)
Definition framed_exchange (msg : Z) : list (event F) :=
  [EvWrite STS._EP1_out (request_frame msg 0 (repeat x00 16));
   EvRead STS._EP1_in STS._EP1_in_size].

(** A framed response that the driver accepts: 64 bytes, status 0. *)
Definition frame_ok (r : list byte) : bool :=
  Nat.eqb (length r) 64 && (frame_status r =? 0).

(** The coefficient that a response to [_query_coefficient] stands for
    once [float] has been applied: the payload, or [float(-1)]. *)
Definition coefficient_of (r : list byte) : F :=
  if frame_ok r then frame_float24 r else of_int (-1).

(** The request, the read and the prints of one coefficient query. *)
Definition coefficient_exchange (command : Z) (ir : nat * list byte)
  : list (event F) :=
  [EvWrite STS._EP1_out
     (request_frame command 1 (byte_of_Z (Z.of_nat (fst ir)) :: repeat x00 15));
   EvRead STS._EP1_in STS._EP1_in_size]
  ++ ack_prints (snd ir).

End ExchangeVocabulary.

(* ===================================================================== *)
(** * Facts *)
(* ===================================================================== *)

(** ** Running monadic code *)

Section MonadFacts.
Context {F : Type} {FO : FloatOps F} {Obj : Type}.
Local Abbreviation Py := (@M F Obj).
Local Abbreviation keeps_self := (@keeps_self F Obj _).

Lemma bind_ok {A B} (c : Py A) (k : A -> Py B) w a w' :
  c w = (Ok a, w') -> bind c k w = k a w'.
Proof. intros E. unfold bind. now rewrite E. Qed.

Lemma bind_raise {A B} (c : Py A) (k : A -> Py B) w e w' :
  c w = (Raise e, w') -> bind c k w = (Raise e, w').
Proof. intros E. unfold bind. now rewrite E. Qed.

Lemma bind_inv {A B} (c : Py A) (k : A -> Py B) w b w2 :
  bind c k w = (Ok b, w2) ->
  exists a w1, c w = (Ok a, w1) /\ k a w1 = (Ok b, w2).
Proof.
  unfold bind. destruct (c w) as [[a | e] w1]; intros H.
  - now exists a, w1.
  - discriminate.
Qed.

Lemma bind_assoc {A B C} (c : Py A) (k : A -> Py B) (h : B -> Py C) w :
  bind (bind c k) h w = bind c (fun a => bind (k a) h) w.
Proof. unfold bind. destruct (c w) as [[a | e] w1]; reflexivity. Qed.

Lemma keeps_ret {A} (a : A) : keeps_self (ret a).
Proof. intro w. reflexivity. Qed.

Lemma keeps_raise {A} e : keeps_self (@raise F Obj A e).
Proof. intro w. reflexivity. Qed.

Lemma keeps_bind {A B} (c : Py A) (k : A -> Py B) :
  keeps_self c -> (forall a, keeps_self (k a)) -> keeps_self (bind c k).
Proof.
  intros Hc Hk w. unfold bind. specialize (Hc w).
  destruct (c w) as [[a | e] w1]; simpl in *.
  - now rewrite Hk.
  - assumption.
Qed.

Lemma keeps_lift_opt {A} e (o : option A) : keeps_self (lift_opt e o).
Proof. destruct o; intro w; reflexivity. Qed.

Lemma keeps_emit e : keeps_self (emit e).
Proof. intro w. reflexivity. Qed.

Lemma keeps_dev_write ep data : keeps_self (dev_write ep data).
Proof.
  intro w. unfold dev_write. simpl.
  destruct (wscript (dev w)) as [| [|] ws]; reflexivity.
Qed.

Lemma keeps_dev_read ep size : keeps_self (dev_read ep size).
Proof.
  intro w. unfold dev_read. simpl.
  destruct (rscript (dev w)) as [| r rs]; reflexivity.
Qed.

Lemma keeps_getattr {A} (field : Obj -> option A) : keeps_self (getattr field).
Proof. intro w. unfold getattr. destruct (field (self w)); reflexivity. Qed.

Lemma keeps_for_each {A B} (f : A -> Py B) xs :
  (forall x, keeps_self (f x)) -> keeps_self (for_each f xs).
Proof.
  intros Hf. induction xs as [| x xs IH]; simpl.
  - apply keeps_ret.
  - apply keeps_bind; [apply Hf |]. intros y.
    apply keeps_bind; [apply IH |]. intros ys. apply keeps_ret.
Qed.

Lemma keeps_item {A} (l : list A) i : keeps_self (item l i).
Proof. apply keeps_lift_opt. Qed.

Lemma keeps_as_int v : keeps_self (as_int v).
Proof. destruct v; intro w; reflexivity. Qed.

Lemma keeps_int_item l i : keeps_self (int_item l i).
Proof. apply keeps_bind; [apply keeps_item | intros; apply keeps_as_int]. Qed.

Lemma keeps_byte_item l i : keeps_self (byte_item l i).
Proof. apply keeps_bind; [apply keeps_item | intros; apply keeps_ret]. Qed.

Lemma keeps_concat_chunks cs : keeps_self (concat_chunks cs).
Proof. destruct cs; intro w; reflexivity. Qed.

Lemma keeps_self_run {A} (c : Py A) w r w' :
  keeps_self c -> c w = (r, w') -> self w' = self w.
Proof. intros H E. specialize (H w). now rewrite E in H. Qed.

(** [for_each] over pure bodies is [map]. *)
Lemma for_each_pure {A B} (f : A -> Py B) (g : A -> B) xs w :
  (forall x, In x xs -> f x w = (Ok (g x), w)) ->
  for_each f xs w = (Ok (map g xs), w).
Proof.
  induction xs as [| x xs IH]; intros H; simpl.
  - reflexivity.
  - rewrite (bind_ok _ _ _ _ _ (H x (or_introl eq_refl))).
    rewrite (bind_ok _ _ w (map g xs) w); [reflexivity |].
    apply IH. intros y Hy. apply H. now right.
Qed.

Lemma for_each_py_float_ints zs (w : world F Obj) :
  for_each py_float (map VInt zs) w = (Ok (map of_int zs), w).
Proof.
  rewrite (for_each_pure py_float
             (fun v => match v with VInt z => of_int z | _ => of_int 0 end)).
  - now rewrite map_map.
  - intros v Hv. apply in_map_iff in Hv. destruct Hv as [z [<- _]].
    reflexivity.
Qed.

(** One step of each primitive. *)
Lemma pack_run fmt vals bs (w : world F Obj) :
  struct_pack fmt vals = Some bs -> pack fmt vals w = (Ok bs, w).
Proof. intros E. unfold pack. now rewrite E. Qed.

Lemma unpack_run fmt bs vs (w : world F Obj) :
  struct_unpack fmt bs = Some vs -> unpack fmt bs w = (Ok vs, w).
Proof. intros E. unfold unpack. now rewrite E. Qed.

Lemma getattr_run {A} (field : Obj -> option A) a (w : world F Obj) :
  field (self w) = Some a -> getattr field w = (Ok a, w).
Proof. intros E. unfold getattr. now rewrite E. Qed.

Lemma dev_write_run ep data (w : world F Obj) :
  wscript (dev w) = [] ->
  dev_write ep data w
  = (Ok tt, mkWorld (mkDevice (attached (dev w)) (rscript (dev w)) []
                       (trace (dev w) ++ [EvWrite ep data]))
                    (self w)).
Proof.
  intros E. unfold dev_write. simpl. rewrite E. unfold log.
  now rewrite E.
Qed.

Lemma dev_read_run ep size bs rest (w : world F Obj) :
  rscript (dev w) = Some bs :: rest ->
  Z.of_nat (length bs) <= size ->
  dev_read ep size w
  = (Ok bs, mkWorld (mkDevice (attached (dev w)) rest (wscript (dev w))
                       (trace (dev w) ++ [EvRead ep size]))
                    (self w)).
Proof.
  intros E Hl. unfold dev_read. simpl. rewrite E.
  apply Z.leb_le in Hl. now rewrite Hl.
Qed.

Lemma dev_read_raises ep size (w : world F Obj) :
  read_raises size (rscript (dev w)) = true ->
  dev_read ep size w
  = (Raise USBError,
     mkWorld (mkDevice (attached (dev w)) (tl (rscript (dev w)))
                (wscript (dev w)) (trace (dev w) ++ [EvRead ep size]))
             (self w)).
Proof.
  destruct w as [[at_ rs ws tr] o]. unfold dev_read, read_raises. simpl.
  destruct rs as [| [bs |] rs]; intros H; try reflexivity.
  apply negb_true_iff in H. now rewrite H.
Qed.

(** Reading [n] chunks that the transport delivers. *)
Lemma read_chunks ep size chunks :
  Forall (fun c => Z.of_nat (length c) <= size) chunks ->
  forall n a (w : world F Obj) rest,
    length chunks = n ->
    rscript (dev w) = map Some chunks ++ rest ->
    for_each (fun _ : nat => dev_read ep size) (seq a n) w
    = (Ok chunks,
       mkWorld (mkDevice (attached (dev w)) rest (wscript (dev w))
                  (trace (dev w) ++ repeat (EvRead ep size) n))
               (self w)).
Proof.
  induction 1 as [| c chunks Hc _ IH]; intros n a w rest <- Hs; simpl.
  - rewrite app_nil_r. destruct w as [[at_ rs ws tr] o]. simpl in *.
    now subst.
  - simpl in Hs.
    unfold bind at 1. rewrite (dev_read_run _ _ _ _ _ Hs Hc).
    unfold bind at 1. erewrite (IH _ (S a) _ rest) by reflexivity.
    simpl. unfold ret. now rewrite <- app_assoc.
Qed.

Lemma vstack_run (a b : list F) (w : world F Obj) :
  length a = length b -> vstack a b w = (Ok (a, b), w).
Proof. intros H. unfold vstack. rewrite H, Nat.eqb_refl. reflexivity. Qed.

Lemma concat_chunks_run (chunks : list (list byte)) (w : world F Obj) :
  chunks <> [] -> concat_chunks chunks w = (Ok (concat chunks), w).
Proof.
  destruct chunks as [| c0 rest]; [congruence |]. intros _.
  unfold concat_chunks, ret. simpl. f_equal. f_equal.
  revert c0. induction rest as [| c rest IH]; intros c0; simpl.
  - now rewrite app_nil_r.
  - now rewrite IH, app_assoc.
Qed.

Lemma for_try_after_failures (body : Py unit) handled orelse k :
  forall n w w1,
    attempts_fail body handled k w w1 ->
    for_try (k + n) body handled orelse w = for_try n body handled orelse w1.
Proof.
  induction k as [| k IH]; intros n w w1 Hf; inversion Hf; subst.
  - reflexivity.
  - simpl. rewrite H0, H1. now apply IH.
Qed.

Lemma for_try_success (body : Py unit) handled orelse n w w' :
  body w = (Ok tt, w') ->
  for_try (S n) body handled orelse w = (Ok tt, w').
Proof. intros E. simpl. now rewrite E. Qed.

End MonadFacts.

(** ** Bytes, struct and arrays *)

Section DataFacts.
Context {F : Type} {FO : FloatOps F}.

Lemma byte_val_range b : 0 <= byte_val b < 256.
Proof.
  unfold byte_val. pose proof (Byte.to_N_bounded b). lia.
Qed.

Lemma unpack_fields_length fmt bs :
  length (@unpack_fields F FO fmt bs) = length fmt.
Proof.
  revert bs. induction fmt as [| c fmt IH]; intros bs; simpl; auto.
Qed.

Lemma calcsize_repeat c n : calcsize (repeat c n) = (n * fsize c)%nat.
Proof.
  induction n as [| n IH]; [reflexivity |].
  change (calcsize (repeat c (S n))) with (fsize c + calcsize (repeat c n))%nat.
  rewrite IH. reflexivity.
Qed.

Lemma calcsize_app f1 f2 :
  calcsize (f1 ++ f2) = (calcsize f1 + calcsize f2)%nat.
Proof.
  induction f1 as [| c f1 IH]; [reflexivity |].
  change (calcsize ((c :: f1) ++ f2))
    with (fsize c + calcsize (f1 ++ f2))%nat.
  change (calcsize (c :: f1)) with (fsize c + calcsize f1)%nat.
  rewrite IH. lia.
Qed.

Lemma unpack_fields_app f1 f2 bs :
  @unpack_fields F FO (f1 ++ f2) bs
  = unpack_fields f1 bs ++ unpack_fields f2 (skipn (calcsize f1) bs).
Proof.
  revert bs. induction f1 as [| c f1 IH]; intros bs; simpl.
  - reflexivity.
  - rewrite IH. f_equal. f_equal. f_equal.
    change (calcsize (c :: f1)) with (fsize c + calcsize f1)%nat.
    rewrite skipn_skipn. f_equal. lia.
Qed.

(** A run of [n] equal codes is decoded field by field at stride
    [fsize c]. *)
Lemma unpack_fields_repeat c n bs :
  @unpack_fields F FO (repeat c n) bs
  = map (fun k => unpack1 c (firstn (fsize c) (skipn (k * fsize c) bs)))
        (seq 0 n).
Proof.
  revert bs. induction n as [| n IH]; intros bs.
  - reflexivity.
  - cbn [repeat unpack_fields seq map]. f_equal.
    rewrite IH, <- seq_shift, map_map. apply map_ext. intros k.
    rewrite skipn_skipn.
    replace (k * fsize c + fsize c)%nat with (S k * fsize c)%nat by lia.
    reflexivity.
Qed.

Lemma unpack_h_samples n bs :
  @unpack_fields F FO (repeat ch n) bs
  = map VInt (map (sample16 bs) (seq 0 n)).
Proof.
  rewrite unpack_fields_repeat, map_map. apply map_ext. intros k.
  unfold sample16. simpl fsize.
  replace (k * 2)%nat with (2 * k)%nat by lia. reflexivity.
Qed.

(** Element-wise arithmetic, element by element. *)
Lemma arr_zip_length op (a b : list F) :
  length a = length b -> length (arr_zip op a b) = length a.
Proof.
  intros H. unfold arr_zip. rewrite length_map, length_combine. lia.
Qed.

Lemma arr_zip_nth op (a b : list F) k d :
  (k < length a)%nat -> length a = length b ->
  nth k (arr_zip op a b) d = op (nth k a d) (nth k b d).
Proof.
  intros Hk Hl. unfold arr_zip.
  rewrite (nth_indep _ d (op (fst (d, d)) (snd (d, d)))).
  - rewrite (map_nth (fun p => op (fst p) (snd p))), combine_nth by assumption.
    reflexivity.
  - rewrite length_map, length_combine. lia.
Qed.

Lemma arr_sum_length n (terms : list (list F)) :
  (forall t, In t terms -> length t = n) ->
  length (arr_sum n terms) = n.
Proof.
  unfold arr_sum. intros H.
  assert (G : forall acc, length acc = n ->
                          length (fold_left arr_add terms acc) = n).
  { induction terms as [| t terms IH]; intros acc Ha; simpl; [assumption |].
    apply IH.
    - intros t' Ht'. apply H. now right.
    - unfold arr_add. rewrite arr_zip_length; [assumption |].
      rewrite Ha. symmetry. apply H. now left. }
  apply G. apply repeat_length.
Qed.

Lemma arr_sum_nth n (terms : list (list F)) k d :
  (k < n)%nat ->
  (forall t, In t terms -> length t = n) ->
  nth k (arr_sum n terms) d
  = fold_left (fun acc t => fadd acc (nth k t d)) terms (of_int 0).
Proof.
  unfold arr_sum. intros Hk H.
  assert (G : forall acc, length acc = n ->
            nth k (fold_left arr_add terms acc) d
            = fold_left (fun a t => fadd a (nth k t d)) terms (nth k acc d)).
  { induction terms as [| t terms IH]; intros acc Ha; simpl; [reflexivity |].
    assert (Ht : length t = n) by (apply H; now left).
    rewrite IH.
    - unfold arr_add. rewrite arr_zip_nth by lia. reflexivity.
    - intros t' Ht'. apply H. now right.
    - unfold arr_add. rewrite arr_zip_length; lia. }
  rewrite G by apply repeat_length.
  f_equal. apply nth_repeat_lt. assumption.
Qed.

End DataFacts.

(** ** Coefficient loops and polynomial rows *)

Section PolyFacts.
Context {F : Type} {FO : FloatOps F}.

Lemma nth_map_lt {A B} (f : A -> B) l k d d' :
  (k < length l)%nat -> nth k (map f l) d = f (nth k l d').
Proof.
  intros H. rewrite (nth_indep _ d (f d')) by now rewrite length_map.
  apply map_nth.
Qed.

Lemma fold_left_map_in {A B C} (f : A -> B -> A) (h : C -> B) l a :
  fold_left f (map h l) a = fold_left (fun acc i => f acc (h i)) l a.
Proof. revert a. induction l as [| x l IH]; intros a; simpl; auto. Qed.

Lemma arange_length a b : length (arange a b) = (b - a)%nat.
Proof. unfold arange. now rewrite length_map, length_seq. Qed.

Lemma arange_nth a b k d :
  (k < b - a)%nat -> nth k (arange a b) d = Z.of_nat (a + k).
Proof.
  intros H. unfold arange. rewrite (nth_map_lt _ _ _ _ 0%nat).
  - now rewrite seq_nth.
  - now rewrite length_seq.
Qed.

(** Reading coefficients [cs[i]] for [i] in [range(n)]. *)
Lemma for_each_coeffs {Obj B} (field : Obj -> option (list F)) (cs : list F)
    (g : F -> nat -> B) n (w : world F Obj) d :
  field (self w) = Some cs -> (n <= length cs)%nat ->
  for_each (fun i => l <- getattr field ;; c <- item l i ;; ret (g c i))
           (seq 0 n) w
  = (Ok (map (fun i => g (nth i cs d) i) (seq 0 n)), w).
Proof.
  intros Hf Hn. apply for_each_pure. intros i Hi.
  apply in_seq in Hi.
  erewrite bind_ok by (apply getattr_run; exact Hf).
  unfold item.
  assert (E : nth_error cs i = Some (nth i cs d)) by (apply nth_error_nth'; lia).
  rewrite E. reflexivity.
Qed.

Lemma poly_rows_nth (g : nat -> list F) n m k d :
  (k < m)%nat -> (forall i, length (g i) = m) ->
  nth k (arr_sum m (map g (seq 0 n))) d = poly_sum (fun i => nth k (g i) d) n.
Proof.
  intros Hk Hg. rewrite arr_sum_nth.
  - unfold poly_sum. now rewrite fold_left_map_in.
  - assumption.
  - intros t Ht. apply in_map_iff in Ht. destruct Ht as [i [<- _]]. apply Hg.
Qed.

Lemma poly_rows_length (g : nat -> list F) n m :
  (forall i, length (g i) = m) ->
  length (arr_sum m (map g (seq 0 n))) = m.
Proof.
  intros Hg. apply arr_sum_length.
  intros t Ht. apply in_map_iff in Ht. destruct Ht as [i [<- _]]. apply Hg.
Qed.

(** Pixel powers up to the cube stay inside int64. *)
Lemma wrap_int64_small z : - 2 ^ 63 <= z < 2 ^ 63 -> wrap_int64 z = z.
Proof.
  intros H. unfold wrap_int64. rewrite Z.mod_small; lia.
Qed.

Lemma pixel_power_no_wrap p i :
  0 <= p <= 2047 -> (i < 4)%nat ->
  wrap_int64 (p ^ Z.of_nat i) = p ^ Z.of_nat i.
Proof.
  intros Hp Hi. apply wrap_int64_small.
  assert (0 <= p ^ Z.of_nat i <= 2047 ^ 3).
  { split; [apply Z.pow_nonneg; lia |].
    transitivity (2047 ^ Z.of_nat i).
    - apply Z.pow_le_mono_l. lia.
    - apply Z.pow_le_mono_r; lia. }
  lia.
Qed.

End PolyFacts.

(** ** USB2000: reading a spectrum *)

Section USB2000Facts.
Context {F : Type} {FO : FloatOps F}.
Local Abbreviation uworld := (world F (USB2000.obj F)).
Local Open Scope py_scope.

Lemma request_spectrum_run (w : uworld) it speed chunks b rest :
  USB2000._it (self w) = Some it ->
  USB2000._usbcomm (self w) = Some speed ->
  wscript (dev w) = [] ->
  length chunks = spec_chunk_count speed ->
  Forall (fun c => Z.of_nat (length c) <= spec_chunk_size speed) chunks ->
  length (concat chunks) = 4096%nat ->
  rscript (dev w) = map Some chunks ++ Some [b] :: rest ->
  USB2000._request_spectrum w
  = (if byte_val b =? 0x69
     then Ok (map VInt (map (sample16 (concat chunks)) (seq 0 2048)))
     else Raise (OOError "request_spectrum: Wrong answer"),
     mkWorld
       (mkDevice (attached (dev w)) rest []
          (trace (dev w)
           ++ [EvWrite USB2000._EP1_out [x09]; EvSleep (Z.max (it - 100000) 0)]
           ++ repeat (EvRead USB2000._EP2_in (spec_chunk_size speed))
                     (spec_chunk_count speed)
           ++ [EvRead USB2000._EP2_in 1]))
       (self w)).
Proof.
  intros Hit Hsp Hw Hn Hc Hlen Hr.
  unfold USB2000._request_spectrum.
  erewrite bind_ok by (apply pack_run; reflexivity).
  erewrite bind_ok by (apply dev_write_run; assumption).
  erewrite bind_ok by (apply getattr_run; exact Hit).
  erewrite bind_ok by reflexivity.
  erewrite bind_ok by (apply getattr_run; exact Hsp).
  assert (Hne : chunks <> []).
  { intros ->. unfold spec_chunk_count in Hn. destruct (speed =? 128); discriminate. }
  assert (Hreads :
    (if speed =? 128
     then for_each (fun _ : nat => dev_read USB2000._EP2_in 512) (seq 0 8)
     else for_each (fun _ : nat => dev_read USB2000._EP2_in 64) (seq 0 64))
    = (for_each (fun _ : nat => dev_read USB2000._EP2_in (spec_chunk_size speed))
                (seq 0 (spec_chunk_count speed)) : M F (USB2000.obj F) _)).
  { unfold spec_chunk_size, spec_chunk_count. destruct (speed =? 128); reflexivity. }
  rewrite Hreads.
  erewrite bind_ok by (eapply read_chunks; [exact Hc | exact Hn | simpl; exact Hr]).
  erewrite bind_ok by (apply concat_chunks_run; exact Hne).
  erewrite bind_ok.
  2:{ apply unpack_run. unfold struct_unpack. rewrite calcsize_repeat, Hlen.
      reflexivity. }
  erewrite bind_ok.
  2:{ apply dev_read_run with (rest := rest); [reflexivity | simpl; lia]. }
  rewrite unpack_h_samples. set (samples := map VInt _).
  unfold byte_item, item, lift_opt, bind, ret, raise, log.
  cbn [nth_error dev self trace rscript wscript attached].
  rewrite <- !app_assoc. cbn [app le_bytes]. cbv beta iota.
  destruct (byte_val b =? 105); reflexivity.
Qed.
End USB2000Facts.

Ltac keeps :=
  repeat first
    [ apply keeps_ret | apply keeps_raise | apply keeps_emit
    | apply keeps_dev_write | apply keeps_dev_read | apply keeps_getattr
    | apply keeps_lift_opt | apply keeps_item | apply keeps_int_item
    | apply keeps_byte_item | apply keeps_concat_chunks
    | apply keeps_as_int
    | apply keeps_bind; [| intros ]
    | apply keeps_for_each; intros
    | match goal with
      | |- keeps_self (if ?b then _ else _) => destruct b
      | |- keeps_self (match ?x with _ => _ end) => destruct x
      end ].

Ltac inv_bind H :=
  let a := fresh "a" in
  let w := fresh "w" in
  let E := fresh "E" in
  apply bind_inv in H; destruct H as (a & w & E & H).

Lemma fold_left_ext_in_acc {A B} (f g : A -> B -> A) l a :
  (forall acc x, f acc x = g acc x) -> fold_left f l a = fold_left g l a.
Proof.
  intros H. revert a. induction l as [| x l IH]; intros a; simpl; [reflexivity |].
  now rewrite H, IH.
Qed.

(** ** USB2000: the rows of [acquire_spectrum] *)

Section USB2000Acquire.
Context {F : Type} {FO : FloatOps F}.
Local Abbreviation uworld := (world F (USB2000.obj F)).
Local Open Scope py_scope.

Lemma request_spectrum_keeps : keeps_self (@USB2000._request_spectrum F FO).
Proof. unfold USB2000._request_spectrum, pack, unpack. keeps. Qed.

Lemma request_spectrum_result (w w' : uworld) spectrum :
  USB2000._request_spectrum w = (Ok spectrum, w') ->
  self w' = self w
  /\ exists buf, length buf = 4096%nat
                 /\ spectrum = map VInt (map (sample16 buf) (seq 0 2048)).
Proof.
  intros H. split; [exact (keeps_self_run _ _ _ _ request_spectrum_keeps H) |].
  unfold USB2000._request_spectrum in H.
  do 7 inv_bind H.
  apply bind_inv in H. destruct H as (sp & w8 & Hu & H).
  do 2 inv_bind H.
  unfold unpack, struct_unpack in Hu.
  destruct (Nat.eqb (length a5) (calcsize (repeat ch 2048))) eqn:El;
    [| discriminate].
  apply Nat.eqb_eq in El. rewrite calcsize_repeat in El.
  remember (unpack_fields (repeat ch 2048) a5) as U eqn:HU.
  unfold lift_opt, ret in Hu. injection Hu as Hsp _. subst U.
  destruct (negb (a7 =? 105)); [discriminate |].
  injection H as <- _. exists a5. split; [exact El |].
  rewrite <- Hsp. apply unpack_h_samples.
Qed.

Lemma wavelength_row_length wl a b :
  length (wavelength_row wl a b) = (b - a)%nat.
Proof.
  unfold wavelength_row. rewrite poly_rows_length; [apply arange_length |].
  intros i. unfold iarr_scale, iarr_pow. now rewrite !length_map.
Qed.

Lemma wavelength_row_nth wl a b k d :
  (k < b - a)%nat ->
  nth k (wavelength_row wl a b) d
  = poly_sum (fun i => fmul (nth i wl (of_int 0))
                         (of_int (wrap_int64 (Z.of_nat (a + k) ^ Z.of_nat i))))
             4.
Proof.
  intros Hk. unfold wavelength_row.
  rewrite poly_rows_nth.
  - unfold poly_sum. apply fold_left_ext_in_acc. intros acc i. f_equal.
    unfold iarr_scale, iarr_pow.
    rewrite map_map, (nth_map_lt _ _ _ _ 0) by (rewrite arange_length; lia).
    now rewrite arange_nth.
  - rewrite arange_length. exact Hk.
  - intros i. unfold iarr_scale, iarr_pow. now rewrite !length_map.
Qed.

Lemma linearized_length nl n raw :
  length (linearized nl n raw) = length raw.
Proof.
  unfold linearized, arr_div. apply arr_zip_length.
  rewrite poly_rows_length; [reflexivity |].
  intros i. unfold arr_scale, arr_pow. now rewrite !length_map.
Qed.

Lemma linearized_nth nl n raw k d :
  (k < length raw)%nat ->
  nth k (linearized nl n raw) d
  = fdiv (nth k raw d)
         (poly_sum (fun i => fmul (nth i nl (of_int 0))
                                  (fpow (nth k raw d) (Z.of_nat i))) n).
Proof.
  intros Hk.
  assert (Hlen : forall i, length (arr_scale (nth i nl (of_int 0))
                                     (arr_pow raw (Z.of_nat i))) = length raw).
  { intros i. unfold arr_scale, arr_pow. now rewrite !length_map. }
  unfold linearized, arr_div. rewrite arr_zip_nth.
  - f_equal. rewrite poly_rows_nth by assumption.
    unfold poly_sum. apply fold_left_ext_in_acc. intros acc i. f_equal.
    unfold arr_scale, arr_pow.
    rewrite map_map.
    exact (nth_map_lt (fun x => fmul (nth i nl (of_int 0))
                                     (fpow x (Z.of_nat i))) raw k d d Hk).
  - exact Hk.
  - now rewrite poly_rows_length.
Qed.

Lemma arr_scale_r_nth (a : list F) c k d :
  (k < length a)%nat -> nth k (arr_scale_r a c) d = fmul (nth k a d) c.
Proof.
  intros Hk. unfold arr_scale_r.
  exact (nth_map_lt (fun x => fmul x c) a k d d Hk).
Qed.

Lemma acquire_spectrum_steps (w w' : uworld) zs wl nl st :
  USB2000._request_spectrum w = (Ok (map VInt zs), w') ->
  USB2000._wl (self w) = Some wl -> (4 <= length wl)%nat ->
  USB2000._nl (self w) = Some nl -> (8 <= length nl)%nat ->
  USB2000._st (self w) = Some st ->
  USB2000.acquire_spectrum w
  = vstack (wavelength_row wl 20 2048)
           (arr_scale_r (linearized nl 8 (skipn 20 (map of_int zs))) st) w'.
Proof.
  intros Hreq Hwl Hwl4 Hnl Hnl8 Hst.
  pose proof (keeps_self_run _ _ _ _ request_spectrum_keeps Hreq) as Hself.
  unfold USB2000.acquire_spectrum.
  erewrite bind_ok by exact Hreq.
  erewrite bind_ok by apply for_each_py_float_ints.
  erewrite bind_ok.
  2:{ apply (for_each_coeffs USB2000._wl wl
               (fun c i => iarr_scale c (iarr_pow (arange 20 2048) (Z.of_nat i)))
               4 w' (of_int 0)); [rewrite Hself; exact Hwl | exact Hwl4]. }
  erewrite bind_ok.
  2:{ apply (for_each_coeffs USB2000._nl nl
               (fun c i => arr_scale c (arr_pow (skipn 20 (map of_int zs))
                                                (Z.of_nat i)))
               8 w' (of_int 0)); [rewrite Hself; exact Hnl | exact Hnl8]. }
  erewrite bind_ok by (apply getattr_run; rewrite Hself; exact Hst).
  unfold wavelength_row, linearized. reflexivity.
Qed.

Lemma acquire_spectrum_run (w w' : uworld) zs wl nl st :
  USB2000._request_spectrum w = (Ok (map VInt zs), w') ->
  length zs = 2048%nat ->
  USB2000._wl (self w) = Some wl -> (4 <= length wl)%nat ->
  USB2000._nl (self w) = Some nl -> (8 <= length nl)%nat ->
  USB2000._st (self w) = Some st ->
  USB2000.acquire_spectrum w
  = (Ok (wavelength_row wl 20 2048,
         arr_scale_r (linearized nl 8 (skipn 20 (map of_int zs))) st), w').
Proof.
  intros Hreq Hz Hwl Hwl4 Hnl Hnl8 Hst.
  rewrite (acquire_spectrum_steps w w' zs wl nl st) by assumption.
  apply vstack_run.
  unfold arr_scale_r.
  rewrite length_map, wavelength_row_length, linearized_length.
  rewrite length_skipn, length_map, Hz. reflexivity.
Qed.
End USB2000Acquire.

Section StructFacts.
Context {F : Type} {FO : FloatOps F}.

Lemma unpack_fields_nth_error fmt :
  forall i bs c,
    nth_error fmt i = Some c ->
    nth_error (@unpack_fields F FO fmt bs) i
    = Some (unpack1 c (firstn (fsize c) (skipn (calcsize (firstn i fmt)) bs))).
Proof.
  induction fmt as [| c0 fmt IH]; intros [| i] bs c H; try discriminate.
  - injection H as <-. reflexivity.
  - simpl in H. cbn [unpack_fields nth_error firstn].
    rewrite (IH i _ c H).
    change (calcsize (c0 :: firstn i fmt))
      with (fsize c0 + calcsize (firstn i fmt))%nat.
    rewrite skipn_skipn. do 4 f_equal. lia.
Qed.

Lemma slice_middle {A} (a b c : list A) i j :
  length a = i -> length b = (j - i)%nat ->
  slice i j (a ++ b ++ c) = b.
Proof.
  intros <- Hb. unfold slice.
  rewrite skipn_app, skipn_all, Nat.sub_diag. simpl.
  rewrite <- Hb, firstn_app, firstn_all, Nat.sub_diag. simpl.
  apply app_nil_r.
Qed.

End StructFacts.

(** ** STS: reading a spectrum and the rows of [acquire_spectrum] *)

Section STSFacts.
Context {F : Type} {FO : FloatOps F}.
Local Abbreviation sworld := (world F (STS.obj F)).
Local Open Scope py_scope.

Lemma sts_request_spectrum_keeps : keeps_self (@STS._request_spectrum F FO).
Proof. unfold STS._request_spectrum, STS.plain_request, pack, unpack. keeps. Qed.

Lemma spectrum_format_slice bs :
  slice 12 1036 (@unpack_fields F FO STS.spectrum_format bs)
  = map VInt (map (sample_u16 (skipn 44 bs)) (seq 0 1024)).
Proof.
  unfold STS.spectrum_format.
  rewrite unpack_fields_app, unpack_fields_app.
  rewrite slice_middle.
  - rewrite unpack_fields_repeat, map_map. apply map_ext. intros k.
    unfold sample_u16. simpl fsize.
    replace (k * 2)%nat with (2 * k)%nat by lia. reflexivity.
  - apply unpack_fields_length.
  - rewrite unpack_fields_length, repeat_length. reflexivity.
Qed.

Lemma sts_request_spectrum_result (w w' : sworld) spectrum :
  STS._request_spectrum w = (Ok spectrum, w') ->
  self w' = self w
  /\ exists buf, length buf = 2112%nat
                 /\ spectrum = map VInt (map (sample_u16 (skipn 44 buf))
                                             (seq 0 1024)).
Proof.
  intros H. split; [exact (keeps_self_run _ _ _ _ sts_request_spectrum_keeps H) |].
  unfold STS._request_spectrum in H.
  do 7 inv_bind H.
  apply bind_inv in H. destruct H as (sp & w8 & Hu & H).
  unfold unpack, struct_unpack in Hu.
  destruct (Nat.eqb (length a5) (calcsize STS.spectrum_format)) eqn:El;
    [| discriminate].
  apply Nat.eqb_eq in El.
  remember (unpack_fields STS.spectrum_format a5) as U eqn:HU.
  unfold lift_opt, ret in Hu. injection Hu as Hsp _. subst U.
  unfold ret in H. injection H as <- _. exists a5. split.
  - rewrite El. unfold STS.spectrum_format.
    rewrite !calcsize_app, calcsize_repeat. reflexivity.
  - rewrite <- Hsp. apply spectrum_format_slice.
Qed.

Lemma sts_acquire_spectrum_steps (w w' : sworld) zs wl nl :
  STS._request_spectrum w = (Ok (map VInt zs), w') ->
  STS._wl (self w) = Some wl -> (4 <= length wl)%nat ->
  STS._nl (self w) = Some nl ->
  STS.acquire_spectrum w
  = vstack (wavelength_row wl 0 1024)
           (linearized nl (length nl) (map of_int zs)) w'.
Proof.
  intros Hreq Hwl Hwl4 Hnl.
  pose proof (keeps_self_run _ _ _ _ sts_request_spectrum_keeps Hreq) as Hself.
  unfold STS.acquire_spectrum.
  erewrite bind_ok by exact Hreq.
  erewrite bind_ok by apply for_each_py_float_ints.
  erewrite bind_ok by (apply getattr_run; rewrite Hself; exact Hnl).
  erewrite bind_ok.
  2:{ apply (for_each_coeffs STS._wl wl
               (fun c i => iarr_scale c (iarr_pow (arange 0 1024) (Z.of_nat i)))
               4 w' (of_int 0)); [rewrite Hself; exact Hwl | exact Hwl4]. }
  erewrite bind_ok.
  2:{ apply (for_each_coeffs STS._nl nl
               (fun c i => arr_scale c (arr_pow (map of_int zs) (Z.of_nat i)))
               (length nl) w' (of_int 0));
      [rewrite Hself; exact Hnl | apply Nat.le_refl]. }
  unfold wavelength_row, linearized. reflexivity.
Qed.

Lemma sts_acquire_spectrum_run (w w' : sworld) zs wl nl :
  STS._request_spectrum w = (Ok (map VInt zs), w') ->
  length zs = 1024%nat ->
  STS._wl (self w) = Some wl -> (4 <= length wl)%nat ->
  STS._nl (self w) = Some nl ->
  STS.acquire_spectrum w
  = (Ok (wavelength_row wl 0 1024,
         linearized nl (length nl) (map of_int zs)), w').
Proof.
  intros Hreq Hz Hwl Hwl4 Hnl.
  rewrite (sts_acquire_spectrum_steps w w' zs wl nl) by assumption.
  apply vstack_run.
  rewrite wavelength_row_length, linearized_length, length_map, Hz.
  reflexivity.
Qed.

End STSFacts.

(** * The claims about spectrum acquisition *)

Section AcquisitionClaims.
Local Open Scope py_scope.
Context {F : Type} {FO : FloatOps F}.

(** C1.  Legacy protocol: whenever the spectrum read succeeds,
    [acquire_spectrum] returns two rows of length 2028 = 2048 - 20; the
    intensity at position [k] is the raw sample number [20 + k] divided by
    the sum of the eight terms [nl[i] * raw**i] and multiplied by the
    saturation factor.  Framed protocol: both rows have length 1024 and
    the intensity at position [k] is raw sample [k] divided by the sum of
    the [len(nl)] terms. *)
Theorem acquire_spectrum_two_rows
    (wu wu' : world F (USB2000.obj F)) (ws ws' : world F (STS.obj F))
    spectrum_u wl_u nl_u st spectrum_s wl_s nl_s :
  USB2000._request_spectrum wu = (Ok spectrum_u, wu') ->
  USB2000._wl (self wu) = Some wl_u -> (4 <= length wl_u)%nat ->
  USB2000._nl (self wu) = Some nl_u -> (8 <= length nl_u)%nat ->
  USB2000._st (self wu) = Some st ->
  STS._request_spectrum ws = (Ok spectrum_s, ws') ->
  STS._wl (self ws) = Some wl_s -> (4 <= length wl_s)%nat ->
  STS._nl (self ws) = Some nl_s ->
  (exists raw wavelength intensity,
      spectrum_u = map VInt raw /\ length raw = 2048%nat
      /\ USB2000.acquire_spectrum wu = (Ok (wavelength, intensity), wu')
      /\ length wavelength = 2028%nat /\ length intensity = 2028%nat
      /\ forall k d, (k < 2028)%nat ->
           let x := of_int (nth (20 + k) raw 0) in
           nth k intensity d
           = fmul (fdiv x (poly_sum (fun i => fmul (nth i nl_u (of_int 0))
                                                   (fpow x (Z.of_nat i))) 8))
                  st)
  /\ (exists raw wavelength intensity,
      spectrum_s = map VInt raw /\ length raw = 1024%nat
      /\ STS.acquire_spectrum ws = (Ok (wavelength, intensity), ws')
      /\ length wavelength = 1024%nat /\ length intensity = 1024%nat
      /\ forall k d, (k < 1024)%nat ->
           let x := of_int (nth k raw 0) in
           nth k intensity d
           = fdiv x (poly_sum (fun i => fmul (nth i nl_s (of_int 0))
                                             (fpow x (Z.of_nat i)))
                              (length nl_s))).
Proof.
  intros Hu Hwlu Hwlu4 Hnlu Hnlu8 Hst Hs Hwls Hwls4 Hnls.
  split.
  - destruct (request_spectrum_result _ _ _ Hu) as (_ & buf & Hbuf & ->).
    set (raw := map (sample16 buf) (seq 0 2048)) in *.
    assert (Hraw : length raw = 2048%nat)
      by (unfold raw; now rewrite length_map, length_seq).
    assert (Hcut : length (skipn 20 (map of_int raw)) = 2028%nat)
      by (rewrite length_skipn, length_map, Hraw; reflexivity).
    exists raw, (wavelength_row wl_u 20 2048),
      (arr_scale_r (linearized nl_u 8 (skipn 20 (map of_int raw))) st).
    split; [reflexivity |]. split; [exact Hraw |].
    split; [now apply acquire_spectrum_run |].
    split; [apply wavelength_row_length |].
    split.
    { unfold arr_scale_r. now rewrite length_map, linearized_length. }
    intros k d Hk x.
    rewrite arr_scale_r_nth by (rewrite linearized_length, Hcut; exact Hk).
    rewrite linearized_nth by (rewrite Hcut; exact Hk).
    assert (Hx : nth k (skipn 20 (map of_int raw)) d = x).
    { rewrite nth_skipn. unfold x.
      apply (nth_map_lt of_int raw (20 + k) d 0). rewrite Hraw. lia. }
    rewrite Hx. reflexivity.
  - destruct (sts_request_spectrum_result _ _ _ Hs) as (_ & buf & Hbuf & ->).
    set (raw := map (sample_u16 (skipn 44 buf)) (seq 0 1024)) in *.
    assert (Hraw : length raw = 1024%nat)
      by (unfold raw; now rewrite length_map, length_seq).
    exists raw, (wavelength_row wl_s 0 1024),
      (linearized nl_s (length nl_s) (map of_int raw)).
    split; [reflexivity |]. split; [exact Hraw |].
    split; [now apply sts_acquire_spectrum_run |].
    split; [apply wavelength_row_length |].
    split; [now rewrite linearized_length, length_map |].
    intros k d Hk x.
    rewrite linearized_nth by (rewrite length_map, Hraw; exact Hk).
    assert (Hx : nth k (map of_int raw) d = x).
    { unfold x. apply (nth_map_lt of_int raw k d 0). rewrite Hraw. exact Hk. }
    rewrite Hx. reflexivity.
Qed.

End AcquisitionClaims.

Section WavelengthClaim.
Local Open Scope py_scope.
Context {F : Type} {FO : FloatOps F}.

Lemma wavelength_row_cubic c0 c1 c2 c3 first last p d :
  (first <= last)%nat ->
  Z.of_nat first <= p < Z.of_nat last -> p <= 2047 ->
  nth (Z.to_nat p - first) (wavelength_row [c0; c1; c2; c3] first last) d
  = cubic_from_zero c0 c1 c2 c3 p.
Proof.
  intros Hfl Hp Hmax.
  rewrite wavelength_row_nth by lia.
  replace (Z.of_nat (first + (Z.to_nat p - first))) with p by lia.
  unfold poly_sum, cubic_from_zero. cbn [seq fold_left nth].
  rewrite !pixel_power_no_wrap by lia.
  cbn [Z.of_nat Pos.of_succ_nat Pos.succ].
  rewrite Z.pow_0_r, Z.pow_1_r. reflexivity.
Qed.

Lemma keeps_py_float {Obj} (v : pyval F) : keeps_self (@py_float F FO Obj v).
Proof. destruct v; simpl; keeps. Qed.

Lemma vstack_inv {Obj} (a b r i : list F) (w w' : world F Obj) :
  vstack a b w = (Ok (r, i), w') -> r = a /\ i = b.
Proof.
  unfold vstack. destruct (Nat.eqb (length a) (length b)); [| discriminate].
  unfold ret. intros H. injection H as <- <- _. now split.
Qed.

Lemma acquire_spectrum_wavelength (w w' : world F (USB2000.obj F)) wl row int :
  USB2000._wl (self w) = Some wl -> (4 <= length wl)%nat ->
  USB2000.acquire_spectrum w = (Ok (row, int), w') ->
  row = wavelength_row wl 20 2048.
Proof.
  intros Hwl Hwl4 H. unfold USB2000.acquire_spectrum in H.
  apply bind_inv in H. destruct H as (sp & w1 & E1 & H).
  apply bind_inv in H. destruct H as (fl & w2 & E2 & H).
  assert (Hself : self w2 = self w).
  { rewrite (keeps_self_run _ _ _ _ (keeps_for_each _ _ keeps_py_float) E2).
    exact (keeps_self_run _ _ _ _ request_spectrum_keeps E1). }
  erewrite bind_ok in H.
  2:{ apply (for_each_coeffs USB2000._wl wl
               (fun c i => iarr_scale c (iarr_pow (arange 20 2048) (Z.of_nat i)))
               4 w2 (of_int 0)); [rewrite Hself; exact Hwl | exact Hwl4]. }
  apply bind_inv in H. destruct H as (nt & w3 & E3 & H).
  apply bind_inv in H. destruct H as (st & w4 & E4 & H).
  apply vstack_inv in H. destruct H as [-> _].
  unfold wavelength_row. reflexivity.
Qed.

Lemma sts_acquire_spectrum_wavelength (w w' : world F (STS.obj F)) wl row int :
  STS._wl (self w) = Some wl -> (4 <= length wl)%nat ->
  STS.acquire_spectrum w = (Ok (row, int), w') ->
  row = wavelength_row wl 0 1024.
Proof.
  intros Hwl Hwl4 H. unfold STS.acquire_spectrum in H.
  apply bind_inv in H. destruct H as (sp & w1 & E1 & H).
  apply bind_inv in H. destruct H as (fl & w2 & E2 & H).
  apply bind_inv in H. destruct H as (nl & w3 & E3 & H).
  assert (Hself : self w3 = self w).
  { rewrite (keeps_self_run _ _ _ _ (keeps_getattr _) E3).
    rewrite (keeps_self_run _ _ _ _ (keeps_for_each _ _ keeps_py_float) E2).
    exact (keeps_self_run _ _ _ _ sts_request_spectrum_keeps E1). }
  erewrite bind_ok in H.
  2:{ apply (for_each_coeffs STS._wl wl
               (fun c i => iarr_scale c (iarr_pow (arange 0 1024) (Z.of_nat i)))
               4 w3 (of_int 0)); [rewrite Hself; exact Hwl | exact Hwl4]. }
  apply bind_inv in H. destruct H as (nt & w4 & E4 & H).
  apply vstack_inv in H. destruct H as [-> _].
  unfold wavelength_row. reflexivity.
Qed.

(** C8.  For every pixel of the valid range (20..2047 legacy, 0..1023
    framed) the wavelength row of [acquire_spectrum] holds, at that pixel,
    the sum of [c_i * pixel**i] for [i = 0..3] accumulated from zero; when
    adding to zero and multiplying by one change nothing, this is
    [c0 + c1*pixel + c2*pixel^2 + c3*pixel^3].  The boundary pixels 20 and
    0 are included. *)
Theorem wavelength_is_cubic_in_pixel
    (wu wu' : world F (USB2000.obj F)) (ws ws' : world F (STS.obj F))
    a0 a1 a2 a3 b0 b1 b2 b3 row_u int_u row_s int_s :
  USB2000._wl (self wu) = Some [a0; a1; a2; a3] ->
  USB2000.acquire_spectrum wu = (Ok (row_u, int_u), wu') ->
  STS._wl (self ws) = Some [b0; b1; b2; b3] ->
  STS.acquire_spectrum ws = (Ok (row_s, int_s), ws') ->
  (forall p d, 20 <= p <= 2047 ->
     nth (Z.to_nat p - 20) row_u d = cubic_from_zero a0 a1 a2 a3 p)
  /\ (forall p d, 0 <= p <= 1023 ->
     nth (Z.to_nat p) row_s d = cubic_from_zero b0 b1 b2 b3 p)
  /\ ((forall x : F, fadd (of_int 0) x = x) ->
      (forall x : F, fmul x (of_int 1) = x) ->
      forall c0 c1 c2 c3 p,
        cubic_from_zero c0 c1 c2 c3 p = cubic c0 c1 c2 c3 p).
Proof.
  intros Hwu Hu Hws Hs.
  split; [| split].
  - intros p d Hp.
    rewrite (acquire_spectrum_wavelength _ _ _ _ _ Hwu (Nat.le_refl 4) Hu).
    apply wavelength_row_cubic; lia.
  - intros p d Hp.
    rewrite (sts_acquire_spectrum_wavelength _ _ _ _ _ Hws (Nat.le_refl 4) Hs).
    replace (Z.to_nat p) with (Z.to_nat p - 0)%nat by lia.
    apply wavelength_row_cubic; lia.
  - intros H0 H1 c0 c1 c2 c3 p. unfold cubic_from_zero, cubic.
    now rewrite H1, H0.
Qed.

End WavelengthClaim.

(** ** Traces and computations without effect *)

Section Silent.
Local Open Scope py_scope.
Context {F : Type} {FO : FloatOps F} {Obj : Type}.
Local Abbreviation Py := (M F Obj).
Local Abbreviation silent := (@silent F Obj _).

Lemma silent_ret {A} (a : A) : silent (ret a).
Proof. intro w. reflexivity. Qed.

Lemma silent_raise {A} e : silent (@raise F Obj A e).
Proof. intro w. reflexivity. Qed.

Lemma silent_bind {A B} (c : Py A) (k : A -> Py B) :
  silent c -> (forall a, silent (k a)) -> silent (bind c k).
Proof.
  intros Hc Hk w. unfold bind. specialize (Hc w).
  destruct (c w) as [[a | e] w1]; simpl in *; subst.
  - apply Hk.
  - reflexivity.
Qed.

Lemma silent_lift_opt {A} e (o : option A) : silent (lift_opt e o).
Proof. destruct o; intro w; reflexivity. Qed.

Lemma silent_getattr {A} (field : Obj -> option A) : silent (getattr field).
Proof. intro w. unfold getattr. destruct (field (self w)); reflexivity. Qed.

Lemma silent_as_int v : silent (as_int v).
Proof. destruct v; intro w; reflexivity. Qed.

Lemma silent_py_float v : silent (py_float v).
Proof.
  destruct v; try (intro w; reflexivity). apply silent_lift_opt.
Qed.

Lemma silent_run {A} (c : Py A) w r w' : silent c -> c w = (r, w') -> w' = w.
Proof. intros H E. specialize (H w). now rewrite E in H. Qed.

(** What a write and a read leave behind, whatever their outcome. *)
Lemma dev_write_effect ep data (w w' : world F Obj) r :
  dev_write ep data w = (r, w') ->
  trace (dev w') = trace (dev w) ++ [EvWrite ep data]
  /\ rscript (dev w') = rscript (dev w) /\ self w' = self w.
Proof.
  destruct w as [[at_ rs ws tr] o]. unfold dev_write. simpl.
  destruct ws as [| ok ws]; intros H; injection H as _ <-; auto.
Qed.

Lemma dev_read_effect ep size (w w' : world F Obj) r :
  dev_read ep size w = (r, w') ->
  trace (dev w') = trace (dev w) ++ [EvRead ep size]
  /\ wscript (dev w') = wscript (dev w) /\ self w' = self w.
Proof.
  destruct w as [[at_ rs ws tr] o]. unfold dev_read. simpl.
  destruct rs as [| x rs]; intros H; injection H as _ <-; auto.
Qed.

(** The trace of a comprehension is the trace of its passes in order. *)
Lemma for_each_trace {A B} (f : A -> Py B) (t : A -> list (event F)) xs :
  (forall x w y w', In x xs -> f x w = (Ok y, w') ->
                    trace (dev w') = trace (dev w) ++ t x) ->
  forall w ys w',
    for_each f xs w = (Ok ys, w') ->
    trace (dev w') = trace (dev w) ++ flat_map t xs
    /\ length ys = length xs.
Proof.
  induction xs as [| x xs IH]; intros Hf w ys w' H; simpl in H.
  - unfold ret in H. injection H as <- <-. simpl. now rewrite app_nil_r.
  - apply bind_inv in H. destruct H as (y & w1 & E1 & H).
    apply bind_inv in H. destruct H as (ys' & w2 & E2 & H).
    unfold ret in H. injection H as <- <-.
    destruct (IH (fun x0 w0 y0 w0' Hin => Hf x0 w0 y0 w0' (or_intror Hin))
                 _ _ _ E2) as [Ht Hl].
    rewrite Ht, (Hf _ _ _ _ (or_introl eq_refl) E1). simpl.
    rewrite <- app_assoc.
    split; [reflexivity | now rewrite Hl].
Qed.

End Silent.

Ltac silent :=
  unfold pack, unpack, item, int_item, byte_item;
  repeat first
    [ apply silent_ret | apply silent_raise | apply silent_getattr
    | apply silent_lift_opt | apply silent_as_int | apply silent_py_float
    | apply silent_bind; [| intros ]
    | match goal with
      | |- silent (if ?b then _ else _) => destruct b
      | |- silent (match ?x with _ => _ end) => destruct x
      end ].

Section LegacyReadClaims.
Local Open Scope py_scope.
Context {F : Type} {FO : FloatOps F}.
Local Abbreviation uworld := (world F (USB2000.obj F)).

(** C7.  Legacy spectrum read on a transport that accepts the command and
    delivers the chunks: 8 reads of 512 bytes at high speed ([0x80]),
    otherwise 64 reads of 64 bytes, then one read of a single byte; the
    samples are decoded from the concatenation of all chunks in order; the
    read fails with the synchronisation error exactly when the extra byte
    is not [0x69]. *)
Theorem legacy_spectrum_chunks_and_sync (w : uworld) it speed chunks b rest :
  USB2000._it (self w) = Some it ->
  USB2000._usbcomm (self w) = Some speed ->
  wscript (dev w) = [] ->
  length chunks = spec_chunk_count speed ->
  Forall (fun c => Z.of_nat (length c) <= spec_chunk_size speed) chunks ->
  length (concat chunks) = 4096%nat ->
  rscript (dev w) = map Some chunks ++ Some [b] :: rest ->
  let r := USB2000._request_spectrum w in
  trace (dev (snd r))
  = trace (dev w)
    ++ [EvWrite USB2000._EP1_out [x09]; EvSleep (Z.max (it - 100000) 0)]
    ++ repeat (EvRead USB2000._EP2_in (spec_chunk_size speed))
              (spec_chunk_count speed)
    ++ [EvRead USB2000._EP2_in 1]
  /\ (spec_chunk_count speed, spec_chunk_size speed)
     = (if speed =? 0x80 then (8%nat, 512) else (64%nat, 64))
  /\ (byte_val b = 0x69 ->
      fst r = Ok (map VInt (map (sample16 (concat chunks)) (seq 0 2048))))
  /\ (fst r = Raise (OOError "request_spectrum: Wrong answer")
      <-> byte_val b <> 0x69).
Proof.
  intros Hit Hsp Hw Hn Hc Hlen Hr r. unfold r.
  rewrite (request_spectrum_run w it speed chunks b rest) by assumption.
  cbn [fst snd dev trace].
  split; [reflexivity |].
  split; [unfold spec_chunk_count, spec_chunk_size;
          destruct (speed =? 128); reflexivity |].
  destruct (byte_val b =? 105) eqn:Eb.
  - apply Z.eqb_eq in Eb. split; [reflexivity |].
    split; [discriminate | congruence].
  - apply Z.eqb_neq in Eb. split; [congruence |].
    split; [intros _; exact Eb | reflexivity].
Qed.

Lemma query_information_trace (w w' : uworld) address s :
  0 <= address < 255 ->
  USB2000._query_information address false w = (Ok s, w') ->
  trace (dev w')
  = trace (dev w) ++ [EvWrite USB2000._EP1_out [x05; byte_of_Z address];
                      EvRead USB2000._EP1_in USB2000._EP1_in_size].
Proof.
  intros Ha H. unfold USB2000._query_information in H.
  assert (Hp : struct_pack [cB; cB] [@VInt F 5; VInt (address mod 255)]
               = Some [x05; byte_of_Z address]).
  { rewrite Z.mod_small by lia. cbn.
    unfold in_range.
    replace (0 <=? address) with true by (symmetry; apply Z.leb_le; lia).
    replace (address <=? 255) with true by (symmetry; apply Z.leb_le; lia).
    reflexivity. }
  erewrite bind_ok in H by (apply pack_run; exact Hp).
  apply bind_inv in H. destruct H as (u & w1 & E1 & H).
  apply bind_inv in H. destruct H as (r & w2 & E2 & H).
  apply dev_write_effect in E1. destruct E1 as (T1 & _ & _).
  apply dev_read_effect in E2. destruct E2 as (T2 & _ & _).
  assert (Hs : w' = w2).
  { eapply silent_run; [| exact H]. silent. }
  subst w'. rewrite T2, T1, <- app_assoc. reflexivity.
Qed.

Lemma nonlinearity_calibration_cases (w w1 : uworld) s n :
  USB2000._query_information 14 false w = (Ok s, w1) ->
  int_of_bytes s = Some n ->
  USB2000._get_nonlinearity_calibration w
  = if n =? 7
    then for_each (fun i => s <- USB2000._query_information i false ;;
                            py_float (VStr s))
                  [6; 7; 8; 9; 10; 11; 12; 13] w1
    else (Raise (OOError "This spectrometer has less correction factors"), w1).
Proof.
  intros Hq Hn. unfold USB2000._get_nonlinearity_calibration.
  erewrite bind_ok by exact Hq.
  unfold bind at 1. rewrite Hn. cbn [lift_opt ret].
  destruct (n =? 7); reflexivity.
Qed.

(** C10.  Legacy protocol: the nonlinearity calibration is loaded only
    when the device reports the count 7, it then queries the eight
    information addresses 6..13 and keeps eight coefficients, and
    [acquire_spectrum] divides each raw sample by the sum of the eight
    terms [nl[i] * raw**i], [i = 0..7]. *)
Theorem legacy_count_seven_but_eight_coefficients
    (w w1 : uworld) s n (wa wa' : uworld) spectrum wl nl st :
  USB2000._query_information 14 false w = (Ok s, w1) ->
  int_of_bytes s = Some n ->
  USB2000._request_spectrum wa = (Ok spectrum, wa') ->
  USB2000._wl (self wa) = Some wl -> (4 <= length wl)%nat ->
  USB2000._nl (self wa) = Some nl -> length nl = 8%nat ->
  USB2000._st (self wa) = Some st ->
  (n <> 7 ->
   USB2000._get_nonlinearity_calibration w
   = (Raise (OOError "This spectrometer has less correction factors"), w1))
  /\ (forall coeffs w2,
        USB2000._get_nonlinearity_calibration w = (Ok coeffs, w2) ->
        n = 7 /\ length coeffs = 8%nat
        /\ trace (dev w2) = trace (dev w1) ++ eight_coefficient_queries)
  /\ (exists raw wavelength intensity,
        spectrum = map VInt raw
        /\ USB2000.acquire_spectrum wa = (Ok (wavelength, intensity), wa')
        /\ forall k d, (k < 2028)%nat ->
             let x := of_int (nth (20 + k) raw 0) in
             let n0 := nth 0 nl d in let n1 := nth 1 nl d in
             let n2 := nth 2 nl d in let n3 := nth 3 nl d in
             let n4 := nth 4 nl d in let n5 := nth 5 nl d in
             let n6 := nth 6 nl d in let n7 := nth 7 nl d in
             nth k intensity d
             = fmul
                 (fdiv x
                    (fadd (fadd (fadd (fadd (fadd (fadd (fadd (fadd (of_int 0)
                       (fmul n0 (fpow x 0))) (fmul n1 (fpow x 1)))
                       (fmul n2 (fpow x 2))) (fmul n3 (fpow x 3)))
                       (fmul n4 (fpow x 4))) (fmul n5 (fpow x 5)))
                       (fmul n6 (fpow x 6))) (fmul n7 (fpow x 7))))
                 st).
Proof.
  intros Hq Hn Hreq Hwl Hwl4 Hnl Hnl8 Hst.
  pose proof (nonlinearity_calibration_cases w w1 s n Hq Hn) as Hcases.
  split; [| split].
  - intros Hne. rewrite Hcases.
    apply Z.eqb_neq in Hne. now rewrite Hne.
  - intros coeffs w2 H. rewrite Hcases in H.
    destruct (n =? 7) eqn:E7; [| discriminate].
    apply Z.eqb_eq in E7. split; [exact E7 |].
    eapply (for_each_trace _
              (fun a => [EvWrite USB2000._EP1_out [x05; byte_of_Z a];
                         EvRead USB2000._EP1_in USB2000._EP1_in_size]))
      in H.
    + destruct H as [Ht Hl]. split; [exact Hl | exact Ht].
    + intros a wx y wy Ha Hx.
      apply bind_inv in Hx. destruct Hx as (sx & wz & Ex & Hx).
      assert (wy = wz) by (eapply silent_run; [| exact Hx]; silent).
      subst wy. apply query_information_trace in Ex; [exact Ex |].
      simpl in Ha. lia.
  - destruct (request_spectrum_result _ _ _ Hreq) as (_ & buf & Hbuf & ->).
    set (raw := map (sample16 buf) (seq 0 2048)) in *.
    assert (Hraw : length raw = 2048%nat)
      by (unfold raw; now rewrite length_map, length_seq).
    assert (Hcut : length (skipn 20 (map of_int raw)) = 2028%nat)
      by (rewrite length_skipn, length_map, Hraw; reflexivity).
    exists raw, (wavelength_row wl 20 2048),
      (arr_scale_r (linearized nl 8 (skipn 20 (map of_int raw))) st).
    split; [reflexivity |].
    split; [apply acquire_spectrum_run; auto; lia |].
    intros k d Hk x.
    rewrite arr_scale_r_nth by (rewrite linearized_length, Hcut; exact Hk).
    rewrite linearized_nth by (rewrite Hcut; exact Hk).
    assert (Hx : nth k (skipn 20 (map of_int raw)) d = x).
    { rewrite nth_skipn. unfold x.
      apply (nth_map_lt of_int raw (20 + k) d 0). rewrite Hraw. lia. }
    rewrite Hx. unfold poly_sum. cbn [seq fold_left Z.of_nat Pos.of_succ_nat Pos.succ].
    rewrite !(nth_indep nl (of_int 0) d) by lia.
    reflexivity.
Qed.
End LegacyReadClaims.

(** ** STS: response frames *)

Section Frames.
Local Open Scope py_scope.
Context {F : Type} {FO : FloatOps F}.
Local Abbreviation sworld := (world F (STS.obj F)).

Lemma check_ack_run fmt (r : list byte) on_success (w : sworld) :
  calcsize fmt = 64%nat ->
  nth_error fmt 3 = Some cH -> calcsize (firstn 3 fmt) = 6%nat ->
  STS.check_ack fmt r on_success w
  = if Nat.eqb (length r) 64 then
      if frame_status r =? 0 then on_success (unpack_fields fmt r) w
      else (Ok (VInt (-1)),
            printed (EvPrint "Error code: %i" [VInt (frame_status r)]) w)
    else (Ok (VInt (-1)),
          printed (EvPrint "Unexpected msg lenght: %i vs 64"
                           [VInt (Z.of_nat (length r))]) w).
Proof.
  intros Hsz H3 Ho3. unfold STS.check_ack.
  destruct (Nat.eqb (length r) 64) eqn:El; [| reflexivity].
  apply Nat.eqb_eq in El.
  erewrite bind_ok.
  2:{ apply unpack_run. unfold struct_unpack. rewrite El, Hsz. reflexivity. }
  unfold int_item, item. rewrite bind_assoc.
  rewrite (unpack_fields_nth_error fmt 3 r cH H3), Ho3.
  cbn [lift_opt bind ret unpack1 as_int fsize]. fold (frame_status r).
  destruct (frame_status r =? 0); reflexivity.
Qed.

(** [check_ack] with the payload read from field 9. *)
Lemma check_ack_item9 fmt c (r : list byte) (w : sworld) :
  calcsize fmt = 64%nat ->
  nth_error fmt 3 = Some cH -> calcsize (firstn 3 fmt) = 6%nat ->
  nth_error fmt 9 = Some c -> calcsize (firstn 9 fmt) = 24%nat ->
  STS.check_ack fmt r (fun ack => item ack 9) w
  = (Ok (ack_value r (unpack1 c (firstn (fsize c) (skipn 24 r)))),
     mkWorld (mkDevice (attached (dev w)) (rscript (dev w)) (wscript (dev w))
                (trace (dev w) ++ ack_prints r))
             (self w)).
Proof.
  intros Hsz H3 Ho3 H9 Ho9.
  rewrite check_ack_run by assumption.
  unfold ack_value, ack_prints, printed, item.
  destruct (Nat.eqb (length r) 64); [| reflexivity].
  destruct (frame_status r =? 0); [| reflexivity].
  rewrite (unpack_fields_nth_error fmt 9 r c H9), Ho9.
  cbn [lift_opt ret andb]. destruct w as [[at_ rs ws tr] o]. simpl.
  now rewrite app_nil_r.
Qed.

Lemma in_range_true lo hi z : lo <= z <= hi -> in_range lo hi z = true.
Proof.
  intros H. unfold in_range. apply andb_true_iff. split; apply Z.leb_le; lia.
Qed.

Lemma plain_request_run command (w : sworld) :
  u32 command ->
  STS.plain_request command w
  = (Ok (request_frame command 0 (repeat x00 16)), w).
Proof.
  intros Hc. apply pack_run. unfold struct_pack, pack1.
  rewrite (in_range_true 0 4294967295 command Hc). reflexivity.
Qed.

Lemma query_coefficient_count_run command (w : sworld) r rest :
  u32 command ->
  wscript (dev w) = [] ->
  rscript (dev w) = Some r :: rest ->
  (length r <= 64)%nat ->
  STS._query_coefficient_count command w
  = (Ok (ack_value r (VInt (frame_byte24 r))),
     mkWorld
       (mkDevice (attached (dev w)) rest []
          (trace (dev w)
           ++ [EvWrite STS._EP1_out (request_frame command 0 (repeat x00 16));
               EvRead STS._EP1_in STS._EP1_in_size]
           ++ ack_prints r))
       (self w)).
Proof.
  intros Hc Hw Hr Hl. unfold STS._query_coefficient_count.
  erewrite bind_ok by (apply plain_request_run; exact Hc).
  erewrite bind_ok by (apply dev_write_run; exact Hw).
  erewrite bind_ok.
  2:{ apply dev_read_run with (rest := rest); [exact Hr |].
      unfold STS._EP1_in_size. lia. }
  rewrite (check_ack_item9 _ cB) by reflexivity.
  cbn [dev self trace rscript wscript attached unpack1 fsize].
  fold (frame_byte24 r). rewrite <- !app_assoc. reflexivity.
Qed.

Lemma query_coefficient_run index command (w : sworld) r rest :
  0 <= index <= 255 -> u32 command ->
  wscript (dev w) = [] ->
  rscript (dev w) = Some r :: rest ->
  (length r <= 64)%nat ->
  STS._query_coefficient index command w
  = (Ok (ack_value r (VFloat (frame_float24 r))),
     mkWorld
       (mkDevice (attached (dev w)) rest []
          (trace (dev w)
           ++ [EvWrite STS._EP1_out
                 (request_frame command 1 (byte_of_Z index :: repeat x00 15));
               EvRead STS._EP1_in STS._EP1_in_size]
           ++ ack_prints r))
       (self w)).
Proof.
  intros Hi Hc Hw Hr Hl. unfold STS._query_coefficient.
  erewrite bind_ok.
  2:{ apply pack_run. unfold struct_pack, pack1.
      rewrite (in_range_true 0 4294967295 command Hc).
      rewrite (in_range_true 0 255 index Hi). reflexivity. }
  erewrite bind_ok by (apply dev_write_run; exact Hw).
  erewrite bind_ok.
  2:{ apply dev_read_run with (rest := rest); [exact Hr |].
      unfold STS._EP1_in_size. lia. }
  rewrite (check_ack_item9 _ cf) by reflexivity.
  cbn [dev self trace rscript wscript attached unpack1 fsize].
  fold (frame_float24 r). rewrite <- !app_assoc. reflexivity.
Qed.

Lemma set_integration_time_answered t (w : sworld) r rest :
  u32 t ->
  wscript (dev w) = [] ->
  rscript (dev w) = Some r :: rest ->
  (length r <= 64)%nat ->
  STS._set_integration_time t w
  = (Ok (Some (VInt (-1))),
     mkWorld
       (mkDevice (attached (dev w)) rest []
          (trace (dev w)
           ++ [EvWrite STS._EP1_out
                 (request_frame STS._MSG_SET_INTEGRATION_TIME 4
                                (le_bytes 4 t ++ repeat x00 12));
               EvRead STS._EP1_in STS._EP1_in_size]
           ++ set_ack_prints r))
       (self w)).
Proof.
  intros Ht Hw Hr Hl. unfold STS._set_integration_time.
  match goal with
  | |- context [pack ?f ?v] =>
      assert (Hp : struct_pack f v
                   = Some (request_frame STS._MSG_SET_INTEGRATION_TIME 4
                                         (le_bytes 4 t ++ repeat x00 12)))
  end.
  { unfold struct_pack, pack1.
    rewrite (in_range_true 0 4294967295 t Ht). reflexivity. }
  erewrite bind_ok by (apply pack_run; exact Hp).
  erewrite bind_ok by (apply dev_write_run; exact Hw).
  unfold try_except.
  erewrite bind_ok.
  2:{ apply dev_read_run with (rest := rest); [exact Hr |].
      unfold STS._EP1_in_size. lia. }
  unfold bind at 1. rewrite check_ack_run by reflexivity.
  unfold set_ack_prints, ack_prints, printed, item.
  destruct (Nat.eqb (length r) 64).
  - destruct (frame_status r =? 0).
    + erewrite unpack_fields_nth_error by reflexivity.
      unfold lift_opt, bind, ret, emit, log.
      cbn [andb dev self trace rscript wscript attached].
      rewrite <- !app_assoc. reflexivity.
    + unfold log. cbn [andb dev self trace rscript wscript attached].
      rewrite <- !app_assoc. reflexivity.
  - unfold log. cbn [andb dev self trace rscript wscript attached].
    rewrite <- !app_assoc. reflexivity.
Qed.

Lemma set_integration_time_silence t (w : sworld) :
  u32 t ->
  wscript (dev w) = [] ->
  read_raises STS._EP1_in_size (rscript (dev w)) = true ->
  STS._set_integration_time t w
  = (Ok None,
     mkWorld
       (mkDevice (attached (dev w)) (tl (rscript (dev w))) []
          (trace (dev w)
           ++ [EvWrite STS._EP1_out
                 (request_frame STS._MSG_SET_INTEGRATION_TIME 4
                                (le_bytes 4 t ++ repeat x00 12));
               EvRead STS._EP1_in STS._EP1_in_size]))
       (STS.set__it t (self w))).
Proof.
  intros Ht Hw Hr. unfold STS._set_integration_time.
  match goal with
  | |- context [pack ?f ?v] =>
      assert (Hp : struct_pack f v
                   = Some (request_frame STS._MSG_SET_INTEGRATION_TIME 4
                                         (le_bytes 4 t ++ repeat x00 12)))
  end.
  { unfold struct_pack, pack1.
    rewrite (in_range_true 0 4294967295 t Ht). reflexivity. }
  erewrite bind_ok by (apply pack_run; exact Hp).
  erewrite bind_ok by (apply dev_write_run; exact Hw).
  unfold try_except.
  erewrite bind_raise by (apply dev_read_raises; exact Hr).
  cbn [any_exception bind modify_self ret dev self trace rscript wscript attached].
  rewrite <- !app_assoc. reflexivity.
Qed.

(** The attribute can only change through the exception handler. *)
Lemma set_integration_time_changes t (w : sworld) :
  self (snd (STS._set_integration_time t w)) <> self w ->
  read_raises STS._EP1_in_size (rscript (dev w)) = true.
Proof.
  intros Hne.
  destruct (read_raises STS._EP1_in_size (rscript (dev w))) eqn:Er;
    [reflexivity | exfalso; apply Hne].
  unfold STS._set_integration_time, bind at 1.
  destruct (pack _ _ w) as [[cmd | e] w0] eqn:Ep.
  2:{ assert (w0 = w) by (eapply silent_run; [| exact Ep]; silent).
      now subst. }
  assert (w0 = w) by (eapply silent_run; [| exact Ep]; silent). subst w0.
  unfold bind at 1.
  destruct (dev_write STS._EP1_out cmd w) as [[u | e] w1] eqn:Ew;
    apply dev_write_effect in Ew; destruct Ew as (_ & Hrs & Hself);
    [| exact Hself].
  unfold read_raises in Er. rewrite <- Hrs in Er.
  destruct (rscript (dev w1)) as [| [r |] rest] eqn:Hr1; try discriminate.
  apply negb_false_iff, Z.leb_le in Er.
  unfold try_except.
  erewrite bind_ok by (apply dev_read_run with (rest := rest);
                       [exact Hr1 | exact Er]).
  unfold bind at 1. rewrite check_ack_run by reflexivity.
  unfold printed, item.
  destruct (Nat.eqb (length r) 64); [| exact Hself].
  destruct (frame_status r =? 0); [| exact Hself].
  erewrite unpack_fields_nth_error by reflexivity.
  exact Hself.
Qed.

Lemma sts_request_spectrum_run (w : sworld) it sa chunks rest :
  STS._it (self w) = Some it ->
  STS._scan_averages (self w) = Some sa ->
  wscript (dev w) = [] ->
  length chunks = 33%nat ->
  Forall (fun c => Z.of_nat (length c) <= STS._EP1_in_size) chunks ->
  length (concat chunks) = 2112%nat ->
  rscript (dev w) = map Some chunks ++ rest ->
  STS._request_spectrum w
  = (Ok (map VInt (map (sample_u16 (skipn 44 (concat chunks))) (seq 0 1024))),
     mkWorld
       (mkDevice (attached (dev w)) rest []
          (trace (dev w)
           ++ [EvWrite STS._EP1_out
                 (request_frame STS._MSG_GET_CORRECTED_SPECTRUM 0
                                (repeat x00 16));
               EvSleep (Z.max ((it + 100000) * sa) 0)]
           ++ repeat (EvRead STS._EP1_in STS._EP1_in_size) 33))
       (self w)).
Proof.
  intros Hit Hsa Hw Hn Hc Hlen Hr.
  unfold STS._request_spectrum.
  erewrite bind_ok by (apply plain_request_run; unfold u32; cbv; split; discriminate).
  erewrite bind_ok by (apply dev_write_run; assumption).
  erewrite bind_ok by (apply getattr_run; exact Hit).
  erewrite bind_ok by (apply getattr_run; exact Hsa).
  erewrite bind_ok by reflexivity.
  erewrite bind_ok by (eapply read_chunks; [exact Hc | exact Hn | simpl; exact Hr]).
  erewrite bind_ok by (apply concat_chunks_run; intros ->; discriminate).
  erewrite bind_ok.
  2:{ apply unpack_run. unfold struct_unpack. rewrite Hlen.
      unfold STS.spectrum_format.
      rewrite !calcsize_app, calcsize_repeat. reflexivity. }
  rewrite spectrum_format_slice. set (samples := map VInt _).
  unfold ret, log.
  cbn [dev self trace rscript wscript attached].
  rewrite <- !app_assoc. reflexivity.
Qed.

End Frames.

(** * The claims about framed responses and the integration time *)

Section FrameClaims.
Local Open Scope py_scope.
Context {F : Type} {FO : FloatOps F}.
Local Abbreviation sworld := (world F (STS.obj F)).

(** C2, as the code has it.  A 64-byte response whose status field is not
    zero does not make [_query_coefficient] or [_query_coefficient_count]
    fail: the status is printed ("Error code: ...") and the sentinel [-1]
    is returned in place of the payload; no attribute changes. *)
Theorem sts_nonzero_status_yields_sentinel
    (w : sworld) index command r rest :
  0 <= index <= 255 -> u32 command ->
  wscript (dev w) = [] ->
  rscript (dev w) = Some r :: rest ->
  length r = 64%nat ->
  frame_status r <> 0 ->
  let q := STS._query_coefficient index command w in
  let c := STS._query_coefficient_count command w in
  fst q = Ok (VInt (-1))
  /\ fst c = Ok (VInt (-1))
  /\ trace (dev (snd q))
     = trace (dev w)
       ++ [EvWrite STS._EP1_out
             (request_frame command 1 (byte_of_Z index :: repeat x00 15));
           EvRead STS._EP1_in STS._EP1_in_size;
           EvPrint "Error code: %i" [VInt (frame_status r)]]
  /\ trace (dev (snd c))
     = trace (dev w)
       ++ [EvWrite STS._EP1_out (request_frame command 0 (repeat x00 16));
           EvRead STS._EP1_in STS._EP1_in_size;
           EvPrint "Error code: %i" [VInt (frame_status r)]]
  /\ self (snd q) = self w /\ self (snd c) = self w.
Proof.
  intros Hi Hc Hw Hr Hl Hs q c. unfold q, c.
  rewrite (query_coefficient_run index command w r rest) by (auto; lia).
  rewrite (query_coefficient_count_run command w r rest) by (auto; lia).
  apply Z.eqb_neq in Hs.
  unfold ack_value, ack_prints. rewrite Hl, Hs. simpl.
  repeat split; reflexivity.
Qed.

(** C6, as the code has it.  [_query_coefficient_count] looks at the
    length of the response, at its status field (bytes 6-7) and at byte
    24, and at nothing else: two responses that agree on these give the
    same result whatever their start and end markers; a response that is
    not 64 bytes long gives the sentinel [-1], not an error.
    [_request_spectrum] accepts any 33 reads that total 2112 bytes and
    returns the 1024 values found from byte 44 on. *)
Theorem sts_markers_are_not_inspected
    (w w' ws : sworld) command r r' rest rest' it sa chunks rest_s :
  u32 command ->
  wscript (dev w) = [] -> rscript (dev w) = Some r :: rest ->
  wscript (dev w') = [] -> rscript (dev w') = Some r' :: rest' ->
  (length r <= 64)%nat -> length r' = length r ->
  frame_status r' = frame_status r -> frame_byte24 r' = frame_byte24 r ->
  STS._it (self ws) = Some it -> STS._scan_averages (self ws) = Some sa ->
  wscript (dev ws) = [] -> length chunks = 33%nat ->
  Forall (fun c => Z.of_nat (length c) <= STS._EP1_in_size) chunks ->
  length (concat chunks) = 2112%nat ->
  rscript (dev ws) = map Some chunks ++ rest_s ->
  fst (STS._query_coefficient_count command w)
  = Ok (if Nat.eqb (length r) 64 && (frame_status r =? 0)
        then VInt (frame_byte24 r) else VInt (-1))
  /\ fst (STS._query_coefficient_count command w')
     = fst (STS._query_coefficient_count command w)
  /\ (length r <> 64%nat ->
      fst (STS._query_coefficient_count command w) = Ok (VInt (-1)))
  /\ fst (STS._request_spectrum ws)
     = Ok (map VInt (map (sample_u16 (skipn 44 (concat chunks))) (seq 0 1024))).
Proof.
  intros Hc Hw Hr Hw' Hr' Hl Hl' Hs Hb Hit Hsa Hws Hn Hch Hlen Hrs.
  rewrite (query_coefficient_count_run command w r rest) by auto.
  rewrite (query_coefficient_count_run command w' r' rest') by (auto; lia).
  rewrite (sts_request_spectrum_run ws it sa chunks rest_s) by auto.
  unfold ack_value. rewrite Hl', Hs, Hb. cbn [fst].
  repeat split.
  intros Hne. apply Nat.eqb_neq in Hne. now rewrite Hne.
Qed.

(** C9.  Framed protocol, [_set_integration_time] on a transport that
    accepts the command: when the read of the acknowledgement raises,
    [self._it] becomes the requested value (and the method returns
    nothing); when any response arrives, the method returns [-1] and the
    attributes are unchanged, in particular for a 64-byte response with
    status 0, after which "Error setting integration time" has been
    printed; and [self._it] changes only when the read raises. *)
Theorem sts_integration_time_set_only_on_read_error (t : Z) (w : sworld) :
  u32 t ->
  wscript (dev w) = [] ->
  let out := STS._set_integration_time t w in
  (read_raises STS._EP1_in_size (rscript (dev w)) = true ->
   fst out = Ok None /\ self (snd out) = STS.set__it t (self w))
  /\ (forall r rest,
        rscript (dev w) = Some r :: rest -> (length r <= 64)%nat ->
        fst out = Ok (Some (VInt (-1))) /\ self (snd out) = self w
        /\ (length r = 64%nat -> frame_status r = 0 ->
            trace (dev (snd out))
            = trace (dev w)
              ++ [EvWrite STS._EP1_out
                    (request_frame STS._MSG_SET_INTEGRATION_TIME 4
                                   (le_bytes 4 t ++ repeat x00 12));
                  EvRead STS._EP1_in STS._EP1_in_size;
                  EvPrint "Error setting integration time" []]))
  /\ (STS._it (self (snd out)) <> STS._it (self w) ->
      read_raises STS._EP1_in_size (rscript (dev w)) = true).
Proof.
  intros Ht Hw out. unfold out. split; [| split].
  - intros Hr. now rewrite (set_integration_time_silence t w Ht Hw Hr).
  - intros r rest Hr Hl.
    rewrite (set_integration_time_answered t w r rest Ht Hw Hr Hl).
    cbn [fst snd self dev trace]. repeat split.
    intros H64 H0. unfold set_ack_prints. rewrite H64, H0. reflexivity.
  - intros Hne. apply set_integration_time_changes with (t := t).
    intros E. apply Hne. now rewrite E.
Qed.

Lemma sts_integration_time_echo (w w' : sworld) time_us x :
  STS.integration_time time_us w = (Ok x, w') -> x = time_us.
Proof.
  intros H. unfold STS.integration_time in H.
  apply bind_inv in H. destruct H as (u & w1 & _ & H).
  unfold ret in H. now injection H as <- _.
Qed.

Lemma legacy_integration_time_stored
    (wu wu' : world F (USB2000.obj F)) t v :
  USB2000.integration_time t wu = (Ok v, wu') ->
  USB2000._it (self wu') = Some v.
Proof.
  intros H. unfold USB2000.integration_time in H.
  apply bind_inv in H. destruct H as (u & w1 & _ & H).
  apply bind_inv in H. destruct H as (st & w2 & _ & H).
  apply bind_inv in H. destruct H as (u2 & w3 & E & H).
  unfold modify_self in E. injection E as _ <-.
  unfold getattr in H. cbn [self USB2000.set__it USB2000._it] in H.
  now injection H as <- <-.
Qed.

(** C5, the framed path.  Called without a value, [integration_time]
    issues nothing, changes nothing and returns [None], whatever
    integration time the session holds: it returns its argument, not the
    current value. *)
Theorem sts_integration_time_without_value (w : sworld) :
  STS.integration_time None w = (Ok None, w).
Proof. reflexivity. Qed.

End FrameClaims.

(** ** Traces only grow *)

Section Grows.
Local Open Scope py_scope.
Context {F : Type} {FO : FloatOps F} {Obj : Type}.
Local Abbreviation Py := (M F Obj).
Local Abbreviation silent := (@silent F Obj _).
Local Abbreviation trace_grows := (@trace_grows F Obj _).

Lemma grows_silent {A} (c : Py A) : silent c -> trace_grows c.
Proof. intros H w e He. now rewrite H. Qed.

Lemma grows_bind {A B} (c : Py A) (k : A -> Py B) :
  trace_grows c -> (forall a, trace_grows (k a)) -> trace_grows (bind c k).
Proof.
  intros Hc Hk w e He. unfold bind. specialize (Hc w e He).
  destruct (c w) as [[a | x] w1]; simpl in *.
  - now apply Hk.
  - assumption.
Qed.

Lemma grows_emit ev : trace_grows (emit ev).
Proof. intros w e He. simpl. apply in_or_app. now left. Qed.

Lemma grows_dev_write ep data : trace_grows (dev_write ep data).
Proof.
  intros w e He.
  destruct (dev_write ep data w) as [r w'] eqn:E.
  apply dev_write_effect in E. destruct E as (T & _ & _).
  simpl. rewrite T. apply in_or_app. now left.
Qed.

Lemma grows_dev_read ep size : trace_grows (dev_read ep size).
Proof.
  intros w e He.
  destruct (dev_read ep size w) as [r w'] eqn:E.
  apply dev_read_effect in E. destruct E as (T & _ & _).
  simpl. rewrite T. apply in_or_app. now left.
Qed.

Lemma grows_modify_self g : trace_grows (modify_self g).
Proof. intros w e He. exact He. Qed.

Lemma grows_for_each {A B} (f : A -> Py B) xs :
  (forall x, trace_grows (f x)) -> trace_grows (for_each f xs).
Proof.
  intros Hf. induction xs as [| x xs IH]; simpl.
  - apply grows_silent, silent_ret.
  - apply grows_bind; [apply Hf |]. intros y.
    apply grows_bind; [apply IH |]. intros ys. apply grows_silent, silent_ret.
Qed.

Lemma grows_concat_chunks cs : trace_grows (concat_chunks cs).
Proof. apply grows_silent. destruct cs; intro w; reflexivity. Qed.

Lemma grows_run {A} (c : Py A) w r w' e :
  trace_grows c -> c w = (r, w') ->
  In e (trace (dev w)) -> In e (trace (dev w')).
Proof. intros H E He. specialize (H w e He). now rewrite E in H. Qed.

(** A retry loop that ends well ends with a pass of its body that ended
    well. *)
Lemma for_try_ok_inv (body : Py unit) handled e n w w' :
  for_try n body handled (raise e) w = (Ok tt, w') ->
  exists w1, body w1 = (Ok tt, w').
Proof.
  revert w. induction n as [| n IH]; intros w H; simpl in H.
  - discriminate.
  - destruct (body w) as [[[] | x] w1] eqn:E.
    + injection H as <-. now exists w.
    + destruct (handled x); [now apply IH with (w := w1) | discriminate].
Qed.

End Grows.

Ltac grows :=
  repeat first
    [ simple apply grows_emit | simple apply grows_dev_write
    | simple apply grows_dev_read
    | simple apply grows_modify_self | simple apply grows_concat_chunks
    | simple apply grows_bind; [| intros ]
    | simple apply grows_for_each; intros
    | match goal with
      | |- trace_grows (if ?b then _ else _) => destruct b
      | |- trace_grows (match ?x with _ => _ end) => destruct x
      end
    | solve [apply grows_silent; silent] ].

(** * The claims about construction *)

Section InitClaims.
Local Open Scope py_scope.
Context {F : Type} {FO : FloatOps F}.
Local Abbreviation uworld := (world F (USB2000.obj F)).
Local Abbreviation sworld := (world F (STS.obj F)).

Lemma legacy_request_wrote (w w' : uworld) r :
  USB2000._request_spectrum w = (r, w') ->
  In (EvWrite USB2000._EP1_out [x09]) (trace (dev w')).
Proof.
  unfold USB2000._request_spectrum.
  erewrite bind_ok by (apply pack_run; reflexivity).
  unfold bind at 1.
  destruct (dev_write _ _ w) as [[u | e] w1] eqn:E;
    apply dev_write_effect in E; destruct E as (T & _ & _); intros H.
  - eapply grows_run; [| exact H |].
    + unfold unpack, byte_item, item. grows.
    + rewrite T. apply in_or_app. right. now left.
  - injection H as _ <-. rewrite T. apply in_or_app. right. now left.
Qed.

Lemma legacy_query_information_grows a raw :
  trace_grows (@USB2000._query_information F a raw).
Proof. unfold USB2000._query_information, pack, byte_item, item. grows. Qed.

Lemma legacy_load_wavelength_grows : trace_grows (@USB2000.load_wavelength F FO).
Proof.
  unfold USB2000.load_wavelength, USB2000._get_wavelength_calibration.
  grows. apply legacy_query_information_grows.
Qed.

Lemma legacy_init_split (w : uworld) :
  USB2000.__init__ w
  = (USB2000.init_before_nonlinearity ;;;
     USB2000.load_nonlinearity ;;; USB2000.load_rest) w.
Proof.
  unfold USB2000.__init__, USB2000.init_before_nonlinearity, bind.
  destruct (USB2000.init_open w) as [[u | e] w1]; [| reflexivity].
  destruct (USB2000.detect_speed w1) as [[u1 | e] w2]; [| reflexivity].
  destruct (USB2000.integration_time _ w2) as [[u2 | e] w3]; [| reflexivity].
  destruct (USB2000.verify_acquisition w3) as [[u3 | e] w4]; [| reflexivity].
  destruct (USB2000.load_wavelength w4) as [[u4 | e] w5]; reflexivity.
Qed.

Lemma legacy_spectrum_before_nonlinearity (w w1 : uworld) :
  USB2000.init_before_nonlinearity w = (Ok tt, w1) ->
  In (EvWrite USB2000._EP1_out [x09]) (trace (dev w1)).
Proof.
  intros H. unfold USB2000.init_before_nonlinearity in H.
  do 3 inv_bind H.
  apply bind_inv in H. destruct H as ([] & wv & Ev & H).
  apply for_try_ok_inv in Ev. destruct Ev as (wa & Ea).
  unfold USB2000.spectrum_attempt in Ea.
  apply bind_inv in Ea. destruct Ea as (sp & wb & Eb & Ea).
  unfold ret in Ea. injection Ea as <-.
  eapply grows_run; [apply legacy_load_wavelength_grows | exact H |].
  eapply legacy_request_wrote; exact Eb.
Qed.

Lemma sts_request_wrote (w w' : sworld) r :
  STS._request_spectrum w = (r, w') ->
  In (EvWrite STS._EP1_out
        (request_frame STS._MSG_GET_CORRECTED_SPECTRUM 0 (repeat x00 16)))
     (trace (dev w')).
Proof.
  unfold STS._request_spectrum.
  erewrite bind_ok
    by (apply plain_request_run; unfold u32; cbv; split; discriminate).
  unfold bind at 1.
  destruct (dev_write _ _ w) as [[u | e] w1] eqn:E;
    apply dev_write_effect in E; destruct E as (T & _ & _); intros H.
  - eapply grows_run; [| exact H |].
    + unfold unpack. grows.
    + rewrite T. apply in_or_app. right. now left.
  - injection H as _ <-. rewrite T. apply in_or_app. right. now left.
Qed.

Lemma sts_load_wavelength_grows : trace_grows (@STS.load_wavelength F FO).
Proof.
  unfold STS.load_wavelength, STS._get_wavelength_calibration.
  grows. unfold STS._query_coefficient, STS.check_ack, pack, unpack, int_item,
           item.
  grows.
Qed.

Lemma sts_init_split (w : sworld) :
  STS.__init__ w
  = (STS.init_before_nonlinearity ;;;
     STS.load_nonlinearity ;;; STS.load_stray_light ;;;
     STS.verify_acquisition) w.
Proof.
  unfold STS.__init__, STS.init_before_nonlinearity, bind.
  destruct (STS.init_open w) as [[u | e] w1]; [| reflexivity].
  destruct (STS.init_identify w1) as [[u1 | e] w2]; [| reflexivity].
  destruct (STS.integration_time _ w2) as [[u2 | e] w3]; [| reflexivity].
  destruct (STS.set_scan_averages _ w3) as [[u3 | e] w4]; [| reflexivity].
  destruct (STS._request_spectrum w4) as [[u4 | e] w5]; [| reflexivity].
  destruct (STS.load_wavelength w5) as [[u5 | e] w6]; reflexivity.
Qed.

Lemma sts_spectrum_before_nonlinearity (w w1 : sworld) :
  STS.init_before_nonlinearity w = (Ok tt, w1) ->
  In (EvWrite STS._EP1_out
        (request_frame STS._MSG_GET_CORRECTED_SPECTRUM 0 (repeat x00 16)))
     (trace (dev w1)).
Proof.
  intros H. unfold STS.init_before_nonlinearity in H.
  do 4 inv_bind H.
  apply bind_inv in H. destruct H as (sp & wv & Ev & H).
  eapply grows_run; [apply sts_load_wavelength_grows | exact H |].
  eapply sts_request_wrote; exact Ev.
Qed.

(** C3, as the code has it.  When the steps of construction that precede
    the nonlinearity calibration have succeeded and the device then
    reports a coefficient count other than 7 (legacy) or other than 8
    (framed), the constructor raises the error "This spectrometer has less
    correction factors" and returns no object; by then the spectrum
    request of the first-acquisition check has already been written to the
    device. *)
Theorem calibration_mismatch_aborts_construction
    (du : device F) (wu1 wu2 : uworld) s n
    (ds : device F) (ws1 ws2 : sworld) m :
  USB2000.init_before_nonlinearity (mkWorld du USB2000.fresh) = (Ok tt, wu1) ->
  USB2000._query_information 14 false wu1 = (Ok s, wu2) ->
  int_of_bytes s = Some n -> n <> 7 ->
  STS.init_before_nonlinearity (mkWorld ds STS.fresh) = (Ok tt, ws1) ->
  STS._query_coefficient_count STS._MSG_GET_NONLINEAR_COEFF_COUNT ws1
  = (Ok (VInt m), ws2) ->
  m <> 8 ->
  USB2000.new du
  = (Raise (OOError "This spectrometer has less correction factors"), dev wu2)
  /\ In (EvWrite USB2000._EP1_out [x09]) (trace (dev wu1))
  /\ STS.new ds
     = (Raise (OOError "This spectrometer has less correction factors"),
        dev ws2)
  /\ In (EvWrite STS._EP1_out
           (request_frame STS._MSG_GET_CORRECTED_SPECTRUM 0 (repeat x00 16)))
        (trace (dev ws1)).
Proof.
  intros Hu Hq Hn Hne Hs Hc Hm.
  split; [| split; [| split]].
  - unfold USB2000.new. rewrite legacy_init_split.
    erewrite bind_ok by exact Hu.
    unfold USB2000.load_nonlinearity.
    rewrite bind_assoc.
    erewrite bind_raise; [reflexivity |].
    rewrite (nonlinearity_calibration_cases _ _ _ _ Hq Hn).
    apply Z.eqb_neq in Hne. now rewrite Hne.
  - exact (legacy_spectrum_before_nonlinearity _ _ Hu).
  - unfold STS.new. rewrite sts_init_split.
    erewrite bind_ok by exact Hs.
    unfold STS.load_nonlinearity.
    rewrite bind_assoc.
    erewrite bind_raise; [reflexivity |].
    unfold STS._get_nonlinearity_calibration.
    erewrite bind_ok by exact Hc.
    cbn [as_int]. unfold bind at 1, ret.
    apply Z.eqb_neq in Hm. now rewrite Hm.
  - exact (sts_spectrum_before_nonlinearity _ _ Hs).
Qed.

Lemma legacy_init_after_open (d : device F) (w0 : uworld) :
  USB2000.init_open (mkWorld d USB2000.fresh) = (Ok tt, w0) ->
  USB2000.__init__ (mkWorld d USB2000.fresh)
  = (USB2000.detect_speed ;;;
     USB2000.integration_time (Some 1000) ;;;
     USB2000.verify_acquisition ;;;
     USB2000.load_wavelength ;;;
     USB2000.load_nonlinearity ;;;
     USB2000.load_rest) w0.
Proof. intros H. unfold USB2000.__init__. now erewrite bind_ok by exact H. Qed.

(** C4.  Legacy constructor, after the device has been opened.  Speed
    detection: nine attempts that raise [USBError] followed by an attempt
    that succeeds let construction go on with the rest of [__init__]; ten
    such attempts abort it with "Initialization USBCOM".  First
    acquisition: the same with nine or ten failed spectrum requests, any
    exception counting as a failure, and the error "Initialization
    SPECTRUM".  An aborted construction returns no object. *)
Theorem legacy_init_retries_ten_times (d : device F) (w0 : uworld) :
  USB2000.init_open (mkWorld d USB2000.fresh) = (Ok tt, w0) ->
  (forall w9 w10,
      attempts_fail USB2000.speed_attempt is_USBError 9 w0 w9 ->
      USB2000.speed_attempt w9 = (Ok tt, w10) ->
      USB2000.new d
      = USB2000.constructed
          ((USB2000.integration_time (Some 1000) ;;;
            USB2000.verify_acquisition ;;;
            USB2000.load_wavelength ;;;
            USB2000.load_nonlinearity ;;;
            USB2000.load_rest) w10))
  /\ (forall w10,
      attempts_fail USB2000.speed_attempt is_USBError 10 w0 w10 ->
      USB2000.new d = (Raise (OOError "Initialization USBCOM"), dev w10))
  /\ (forall w1 v w2 w9 w10,
      USB2000.detect_speed w0 = (Ok tt, w1) ->
      USB2000.integration_time (Some 1000) w1 = (Ok v, w2) ->
      attempts_fail USB2000.spectrum_attempt any_exception 9 w2 w9 ->
      USB2000.spectrum_attempt w9 = (Ok tt, w10) ->
      USB2000.new d
      = USB2000.constructed
          ((USB2000.load_wavelength ;;;
            USB2000.load_nonlinearity ;;;
            USB2000.load_rest) w10))
  /\ (forall w1 v w2 w10,
      USB2000.detect_speed w0 = (Ok tt, w1) ->
      USB2000.integration_time (Some 1000) w1 = (Ok v, w2) ->
      attempts_fail USB2000.spectrum_attempt any_exception 10 w2 w10 ->
      USB2000.new d = (Raise (OOError "Initialization SPECTRUM"), dev w10)).
Proof.
  intros Hopen. unfold USB2000.new.
  rewrite (legacy_init_after_open d w0 Hopen).
  split; [| split; [| split]].
  - intros w9 w10 Hf Hok. f_equal.
    erewrite bind_ok; [reflexivity |].
    unfold USB2000.detect_speed.
    rewrite (for_try_after_failures _ _ _ 9 1 w0 w9 Hf).
    now apply for_try_success.
  - intros w10 Hf.
    erewrite bind_raise; [reflexivity |].
    unfold USB2000.detect_speed.
    rewrite (for_try_after_failures _ _ _ 10 0 w0 w10 Hf). reflexivity.
  - intros w1 v w2 w9 w10 Hd Hit Hf Hok. f_equal.
    erewrite bind_ok by exact Hd.
    erewrite bind_ok by exact Hit.
    erewrite bind_ok; [reflexivity |].
    unfold USB2000.verify_acquisition.
    rewrite (for_try_after_failures _ _ _ 9 1 w2 w9 Hf).
    now apply for_try_success.
  - intros w1 v w2 w10 Hd Hit Hf.
    erewrite bind_ok by exact Hd.
    erewrite bind_ok by exact Hit.
    erewrite bind_raise; [reflexivity |].
    unfold USB2000.verify_acquisition.
    rewrite (for_try_after_failures _ _ _ 10 0 w2 w10 Hf). reflexivity.
Qed.

End InitClaims.

(** ** Failed status reads, and the loop of [STS._initialize] *)

Section DeadReads.
Local Open Scope py_scope.
Context {F : Type} {FO : FloatOps F}.
Local Abbreviation uworld := (world F (USB2000.obj F)).

Lemma speed_attempt_dead_read (w : uworld) :
  wscript (dev w) = [] ->
  read_raises USB2000._EP1_in_size (rscript (dev w)) = true ->
  USB2000.speed_attempt w = (Raise USBError, after_dead_reads 1 w).
Proof.
  intros Hw Hr. unfold USB2000.speed_attempt, USB2000._query_status.
  rewrite bind_assoc.
  erewrite bind_ok by (apply pack_run; reflexivity).
  rewrite bind_assoc.
  erewrite bind_ok by (apply dev_write_run; exact Hw).
  rewrite bind_assoc.
  erewrite bind_raise by (apply dev_read_raises; exact Hr).
  cbn [after_dead_reads dev self trace rscript wscript attached].
  rewrite <- app_assoc. reflexivity.
Qed.

Lemma dead_reads_fail k :
  forall w : uworld,
    wscript (dev w) = [] ->
    firstn k (rscript (dev w)) = repeat None k ->
    attempts_fail USB2000.speed_attempt is_USBError k w (after_dead_reads k w).
Proof.
  induction k as [| k IH]; intros w Hw Hr.
  - apply fail_none.
  - destruct (rscript (dev w)) as [| r rs] eqn:Ers; [discriminate |].
    simpl in Hr. injection Hr as -> Hrs.
    eapply fail_more.
    + apply speed_attempt_dead_read; [exact Hw | now rewrite Ers].
    + reflexivity.
    + cbn [after_dead_reads]. apply IH; simpl; [reflexivity |].
      now rewrite Ers.
Qed.

(** The loop of [STS._initialize], one pass at a time. *)
Lemma drain_step (w : world F (STS.obj F)) :
  STS.drain (rscript (dev w)) (dev w)
  = match dev_read STS._EP1_in STS._EP1_in_size w with
    | (Ok _, w') => STS.drain (rscript (dev w')) (dev w')
    | (Raise _, w') => dev w'
    end.
Proof.
  destruct w as [[at_ rs ws tr] o]. unfold dev_read. simpl.
  destruct rs as [| [bs |] rs]; simpl; try reflexivity.
  destruct (Z.of_nat (length bs) <=? STS._EP1_in_size); reflexivity.
Qed.

End DeadReads.

(** * Supporting facts: every chunk is needed, constructed sessions *)

Section LoopFacts.
Local Open Scope py_scope.
Context {F : Type} {FO : FloatOps F} {Obj : Type}.

Lemma for_each_length {A B} (f : A -> M F Obj B) xs :
  forall w ys w', for_each f xs w = (Ok ys, w') -> length ys = length xs.
Proof.
  induction xs as [| x xs IH]; intros w ys w' H; simpl in H.
  - unfold ret in H. now injection H as <- _.
  - apply bind_inv in H. destruct H as (y & w1 & _ & H).
    apply bind_inv in H. destruct H as (ys' & w2 & E & H).
    unfold ret in H. injection H as <- _. simpl. f_equal. eapply IH, E.
Qed.

(** Reading [n] chunks from a transport that delivers fewer and then
    fails. *)
Lemma read_chunks_short ep size chunks :
  Forall (fun c => Z.of_nat (length c) <= size) chunks ->
  forall n a (w : world F Obj) rest,
    (length chunks < n)%nat ->
    rscript (dev w) = map Some chunks ++ rest ->
    read_raises size rest = true ->
    fst (for_each (fun _ : nat => dev_read ep size) (seq a n) w)
    = Raise USBError.
Proof.
  induction 1 as [| c chunks Hc _ IH]; intros n a w rest Hn Hs Hr;
    (destruct n as [| n]; [simpl in Hn; lia |]); simpl in *.
  - unfold bind at 1. rewrite dev_read_raises by now rewrite Hs.
    reflexivity.
  - unfold bind at 1. rewrite (dev_read_run _ _ _ _ _ Hs Hc).
    unfold bind at 1.
    match goal with
    | |- fst (match ?x with _ => _ end) = _ =>
        assert (E : fst x = Raise USBError)
          by (apply IH with (rest := rest); [lia | reflexivity | exact Hr]);
        destruct x as [[ys | e] w2]; simpl in E; [discriminate |]
    end.
    injection E as ->. reflexivity.
Qed.

Lemma keeps_for_try (body : M F Obj unit) handled orelse n :
  keeps_self body -> keeps_self orelse ->
  keeps_self (for_try n body handled orelse).
Proof.
  intros Hb Ho. induction n as [| n IH]; [exact Ho |].
  intros w. simpl. specialize (Hb w).
  destruct (body w) as [[u | e] w1]; simpl in *; [exact Hb |].
  destruct (handled e); [| exact Hb].
  now rewrite IH.
Qed.

End LoopFacts.

Section LegacySessions.
Local Open Scope py_scope.
Context {F : Type} {FO : FloatOps F}.
Local Abbreviation uworld := (world F (USB2000.obj F)).

Lemma legacy_spectrum_reads (speed : Z) :
  (if speed =? 128
   then for_each (fun _ : nat => dev_read USB2000._EP2_in 512) (seq 0 8)
   else for_each (fun _ : nat => dev_read USB2000._EP2_in 64) (seq 0 64))
  = (for_each (fun _ : nat => dev_read USB2000._EP2_in (spec_chunk_size speed))
              (seq 0 (spec_chunk_count speed)) : M F (USB2000.obj F) _).
Proof.
  unfold spec_chunk_size, spec_chunk_count. destruct (speed =? 128); reflexivity.
Qed.

(** Every chunk is needed: when the transport delivers fewer chunks than
    the policy asks for and the next read fails, so does the spectrum
    read. *)
Lemma legacy_spectrum_needs_every_chunk (w : uworld) it speed chunks rest :
  USB2000._it (self w) = Some it ->
  USB2000._usbcomm (self w) = Some speed ->
  wscript (dev w) = [] ->
  (length chunks < spec_chunk_count speed)%nat ->
  Forall (fun c => Z.of_nat (length c) <= spec_chunk_size speed) chunks ->
  rscript (dev w) = map Some chunks ++ rest ->
  read_raises (spec_chunk_size speed) rest = true ->
  fst (USB2000._request_spectrum w) = Raise USBError.
Proof.
  intros Hit Hsp Hw Hn Hc Hr Hx.
  unfold USB2000._request_spectrum.
  erewrite bind_ok by (apply pack_run; reflexivity).
  erewrite bind_ok by (apply dev_write_run; assumption).
  erewrite bind_ok by (apply getattr_run; exact Hit).
  erewrite bind_ok by reflexivity.
  erewrite bind_ok by (apply getattr_run; exact Hsp).
  rewrite legacy_spectrum_reads. unfold bind at 1.
  match goal with
  | |- fst (match ?x with _ => _ end) = _ =>
      assert (E : fst x = Raise USBError)
        by (eapply read_chunks_short; [exact Hc | exact Hn | simpl; exact Hr
                                      | exact Hx]);
      destruct x as [[ys | e] w2]; simpl in E; [discriminate |]
  end.
  injection E as ->. reflexivity.
Qed.

(** All 4096 bytes are needed: chunks of any other total length make the
    decoding fail, before the synchronisation byte is read. *)
Lemma legacy_spectrum_needs_4096_bytes (w : uworld) it speed chunks rest :
  USB2000._it (self w) = Some it ->
  USB2000._usbcomm (self w) = Some speed ->
  wscript (dev w) = [] ->
  length chunks = spec_chunk_count speed ->
  Forall (fun c => Z.of_nat (length c) <= spec_chunk_size speed) chunks ->
  length (concat chunks) <> 4096%nat ->
  rscript (dev w) = map Some chunks ++ rest ->
  fst (USB2000._request_spectrum w) = Raise StructError
  /\ rscript (dev (snd (USB2000._request_spectrum w))) = rest.
Proof.
  intros Hit Hsp Hw Hn Hc Hlen Hr.
  unfold USB2000._request_spectrum.
  erewrite bind_ok by (apply pack_run; reflexivity).
  erewrite bind_ok by (apply dev_write_run; assumption).
  erewrite bind_ok by (apply getattr_run; exact Hit).
  erewrite bind_ok by reflexivity.
  erewrite bind_ok by (apply getattr_run; exact Hsp).
  rewrite legacy_spectrum_reads.
  erewrite bind_ok by (eapply read_chunks; [exact Hc | exact Hn | simpl; exact Hr]).
  erewrite bind_ok.
  2:{ apply concat_chunks_run. intros ->. unfold spec_chunk_count in Hn.
      destruct (speed =? 128); discriminate. }
  erewrite bind_raise.
  2:{ unfold unpack, struct_unpack. rewrite calcsize_repeat.
      apply Nat.eqb_neq in Hlen. simpl Nat.mul. rewrite Hlen. reflexivity. }
  split; reflexivity.
Qed.

Lemma legacy_query_information_keeps a raw :
  keeps_self (@USB2000._query_information F a raw).
Proof. unfold USB2000._query_information, pack. keeps. Qed.

Lemma legacy_nonlinearity_keeps :
  keeps_self (@USB2000._get_nonlinearity_calibration F FO).
Proof.
  unfold USB2000._get_nonlinearity_calibration.
  apply keeps_bind; [apply legacy_query_information_keeps | intros s].
  apply keeps_bind; [apply keeps_lift_opt | intros n].
  destruct (negb (n =? 7)); [apply keeps_raise |].
  apply keeps_for_each. intros i.
  apply keeps_bind; [apply legacy_query_information_keeps | intros s'].
  apply keeps_py_float.
Qed.

Lemma legacy_saturation_keeps :
  keeps_self (@USB2000._get_saturation_calibration F FO).
Proof.
  unfold USB2000._get_saturation_calibration.
  apply keeps_bind; [apply legacy_query_information_keeps | intros r].
  unfold unpack. keeps.
Qed.

(** The session a successful constructor returns: four wavelength
    coefficients, eight nonlinearity coefficients, a saturation factor. *)
Lemma legacy_constructed_session (d d' : device F) o :
  USB2000.new d = (Ok o, d') ->
  exists wl nl st,
    USB2000._wl o = Some wl /\ length wl = 4%nat
    /\ USB2000._nl o = Some nl /\ length nl = 8%nat
    /\ USB2000._st o = Some st.
Proof.
  unfold USB2000.new, USB2000.constructed.
  destruct (USB2000.__init__ _) as [[[] | e] wf] eqn:H; [| discriminate].
  intros E. injection E as <- _.
  rewrite legacy_init_split in H.
  apply bind_inv in H. destruct H as ([] & w1 & Hpre & H).
  apply bind_inv in H. destruct H as ([] & w2 & Hnl & H).
  (* wavelength: the last step of the prefix *)
  unfold USB2000.init_before_nonlinearity in Hpre.
  do 4 inv_bind Hpre.
  unfold USB2000.load_wavelength in Hpre.
  apply bind_inv in Hpre. destruct Hpre as (wl & wa & Ewl & Hpre).
  unfold modify_self in Hpre. injection Hpre as <-.
  apply for_each_length in Ewl.
  (* nonlinearity *)
  unfold USB2000.load_nonlinearity in Hnl.
  apply bind_inv in Hnl. destruct Hnl as (nl & wb & Enl & Hnl).
  unfold modify_self in Hnl. injection Hnl as <-.
  pose proof (keeps_self_run _ _ _ _ legacy_nonlinearity_keeps Enl) as Kb.
  assert (Lnl : length nl = 8%nat).
  { unfold USB2000._get_nonlinearity_calibration in Enl.
    do 2 inv_bind Enl.
    destruct (negb (_ =? 7)); [discriminate |].
    now apply for_each_length in Enl. }
  (* saturation and serial number *)
  unfold USB2000.load_rest in H.
  apply bind_inv in H. destruct H as (st & wc & Est & H).
  pose proof (keeps_self_run _ _ _ _ legacy_saturation_keeps Est) as Kc.
  apply bind_inv in H. destruct H as ([] & wd & Em & H).
  unfold modify_self in Em. injection Em as <-.
  apply bind_inv in H. destruct H as (serial & we & Ese & H).
  pose proof (keeps_self_run _ _ _ _
                (legacy_query_information_keeps 0 false) Ese) as Ke.
  unfold modify_self in H. injection H as <-.
  exists wl, nl, st.
  cbn [self] in *. rewrite Ke, Kc, Kb. cbn.
  repeat split; assumption.
Qed.

End LegacySessions.

Section FramedSessions.
Local Open Scope py_scope.
Context {F : Type} {FO : FloatOps F}.
Local Abbreviation sworld := (world F (STS.obj F)).

Lemma sts_check_ack_keeps fmt r on_success :
  (forall ack, keeps_self (on_success ack)) ->
  keeps_self (STS.check_ack fmt r on_success : M F (STS.obj F) _).
Proof.
  intros H. unfold STS.check_ack, unpack. keeps. apply H.
Qed.

Lemma sts_query_coefficient_count_keeps command :
  keeps_self (STS._query_coefficient_count command : M F (STS.obj F) _).
Proof.
  unfold STS._query_coefficient_count, STS.plain_request, pack.
  keeps. apply sts_check_ack_keeps. intros ack. keeps.
Qed.

Lemma sts_query_coefficient_keeps index command :
  keeps_self (@STS._query_coefficient F FO index command).
Proof.
  unfold STS._query_coefficient, pack.
  keeps. apply sts_check_ack_keeps. intros ack. keeps.
Qed.

Lemma sts_coefficients_keep command n :
  keeps_self
    (for_each (fun i => v <- @STS._query_coefficient F FO i command ;;
                        py_float v) (map Z.of_nat (seq 0 n))).
Proof.
  apply keeps_for_each. intros i.
  apply keeps_bind; [apply sts_query_coefficient_keeps | intros v].
  apply keeps_py_float.
Qed.

Lemma sts_nonlinearity_keeps :
  keeps_self (@STS._get_nonlinearity_calibration F FO).
Proof.
  unfold STS._get_nonlinearity_calibration.
  apply keeps_bind; [apply sts_query_coefficient_count_keeps | intros v].
  apply keeps_bind; [apply keeps_as_int | intros n].
  destruct (negb (n =? 8)); [apply keeps_raise |].
  apply sts_coefficients_keep.
Qed.

Lemma sts_stray_light_keeps :
  keeps_self (@STS._get_stray_light_calibration F FO).
Proof.
  unfold STS._get_stray_light_calibration.
  apply keeps_bind; [apply sts_query_coefficient_count_keeps | intros v].
  apply keeps_bind; [apply keeps_as_int | intros n].
  apply sts_coefficients_keep.
Qed.

Lemma sts_verify_acquisition_keeps :
  keeps_self (@STS.verify_acquisition F FO).
Proof.
  unfold STS.verify_acquisition. apply keeps_for_try.
  - unfold STS.spectrum_attempt.
    apply keeps_bind; [apply sts_request_spectrum_keeps | intros].
    apply keeps_ret.
  - apply keeps_raise.
Qed.

(** The session a successful constructor returns: four wavelength
    coefficients and eight nonlinearity coefficients. *)
Lemma sts_constructed_session (d d' : device F) o :
  STS.new d = (Ok o, d') ->
  exists wl nl,
    STS._wl o = Some wl /\ length wl = 4%nat
    /\ STS._nl o = Some nl /\ length nl = 8%nat.
Proof.
  unfold STS.new, STS.constructed.
  destruct (STS.__init__ _) as [[[] | e] wf] eqn:H; [| discriminate].
  intros E. injection E as <- _.
  rewrite sts_init_split in H.
  apply bind_inv in H. destruct H as ([] & w1 & Hpre & H).
  apply bind_inv in H. destruct H as ([] & w2 & Hnl & H).
  apply bind_inv in H. destruct H as ([] & w3 & Hsl & H).
  pose proof (keeps_self_run _ _ _ _ sts_verify_acquisition_keeps H) as Kf.
  unfold STS.init_before_nonlinearity in Hpre.
  do 5 inv_bind Hpre.
  unfold STS.load_wavelength in Hpre.
  apply bind_inv in Hpre. destruct Hpre as (wl & wa & Ewl & Hpre).
  unfold modify_self in Hpre. injection Hpre as <-.
  apply for_each_length in Ewl.
  unfold STS.load_nonlinearity in Hnl.
  apply bind_inv in Hnl. destruct Hnl as (nl & wb & Enl & Hnl).
  unfold modify_self in Hnl. injection Hnl as <-.
  pose proof (keeps_self_run _ _ _ _ sts_nonlinearity_keeps Enl) as Kb.
  assert (Lnl : length nl = 8%nat).
  { unfold STS._get_nonlinearity_calibration in Enl.
    do 2 inv_bind Enl.
    destruct (negb (_ =? 8)) eqn:E8; [discriminate |].
    apply negb_false_iff, Z.eqb_eq in E8. subst.
    now apply for_each_length in Enl. }
  unfold STS.load_stray_light in Hsl.
  apply bind_inv in Hsl. destruct Hsl as (sl & wc & Esl & Hsl).
  pose proof (keeps_self_run _ _ _ _ sts_stray_light_keeps Esl) as Kc.
  apply bind_inv in Hsl. destruct Hsl as ([] & wd & Em & Hsl).
  unfold modify_self in Em. injection Em as <-.
  unfold emit in Hsl. injection Hsl as <-.
  exists wl, nl.
  rewrite Kf. cbn [self] in *. rewrite Kc, Kb. cbn.
  repeat split; assumption.
Qed.

End FramedSessions.

(** * Concrete runs *)

Section Runs.
Import Exact Sim.
Local Open Scope py_scope.

Lemma acquire_spectrum_two_rows_witness :
  USB2000._request_spectrum usb_ready
  = (Ok (map VInt pattern), snd (USB2000._request_spectrum usb_ready))
  /\ exists wavelength intensity,
       fst (USB2000.acquire_spectrum usb_ready) = Ok (wavelength, intensity)
       /\ length wavelength = 2028%nat /\ length intensity = 2028%nat.
Proof.
  assert (Hu : USB2000._request_spectrum usb_ready
               = (Ok (map VInt pattern),
                  snd (USB2000._request_spectrum usb_ready)))
    by (vm_compute; reflexivity).
  assert (Hs : STS._request_spectrum sts_ready
               = (Ok (map VInt sts_pattern),
                  snd (STS._request_spectrum sts_ready)))
    by (vm_compute; reflexivity).
  split; [exact Hu |].
  destruct (acquire_spectrum_two_rows
              usb_ready _ sts_ready _ _
              [350; 2; -1; 0]%Q [1; 2; 0; 0; 0; 0; 0; 0]%Q
              (65535 # 32767)%Q _
              [1; 2; 0; 0]%Q
              [1; 0; 0; 0; 0; 0; 0; 0]%Q
              Hu eq_refl ltac:(simpl; lia) eq_refl ltac:(simpl; lia) eq_refl
              Hs ltac:(vm_compute; reflexivity) ltac:(simpl; lia)
              ltac:(vm_compute; reflexivity))
    as [(raw & wv & it & _ & _ & Ha & Hw & Hi & _) _].
  exists wv, it. rewrite Ha. auto.
Defined.

Lemma legacy_spectrum_chunks_and_sync_witness :
  USB2000._usbcomm (self usb_ready) = Some 0x80
  /\ fst (USB2000._request_spectrum usb_ready)
     = Ok (map VInt (map (sample16 (concat (chunked 8 512 pattern_bytes)))
                         (seq 0 2048))).
Proof.
  split; [reflexivity |].
  refine (proj1 (proj2 (proj2
    (legacy_spectrum_chunks_and_sync usb_ready 1000 0x80
       (chunked 8 512 pattern_bytes) (byte_of_Z 0x69) []
       eq_refl eq_refl eq_refl eq_refl _ _ _))) _).
  - repeat (constructor; [apply Z.leb_le; vm_compute; reflexivity |]).
    constructor.
  - vm_compute. reflexivity.
  - vm_compute. reflexivity.
  - vm_compute. reflexivity.
Defined.

Lemma wavelength_is_cubic_in_pixel_witness :
  USB2000._wl (self usb_ready) = Some [350; 2; -1; 0]%Q
  /\ STS._wl (self sts_ready) = Some [1; 2; 0; 0]%Q
  /\ nth (Z.to_nat 20 - 20) (wavelength_row [350; 2; -1; 0]%Q 20 2048) 0%Q
     = cubic_from_zero 350%Q 2%Q (-1)%Q 0%Q 20
  /\ nth (Z.to_nat 0) (wavelength_row [1; 2; 0; 0]%Q 0 1024) 0%Q
     = cubic_from_zero 1%Q 2%Q 0%Q 0%Q 0.
Proof.
  assert (Hu : USB2000._request_spectrum usb_ready
               = (Ok (map VInt pattern),
                  snd (USB2000._request_spectrum usb_ready)))
    by (vm_compute; reflexivity).
  assert (Hs : STS._request_spectrum sts_ready
               = (Ok (map VInt sts_pattern),
                  snd (STS._request_spectrum sts_ready)))
    by (vm_compute; reflexivity).
  destruct (wavelength_is_cubic_in_pixel
              usb_ready _ sts_ready _
              350%Q 2%Q (-1)%Q 0%Q 1%Q 2%Q 0%Q 0%Q _ _ _ _
              eq_refl
              (acquire_spectrum_run usb_ready _ pattern
                 [350; 2; -1; 0]%Q [1; 2; 0; 0; 0; 0; 0; 0]%Q (65535 # 32767)%Q
                 Hu eq_refl eq_refl (Nat.le_refl 4) eq_refl (Nat.le_refl 8)
                 eq_refl)
              eq_refl
              (sts_acquire_spectrum_run sts_ready _ sts_pattern
                 [1; 2; 0; 0]%Q [1; 0; 0; 0; 0; 0; 0; 0]%Q
                 Hs eq_refl eq_refl (Nat.le_refl 4) eq_refl))
    as (Hlegacy & Hframed & _).
  split; [reflexivity | split; [reflexivity | split]].
  - exact (Hlegacy 20 0%Q ltac:(lia)).
  - exact (Hframed 0 0%Q ltac:(lia)).
Defined.

Lemma legacy_count_seven_but_eight_coefficients_witness :
  int_of_bytes (list_byte_of_string "7") = Some 7
  /\ exists coeffs w2,
       USB2000._get_nonlinearity_calibration usb_before_nonlinearity
       = (Ok coeffs, w2)
       /\ length coeffs = 8%nat.
Proof.
  split; [reflexivity |].
  destruct (legacy_count_seven_but_eight_coefficients
              usb_before_nonlinearity
              (snd (USB2000._query_information 14 false usb_before_nonlinearity))
              (list_byte_of_string "7") 7
              usb_ready (snd (USB2000._request_spectrum usb_ready))
              (map VInt pattern)
              [350; 2; -1; 0]%Q [1; 2; 0; 0; 0; 0; 0; 0]%Q
              (65535 # 32767)%Q
              ltac:(vm_compute; reflexivity) eq_refl
              ltac:(vm_compute; reflexivity)
              eq_refl ltac:(simpl; lia) eq_refl eq_refl eq_refl)
    as (_ & H & _).
  exists [1; 2; 0; 0; 0; 0; 0; 0]%Q,
    (snd (USB2000._get_nonlinearity_calibration usb_before_nonlinearity)).
  assert (E : USB2000._get_nonlinearity_calibration usb_before_nonlinearity
              = (Ok [1; 2; 0; 0; 0; 0; 0; 0]%Q,
                 snd (USB2000._get_nonlinearity_calibration
                        usb_before_nonlinearity)))
    by (vm_compute; reflexivity).
  split; [exact E |].
  exact (proj1 (proj2 (H _ _ E))).
Defined.

Lemma sts_nonzero_status_yields_sentinel_witness :
  frame_status error_frame = 5
  /\ fst (STS._query_coefficient 0 STS._MSG_GET_WAVELENGTH_COEFF
            (sts_answering error_frame))
     = Ok (VInt (-1)).
Proof.
  split; [reflexivity |].
  refine (proj1 (sts_nonzero_status_yields_sentinel
                   (sts_answering error_frame) 0
                   STS._MSG_GET_WAVELENGTH_COEFF error_frame []
                   _ _ eq_refl eq_refl eq_refl _)).
  - lia.
  - unfold u32. vm_compute. split; discriminate.
  - vm_compute. discriminate.
Defined.

(** C2 fails on the code: the response with status 5 makes
    [_query_coefficient] return [-1]; nothing is raised, and the wavelength
    calibration takes the sentinel for a coefficient. *)
Lemma sts_error_frame_is_not_an_error :
  frame_status error_frame = 5
  /\ fst (STS._query_coefficient 0 STS._MSG_GET_WAVELENGTH_COEFF
            (sts_answering error_frame))
     = Ok (VInt (-1))
  /\ (forall e,
        fst (STS._query_coefficient 0 STS._MSG_GET_WAVELENGTH_COEFF
               (sts_answering error_frame))
        <> Raise e)
  /\ fst (STS._get_wavelength_calibration
            (mkWorld (sts_device (repeat (Some error_frame) 4)) sts_session))
     = Ok [inject_Z (-1); inject_Z (-1); inject_Z (-1); inject_Z (-1)].
Proof.
  repeat split; try (vm_compute; reflexivity).
  intros e. vm_compute. discriminate.
Qed.

Lemma sts_markers_are_not_inspected_witness :
  frame_start unmarked_frame = 0
  /\ fst (STS._query_coefficient_count STS._MSG_GET_NONLINEAR_COEFF_COUNT
            (sts_answering unmarked_frame))
     = fst (STS._query_coefficient_count STS._MSG_GET_NONLINEAR_COEFF_COUNT
              (sts_answering (good_frame 0x181100 (bytes [8])))).
Proof.
  split; [reflexivity |].
  refine (proj1 (proj2 (sts_markers_are_not_inspected
    (sts_answering (good_frame 0x181100 (bytes [8])))
    (sts_answering unmarked_frame) sts_ready
    STS._MSG_GET_NONLINEAR_COEFF_COUNT
    (good_frame 0x181100 (bytes [8])) unmarked_frame [] [] 10000 10
    (chunked 33 64 sts_spectrum_bytes) []
    _ eq_refl eq_refl eq_refl eq_refl _ eq_refl eq_refl eq_refl
    eq_refl eq_refl eq_refl eq_refl _ _ _))).
  - unfold u32. vm_compute. split; discriminate.
  - vm_compute. lia.
  - repeat (constructor; [apply Z.leb_le; vm_compute; reflexivity |]).
    constructor.
  - vm_compute. reflexivity.
  - vm_compute. reflexivity.
Defined.

(** C6 fails on the code: a response whose start marker is [0x0000] and
    whose end marker is [0] is decoded like any other, and a response of
    10 bytes gives [-1] instead of an error. *)
Lemma sts_unmarked_frame_is_accepted :
  frame_start unmarked_frame <> STS._START_BYTES
  /\ frame_end unmarked_frame <> STS._END_BYTES
  /\ fst (STS._query_coefficient_count STS._MSG_GET_NONLINEAR_COEFF_COUNT
            (sts_answering unmarked_frame))
     = Ok (VInt 8)
  /\ fst (STS._query_coefficient_count STS._MSG_GET_NONLINEAR_COEFF_COUNT
            (sts_answering (repeat x00 10)))
     = Ok (VInt (-1)).
Proof.
  repeat split; try (vm_compute; reflexivity); vm_compute; discriminate.
Qed.

Lemma sts_integration_time_set_only_on_read_error_witness :
  STS._it (self (snd (STS._set_integration_time 20000
                        (mkWorld (sts_device []) sts_session))))
  = Some 20000
  /\ STS._it (self (snd (STS._set_integration_time 20000
                           (sts_answering
                              (good_frame 0x110010 (le_bytes 4 20000))))))
     = Some 10000.
Proof.
  split.
  - destruct (sts_integration_time_set_only_on_read_error 20000
                (mkWorld (sts_device []) sts_session)
                ltac:(unfold u32; lia) eq_refl) as (H & _ & _).
    destruct (H eq_refl) as [_ E]. rewrite E. reflexivity.
  - destruct (sts_integration_time_set_only_on_read_error 20000
                (sts_answering (good_frame 0x110010 (le_bytes 4 20000)))
                ltac:(unfold u32; lia) eq_refl) as (_ & H & _).
    destruct (H _ [] eq_refl ltac:(vm_compute; lia)) as (_ & E & _).
    rewrite E. reflexivity.
Defined.

(** C5 at a session that holds 10000 microseconds. *)
Lemma sts_integration_time_query_returns_none :
  STS._it sts_session = Some 10000
  /\ fst (STS.integration_time None (mkWorld (sts_device []) sts_session))
     = Ok None.
Proof. split; reflexivity. Qed.

Lemma calibration_mismatch_aborts_construction_witness :
  int_of_bytes (list_byte_of_string "5") = Some 5
  /\ fst (USB2000.new usb_five)
     = Raise (OOError "This spectrometer has less correction factors")
  /\ fst (STS.new sts_five)
     = Raise (OOError "This spectrometer has less correction factors").
Proof.
  assert (Hu : USB2000.init_before_nonlinearity (mkWorld usb_five USB2000.fresh)
               = (Ok tt, usb_five_checked)) by (vm_compute; reflexivity).
  assert (Hq : USB2000._query_information 14 false usb_five_checked
               = (Ok (list_byte_of_string "5"),
                  snd (USB2000._query_information 14 false usb_five_checked)))
    by (vm_compute; reflexivity).
  assert (Hs : STS.init_before_nonlinearity (mkWorld sts_five STS.fresh)
               = (Ok tt, sts_five_checked)) by (vm_compute; reflexivity).
  assert (Hc : STS._query_coefficient_count STS._MSG_GET_NONLINEAR_COEFF_COUNT
                 sts_five_checked
               = (Ok (VInt 5),
                  snd (STS._query_coefficient_count
                         STS._MSG_GET_NONLINEAR_COEFF_COUNT sts_five_checked)))
    by (vm_compute; reflexivity).
  split; [reflexivity |].
  destruct (calibration_mismatch_aborts_construction
              usb_five usb_five_checked _ (list_byte_of_string "5") 5
              sts_five sts_five_checked _ 5
              Hu Hq eq_refl ltac:(lia) Hs Hc ltac:(lia))
    as (Eu & _ & Es & _).
  rewrite Eu, Es. split; reflexivity.
Defined.

(** C3 fails on the code as stated: with a reported count of 5 the
    constructor does raise the calibration error, but the trace left
    behind holds the spectrum request, its eight reads and the read of the
    synchronisation byte: a spectrum has been acquired before the check is
    reached. *)
Lemma spectrum_is_read_before_the_count_is_checked :
  fst (USB2000.new usb_five)
  = Raise (OOError "This spectrometer has less correction factors")
  /\ firstn 11 (skipn 8 (trace (snd (USB2000.new usb_five))))
     = [EvWrite USB2000._EP1_out [x09]; EvSleep 0]
       ++ repeat (EvRead USB2000._EP2_in 512) 8
       ++ [EvRead USB2000._EP2_in 1]
  /\ nth_error (trace (snd (USB2000.new usb_five))) 27
     = Some (EvWrite USB2000._EP1_out [x05; x0e]).
Proof. repeat split; vm_compute; reflexivity. Qed.

Lemma legacy_init_retries_ten_times_witness :
  fst (USB2000.new usb_nine_failures) = Ok usb_session
  /\ fst (USB2000.new usb_ten_failures)
     = Raise (OOError "Initialization USBCOM").
Proof.
  assert (H9 : USB2000.init_open (mkWorld usb_nine_failures USB2000.fresh)
               = (Ok tt, usb_nine_opened)) by (vm_compute; reflexivity).
  assert (H10 : USB2000.init_open (mkWorld usb_ten_failures USB2000.fresh)
                = (Ok tt, usb_ten_opened)) by (vm_compute; reflexivity).
  assert (Hok : USB2000.speed_attempt (after_dead_reads 9 usb_nine_opened)
                = (Ok tt, snd (USB2000.speed_attempt
                                 (after_dead_reads 9 usb_nine_opened))))
    by (vm_compute; reflexivity).
  split.
  - destruct (legacy_init_retries_ten_times usb_nine_failures usb_nine_opened
                H9) as (H & _).
    rewrite (H _ _ (dead_reads_fail 9 usb_nine_opened eq_refl eq_refl) Hok).
    vm_compute. reflexivity.
  - destruct (legacy_init_retries_ten_times usb_ten_failures usb_ten_opened
                H10) as (_ & H & _).
    rewrite (H _ (dead_reads_fail 10 usb_ten_opened eq_refl eq_refl)).
    reflexivity.
Defined.

End Runs.

(** * Further properties of the legacy protocol *)

Section LegacyQueries.
Local Open Scope py_scope.
Context {F : Type} {FO : FloatOps F}.
Local Abbreviation uworld := (world F (USB2000.obj F)).

Lemma byte_val_of_Z z : byte_val (byte_of_Z z) = z mod 256.
Proof.
  unfold byte_val, byte_of_Z.
  assert (H : 0 <= z mod 256 < 256) by (apply Z.mod_pos_bound; lia).
  destruct (Byte.of_N (Z.to_N (z mod 256))) as [b |] eqn:E.
  - apply Byte.to_of_N in E. rewrite E. lia.
  - apply Byte.of_N_None_iff in E. lia.
Qed.

Lemma mod_255_range a : 0 <= a mod 255 <= 255.
Proof. pose proof (Z.mod_pos_bound a 255). lia. Qed.

Lemma pack_two_bytes op a :
  0 <= op <= 255 -> 0 <= a <= 255 ->
  struct_pack [cB; cB] [@VInt F op; VInt a] = Some [byte_of_Z op; byte_of_Z a].
Proof.
  intros Ho Ha. unfold struct_pack, pack1.
  rewrite (in_range_true 0 255 op Ho), (in_range_true 0 255 a Ha).
  reflexivity.
Qed.

Lemma index_of_terminator (text tail : list byte) :
  nul_free text ->
  index_of 0 (text ++ x00 :: tail) = Some (length text).
Proof.
  induction 1 as [| b text Hb _ IH]; simpl.
  - reflexivity.
  - apply Z.eqb_neq in Hb. rewrite Hb, IH. reflexivity.
Qed.

Lemma index_of_nul_free (s : list byte) : nul_free s -> index_of 0 s = None.
Proof.
  induction 1 as [| b s Hb _ IH]; simpl.
  - reflexivity.
  - apply Z.eqb_neq in Hb. rewrite Hb, IH. reflexivity.
Qed.

(** One exchange of [_query_information]: what remains to be done once the
    command is written and the reply [r] is read. *)
Lemma legacy_query_information_steps address raw (w : uworld) r rest :
  wscript (dev w) = [] ->
  rscript (dev w) = Some r :: rest ->
  (length r <= 64)%nat ->
  USB2000._query_information address raw w
  = (if raw then ret r else
     r0 <- byte_item r 0 ;;
     if negb (r0 =? 0x05) then
       raise (PyException "query_information: Wrong answer")
     else
     r1 <- byte_item r 1 ;;
     if negb (r1 =? address mod 0xFF) then
       raise (PyException "query_information: Wrong answer")
     else
     i <- lift_opt ValueError (index_of 0 (skipn 2 r)) ;;
     ret (slice 2 (i + 2) r))
    (after_exchange w rest (legacy_exchange [x05; byte_of_Z (address mod 255)])).
Proof.
  intros Hw Hr Hl. unfold USB2000._query_information.
  erewrite bind_ok
    by (apply pack_run, pack_two_bytes; [lia | apply mod_255_range]).
  erewrite bind_ok by (apply dev_write_run; exact Hw).
  erewrite bind_ok.
  2:{ apply dev_read_run with (rest := rest); [exact Hr |].
      unfold USB2000._EP1_in_size. lia. }
  unfold after_exchange, legacy_exchange.
  cbn [dev self trace rscript wscript attached].
  rewrite <- app_assoc. reflexivity.
Qed.

(** A well-formed text reply, one exchange. *)
Lemma query_information_text_run
    address (w : uworld) r rest text tail :
  wscript (dev w) = [] ->
  rscript (dev w) = Some r :: rest ->
  (length r <= 64)%nat ->
  r = x05 :: byte_of_Z (address mod 255) :: text ++ x00 :: tail ->
  nul_free text ->
  USB2000._query_information address false w
  = (Ok text,
     after_exchange w rest
       (legacy_exchange [x05; byte_of_Z (address mod 255)])).
Proof.
  intros Hw Hr Hl Er Ht.
  rewrite (legacy_query_information_steps address false w r rest Hw Hr Hl).
  subst r. unfold byte_item, item, bind at 1 2.
  cbn [nth_error lift_opt ret]. change (byte_val x05) with 5.
  cbn [Z.eqb Pos.eqb negb].
  unfold bind at 1 2. cbn [nth_error lift_opt ret].
  rewrite byte_val_of_Z, (Z.mod_small (address mod 255) 256)
    by (pose proof (Z.mod_pos_bound address 255); lia).
  rewrite Z.eqb_refl. cbn [negb skipn].
  unfold bind at 1. rewrite (index_of_terminator text tail Ht).
  cbn [lift_opt ret]. unfold slice.
  replace (length text + 2 - 2)%nat with (length text) by lia.
  cbn [skipn]. rewrite firstn_app, firstn_all, Nat.sub_diag. cbn [firstn].
  now rewrite app_nil_r.
Qed.

(** X1.  [_query_information] on a transport that accepts the command: a
    reply made of the echo [0x05], the address reduced modulo 255, a text
    without NUL and a NUL returns exactly the text, whatever follows the
    NUL; one command [0x05, address mod 255] has been written and one
    reply read. *)
Theorem legacy_query_information_returns_text
    address (w : uworld) r rest text tail :
  wscript (dev w) = [] ->
  rscript (dev w) = Some r :: rest ->
  (length r <= 64)%nat ->
  r = x05 :: byte_of_Z (address mod 255) :: text ++ x00 :: tail ->
  nul_free text ->
  USB2000._query_information address false w
  = (Ok text,
     after_exchange w rest
       (legacy_exchange [x05; byte_of_Z (address mod 255)])).
Proof.
  intros Hw Hr Hl Er Ht.
  exact (query_information_text_run address w r rest text tail Hw Hr Hl Er Ht).
Qed.

(** X2.  How [_query_information] fails on a reply it has read: a first
    byte other than [0x05], or a second byte other than the address
    modulo 255, raises "query_information: Wrong answer"; a reply with the
    right echo but no NUL after it raises [ValueError]; an empty reply
    raises [IndexError].  With [raw=True] none of this is checked and the
    reply is returned as it came. *)
Theorem legacy_query_information_rejects
    address (w : uworld) r rest :
  wscript (dev w) = [] ->
  rscript (dev w) = Some r :: rest ->
  (length r <= 64)%nat ->
  let out := fst (USB2000._query_information address false w) in
  (forall b0 s, r = b0 :: s -> byte_val b0 <> 0x05 ->
     out = Raise (PyException "query_information: Wrong answer"))
  /\ (forall b1 s, r = x05 :: b1 :: s -> byte_val b1 <> address mod 255 ->
     out = Raise (PyException "query_information: Wrong answer"))
  /\ (forall s, r = x05 :: byte_of_Z (address mod 255) :: s -> nul_free s ->
     out = Raise ValueError)
  /\ (r = [] -> out = Raise IndexError)
  /\ fst (USB2000._query_information address true w) = Ok r.
Proof.
  intros Hw Hr Hl out. unfold out.
  rewrite (legacy_query_information_steps address false w r rest Hw Hr Hl).
  rewrite (legacy_query_information_steps address true w r rest Hw Hr Hl).
  split; [| split; [| split; [| split]]].
  - intros b0 s -> Hb. apply Z.eqb_neq in Hb.
    unfold byte_item, item, bind at 1 2. cbn [nth_error lift_opt ret].
    rewrite Hb. reflexivity.
  - intros b1 s -> Hb. apply Z.eqb_neq in Hb.
    unfold byte_item, item, bind at 1 2. cbn [nth_error lift_opt ret].
    change (byte_val x05) with 5. cbn [Z.eqb Pos.eqb negb].
    unfold bind at 1 2. cbn [nth_error lift_opt ret].
    rewrite Hb. reflexivity.
  - intros s -> Hs.
    unfold byte_item, item, bind at 1 2. cbn [nth_error lift_opt ret].
    change (byte_val x05) with 5. cbn [Z.eqb Pos.eqb negb].
    unfold bind at 1 2. cbn [nth_error lift_opt ret].
    rewrite byte_val_of_Z, (Z.mod_small (address mod 255) 256)
      by (pose proof (Z.mod_pos_bound address 255); lia).
    rewrite Z.eqb_refl. cbn [negb skipn].
    unfold bind at 1. rewrite (index_of_nul_free s Hs). reflexivity.
  - intros ->. reflexivity.
  - reflexivity.
Qed.

(** X3.  Addresses are reduced modulo 255, not 256: [_query_information]
    and [_read_register_information] behave for [address + 255 * k] exactly
    as for [address]; address 255 is sent as 0. *)
Theorem legacy_addresses_wrap_at_255 address k raw (w : uworld) :
  USB2000._query_information (address + 255 * k) raw w
  = USB2000._query_information address raw w
  /\ USB2000._read_register_information (address + 255 * k) w
     = USB2000._read_register_information address w
  /\ USB2000._query_information 255 raw w = USB2000._query_information 0 raw w.
Proof.
  assert (E : (address + 255 * k) mod 255 = address mod 255).
  { rewrite Z.mul_comm. apply Z_mod_plus_full. }
  unfold USB2000._query_information, USB2000._read_register_information.
  change 0xFF with 255. rewrite E. repeat split.
Qed.

End LegacyQueries.

Section LegacyStatus.
Local Open Scope py_scope.
Context {F : Type} {FO : FloatOps F}.
Local Abbreviation uworld := (world F (USB2000.obj F)).

Lemma in_range_false lo hi z : ~ lo <= z <= hi -> in_range lo hi z = false.
Proof.
  intros H. unfold in_range. apply andb_false_iff.
  destruct (Z.leb_spec lo z); [right; apply Z.leb_gt; lia | now left].
Qed.

(** Field [i] of an unpacked buffer, for the unsigned integer codes. *)
Lemma int_item_unsigned {Obj} fmt i c (r : list byte) (w : world F Obj) :
  nth_error fmt i = Some c ->
  In c [cB; cH; cI; cL] ->
  int_item (unpack_fields fmt r) i w
  = (Ok (uint_at (fsize c) (calcsize (firstn i fmt)) r), w).
Proof.
  intros Hn Hc. unfold int_item, item, bind.
  rewrite (unpack_fields_nth_error fmt i r c Hn). cbn [lift_opt ret].
  destruct Hc as [<- | [<- | [<- | [<- | []]]]]; reflexivity.
Qed.

Lemma int_item_signed16 {Obj} fmt i (r : list byte) (w : world F Obj) :
  nth_error fmt i = Some ch ->
  int_item (unpack_fields fmt r) i w
  = (Ok (int16_at (calcsize (firstn i fmt)) r), w).
Proof.
  intros Hn. unfold int_item, item, bind.
  rewrite (unpack_fields_nth_error fmt i r ch Hn). reflexivity.
Qed.

Lemma query_status_run (w : uworld) r rest :
  wscript (dev w) = [] ->
  rscript (dev w) = Some r :: rest ->
  length r = 16%nat ->
  USB2000._query_status w
  = (Ok (USB2000.mkStatus (uint_at 2 0 r) (uint_at 4 2 r) (uint_at 1 6 r)
           (uint_at 1 7 r) (uint_at 1 8 r) (uint_at 1 9 r) (uint_at 1 10 r)
           (uint_at 1 11 r) (uint_at 1 14 r)),
     after_exchange w rest (legacy_exchange [xfe])).
Proof.
  intros Hw Hr Hl. unfold USB2000._query_status.
  erewrite bind_ok by (apply pack_run; reflexivity).
  erewrite bind_ok by (apply dev_write_run; exact Hw).
  erewrite bind_ok.
  2:{ apply dev_read_run with (rest := rest); [exact Hr |].
      unfold USB2000._EP1_in_size. lia. }
  erewrite bind_ok.
  2:{ apply unpack_run. unfold struct_unpack. rewrite Hl. reflexivity. }
  do 8 (erewrite bind_ok
          by (apply int_item_unsigned; [reflexivity | simpl; tauto])).
  erewrite bind_ok
    by (apply (int_item_unsigned _ 10 cB); [reflexivity | simpl; tauto]).
  unfold after_exchange, legacy_exchange, ret.
  cbn [dev self trace rscript wscript attached fsize calcsize firstn
       fold_right Nat.add].
  rewrite <- app_assoc. reflexivity.
Qed.

Lemma query_status_wrong_length (w : uworld) r rest :
  wscript (dev w) = [] ->
  rscript (dev w) = Some r :: rest ->
  (length r <= 64)%nat -> length r <> 16%nat ->
  USB2000._query_status w
  = (Raise StructError, after_exchange w rest (legacy_exchange [xfe])).
Proof.
  intros Hw Hr Hl Hne. unfold USB2000._query_status.
  erewrite bind_ok by (apply pack_run; reflexivity).
  erewrite bind_ok by (apply dev_write_run; exact Hw).
  erewrite bind_ok.
  2:{ apply dev_read_run with (rest := rest); [exact Hr |].
      unfold USB2000._EP1_in_size. lia. }
  erewrite bind_raise.
  2:{ unfold unpack, struct_unpack. apply Nat.eqb_neq in Hne.
      change (calcsize _) with 16%nat. rewrite Hne. reflexivity. }
  unfold after_exchange, legacy_exchange.
  cbn [dev self trace rscript wscript attached].
  rewrite <- app_assoc. reflexivity.
Qed.

(** X4.  [_query_status] on a transport that accepts the command and
    delivers a reply [r]: a reply of 16 bytes is decoded into the pixel
    count (bytes 0-1), the integration time (bytes 2-5, little endian)
    and single status bytes, the USB speed being byte 14, so that bytes
    12, 13 and 15 are ignored; a reply of any other length raises
    [struct.error]. *)
Theorem legacy_query_status_decodes (w : uworld) r rest :
  wscript (dev w) = [] ->
  rscript (dev w) = Some r :: rest ->
  (length r <= 64)%nat ->
  let out := fst (USB2000._query_status w) in
  (length r = 16%nat ->
   exists st, out = Ok st
     /\ USB2000.pixels st = uint_at 2 0 r
     /\ USB2000.st_integration_time st = uint_at 4 2 r
     /\ USB2000.lamp_enable st = uint_at 1 6 r
     /\ USB2000.trigger_mode st = uint_at 1 7 r
     /\ USB2000.acquisition_status st = uint_at 1 8 r
     /\ USB2000.packets_in_spectrum st = uint_at 1 9 r
     /\ USB2000.power_down st = uint_at 1 10 r
     /\ USB2000.packets_in_endpoint st = uint_at 1 11 r
     /\ USB2000.usb_speed st = uint_at 1 14 r)
  /\ (length r <> 16%nat -> out = Raise StructError).
Proof.
  intros Hw Hr Hl out. unfold out. split.
  - intros H16. rewrite (query_status_run w r rest Hw Hr H16).
    eexists. split; [reflexivity |]. cbn. repeat split.
  - intros Hne. now rewrite (query_status_wrong_length w r rest Hw Hr Hl Hne).
Qed.

Lemma legacy_set_integration_time_run t (w : uworld) :
  u32 t -> wscript (dev w) = [] ->
  USB2000._set_integration_time t w
  = (Ok tt, after_exchange w (rscript (dev w))
              [EvWrite USB2000._EP1_out (x02 :: le_bytes 4 t)]).
Proof.
  intros Ht Hw. unfold USB2000._set_integration_time.
  erewrite bind_ok.
  2:{ apply pack_run. unfold struct_pack, pack1.
      rewrite (in_range_true 0 4294967295 t Ht). reflexivity. }
  rewrite dev_write_run by exact Hw. reflexivity.
Qed.

(** X5.  Legacy [integration_time]: with a value that fits 32 bits the
    command [0x02] followed by the value in four little-endian bytes is
    written, then the status is queried; in both cases the value stored in
    [self._it] and returned is the one the device reports in bytes 2-5 of
    its status, not the value asked for.  Without a value only the status
    is queried. *)
Theorem legacy_integration_time_reports_device_value
    t (w : uworld) r rest :
  u32 t ->
  wscript (dev w) = [] ->
  rscript (dev w) = Some r :: rest ->
  length r = 16%nat ->
  USB2000.integration_time (Some t) w
  = (Ok (uint_at 4 2 r),
     mkWorld
       (dev (after_exchange w rest
               (EvWrite USB2000._EP1_out (x02 :: le_bytes 4 t)
                :: legacy_exchange [xfe])))
       (USB2000.set__it (uint_at 4 2 r) (self w)))
  /\ USB2000.integration_time None w
     = (Ok (uint_at 4 2 r),
        mkWorld (dev (after_exchange w rest (legacy_exchange [xfe])))
                (USB2000.set__it (uint_at 4 2 r) (self w))).
Proof.
  intros Ht Hw Hr Hl. unfold USB2000.integration_time. split.
  - erewrite bind_ok by (apply legacy_set_integration_time_run; assumption).
    erewrite bind_ok by (apply query_status_run with (rest := rest);
                         [reflexivity | exact Hr | exact Hl]).
    unfold after_exchange, legacy_exchange, bind, modify_self, getattr.
    cbn [dev self trace rscript wscript attached USB2000.st_integration_time
         USB2000.set__it USB2000._it].
    rewrite <- app_assoc. reflexivity.
  - erewrite bind_ok by reflexivity.
    erewrite bind_ok by (apply query_status_run with (rest := rest);
                         [exact Hw | exact Hr | exact Hl]).
    reflexivity.
Qed.

End LegacyStatus.

Section LegacyRegisters.
Local Open Scope py_scope.
Context {F : Type} {FO : FloatOps F} {FL : FloatLiterals F}.
Local Abbreviation uworld := (world F (USB2000.obj F)).
Local Abbreviation sworld := (world F (STS.obj F)).

(** X6.  A value that does not fit its field of the wire format is
    refused with [struct.error] before anything is written: the legacy
    and the framed integration time are 32-bit unsigned, the number of
    scan averages is 16-bit unsigned.  Trace, script and attributes are
    left as they were. *)
Theorem out_of_range_values_are_refused_unsent
    t n (wu : uworld) (ws : sworld) :
  ~ u32 t -> ~ 0 <= n <= 65535 ->
  USB2000.integration_time (Some t) wu = (Raise StructError, wu)
  /\ STS._set_integration_time t ws = (Raise StructError, ws)
  /\ STS.integration_time (Some t) ws = (Raise StructError, ws)
  /\ STS._set_scan_averages n ws = (Raise StructError, ws)
  /\ STS.set_scan_averages (Some n) ws = (Raise StructError, ws).
Proof.
  intros Ht Hn.
  assert (Eu : USB2000._set_integration_time t wu = (Raise StructError, wu)).
  { unfold USB2000._set_integration_time.
    erewrite bind_raise; [reflexivity |].
    unfold pack, struct_pack, pack1.
    rewrite (in_range_false 0 4294967295 t Ht). reflexivity. }
  assert (Es : STS._set_integration_time t ws = (Raise StructError, ws)).
  { unfold STS._set_integration_time.
    erewrite bind_raise; [reflexivity |].
    unfold pack, struct_pack, pack1.
    rewrite (in_range_false 0 4294967295 t Ht). reflexivity. }
  assert (Ea : STS._set_scan_averages n ws = (Raise StructError, ws)).
  { unfold STS._set_scan_averages.
    erewrite bind_raise; [reflexivity |].
    unfold pack, struct_pack, pack1.
    rewrite (in_range_false 0 65535 n Hn). reflexivity. }
  split; [| split; [| split; [| split]]].
  - unfold USB2000.integration_time. now erewrite bind_raise by exact Eu.
  - exact Es.
  - unfold STS.integration_time.
    erewrite bind_raise; [reflexivity |]. now erewrite bind_raise by exact Es.
  - exact Ea.
  - unfold STS.set_scan_averages. now erewrite bind_raise by exact Ea.
Qed.

Lemma unpack_h_tail {Obj} (s : list byte) (w : world F Obj) :
  unpack [ch] s w
  = (if Nat.eqb (length s) 2 then Ok [@VInt F (int16_at 0 s)]
     else Raise StructError, w).
Proof.
  unfold unpack, struct_unpack. change (calcsize [ch]) with 2%nat.
  destruct (Nat.eqb (length s) 2); reflexivity.
Qed.

Lemma read_register_information_steps address (w : uworld) r rest :
  wscript (dev w) = [] ->
  rscript (dev w) = Some r :: rest ->
  (length r <= 64)%nat ->
  USB2000._read_register_information address w
  = (r0 <- byte_item r 0 ;;
     if negb (r0 =? address mod 0xFF) then
       raise (PyException "read_register_information: Wrong answer")
     else
     vals <- unpack [ch] (skipn 1 r) ;;
     int_item vals 0)
    (after_exchange w rest (legacy_exchange [x6b; byte_of_Z (address mod 255)])).
Proof.
  intros Hw Hr Hl. unfold USB2000._read_register_information.
  erewrite bind_ok
    by (apply pack_run, pack_two_bytes; [lia | apply mod_255_range]).
  erewrite bind_ok by (apply dev_write_run; exact Hw).
  erewrite bind_ok.
  2:{ apply dev_read_run with (rest := rest); [exact Hr |].
      unfold USB2000._EP1_in_size. lia. }
  unfold after_exchange, legacy_exchange.
  cbn [dev self trace rscript wscript attached].
  rewrite <- app_assoc. reflexivity.
Qed.

(** X7.  [_read_register_information] on a transport that accepts the
    command [0x6B, address mod 255]: a reply of exactly three bytes that
    starts with the address returns the signed 16-bit little-endian value
    of the other two; a reply that starts with another byte raises
    "read_register_information: Wrong answer"; a reply that starts with
    the address but is not three bytes long raises [struct.error]. *)
Theorem legacy_read_register_information_decodes
    address (w : uworld) r rest :
  wscript (dev w) = [] ->
  rscript (dev w) = Some r :: rest ->
  (length r <= 64)%nat ->
  let out := USB2000._read_register_information address w in
  snd out
  = after_exchange w rest (legacy_exchange [x6b; byte_of_Z (address mod 255)])
  /\ (forall lo hi, r = [byte_of_Z (address mod 255); lo; hi] ->
      fst out = Ok (signed16 (byte_val lo + 256 * byte_val hi)))
  /\ (forall b0 s, r = b0 :: s -> byte_val b0 <> address mod 255 ->
      fst out
      = Raise (PyException "read_register_information: Wrong answer"))
  /\ (forall s, r = byte_of_Z (address mod 255) :: s -> length s <> 2%nat ->
      fst out = Raise StructError).
Proof.
  intros Hw Hr Hl out. unfold out.
  rewrite (read_register_information_steps address w r rest Hw Hr Hl).
  set (w1 := after_exchange _ _ _).
  assert (Hecho : (byte_val (byte_of_Z (address mod 255)) =? address mod 255)
                  = true).
  { rewrite byte_val_of_Z, (Z.mod_small (address mod 255) 256)
      by (pose proof (Z.mod_pos_bound address 255); lia).
    apply Z.eqb_refl. }
  split; [| split; [| split]].
  - destruct r as [| b0 s]; [reflexivity |].
    unfold byte_item, item, bind at 1 2. cbn [nth_error lift_opt ret].
    change 0xFF with 255.
    destruct (negb (byte_val b0 =? address mod 255)); [reflexivity |].
    cbn [skipn]. unfold bind at 1. rewrite unpack_h_tail.
    destruct (Nat.eqb (length s) 2); reflexivity.
  - intros lo hi ->.
    unfold byte_item, item, bind at 1 2. cbn [nth_error lift_opt ret].
    change 0xFF with 255. rewrite Hecho. cbn [negb skipn].
    unfold bind at 1. rewrite unpack_h_tail. cbn [length Nat.eqb].
    unfold int_item, item, bind. cbn [nth_error lift_opt ret as_int fst].
    unfold int16_at, le_uint. cbn [skipn firstn fold_right].
    replace (byte_val hi + 256 * 0) with (byte_val hi) by lia. reflexivity.
  - intros b0 s -> Hb. apply Z.eqb_neq in Hb.
    unfold byte_item, item, bind at 1 2. cbn [nth_error lift_opt ret].
    change 0xFF with 255. rewrite Hb. reflexivity.
  - intros s -> Hs. apply Nat.eqb_neq in Hs.
    unfold byte_item, item, bind at 1 2. cbn [nth_error lift_opt ret].
    change 0xFF with 255. rewrite Hecho. cbn [negb skipn].
    unfold bind at 1. rewrite unpack_h_tail, Hs. reflexivity.
Qed.

Lemma read_pcb_temperature_steps (w : uworld) r rest :
  wscript (dev w) = [] ->
  rscript (dev w) = Some r :: rest ->
  (length r <= 64)%nat ->
  USB2000._read_pcb_temperature w
  = (r0 <- byte_item r 0 ;;
     if negb (r0 =? 0x08) then
       raise (PyException "read_pcb_temperature: Wrong answer")
     else
     vals <- unpack [ch] (skipn 1 r) ;;
     v <- USB2000.single vals ;;
     adc <- as_int v ;;
     ret (fmul lit_0_003906 (of_int adc)))
    (after_exchange w rest (legacy_exchange [x6c])).
Proof.
  intros Hw Hr Hl. unfold USB2000._read_pcb_temperature.
  erewrite bind_ok by (apply pack_run; reflexivity).
  erewrite bind_ok by (apply dev_write_run; exact Hw).
  erewrite bind_ok.
  2:{ apply dev_read_run with (rest := rest); [exact Hr |].
      unfold USB2000._EP1_in_size. lia. }
  unfold after_exchange, legacy_exchange.
  cbn [dev self trace rscript wscript attached].
  rewrite <- app_assoc. reflexivity.
Qed.

(** X8.  Legacy [device_temperature] on a transport that accepts the
    command [0x6C]: a reply of exactly three bytes that starts with [0x08]
    gives [0.003906] times the signed 16-bit little-endian value of the
    other two; a reply that starts with another byte raises
    "read_pcb_temperature: Wrong answer"; a reply that starts with [0x08]
    but is not three bytes long raises [struct.error].  No attribute
    changes. *)
Theorem legacy_device_temperature_decodes (w : uworld) r rest :
  wscript (dev w) = [] ->
  rscript (dev w) = Some r :: rest ->
  (length r <= 64)%nat ->
  let out := USB2000.device_temperature w in
  snd out = after_exchange w rest (legacy_exchange [x6c])
  /\ (forall lo hi, r = [x08; lo; hi] ->
      fst out
      = Ok (fmul lit_0_003906
              (of_int (signed16 (byte_val lo + 256 * byte_val hi)))))
  /\ (forall b0 s, r = b0 :: s -> byte_val b0 <> 0x08 ->
      fst out = Raise (PyException "read_pcb_temperature: Wrong answer"))
  /\ (forall s, r = x08 :: s -> length s <> 2%nat ->
      fst out = Raise StructError).
Proof.
  intros Hw Hr Hl out. unfold out, USB2000.device_temperature.
  rewrite (read_pcb_temperature_steps w r rest Hw Hr Hl).
  set (w1 := after_exchange _ _ _).
  split; [| split; [| split]].
  - destruct r as [| b0 s]; [reflexivity |].
    unfold byte_item, item, bind at 1 2. cbn [nth_error lift_opt ret].
    destruct (negb (byte_val b0 =? 8)); [reflexivity |].
    cbn [skipn]. unfold bind at 1. rewrite unpack_h_tail.
    destruct (Nat.eqb (length s) 2); reflexivity.
  - intros lo hi ->.
    unfold byte_item, item, bind at 1 2. cbn [nth_error lift_opt ret].
    change (byte_val x08) with 8. cbn [Z.eqb Pos.eqb negb skipn].
    unfold bind at 1. rewrite unpack_h_tail. cbn [length Nat.eqb].
    unfold USB2000.single, bind, ret. cbn [as_int fst].
    unfold int16_at, le_uint. cbn [skipn firstn fold_right].
    replace (byte_val hi + 256 * 0) with (byte_val hi) by lia. reflexivity.
  - intros b0 s -> Hb. apply Z.eqb_neq in Hb.
    unfold byte_item, item, bind at 1 2. cbn [nth_error lift_opt ret].
    rewrite Hb. reflexivity.
  - intros s -> Hs. apply Nat.eqb_neq in Hs.
    unfold byte_item, item, bind at 1 2. cbn [nth_error lift_opt ret].
    change (byte_val x08) with 8. cbn [Z.eqb Pos.eqb negb skipn].
    unfold bind at 1. rewrite unpack_h_tail, Hs. reflexivity.
Qed.

Lemma length_slice_6_8 (r : list byte) :
  length (slice 6 8 r) = Nat.min 2 (length r - 6).
Proof. unfold slice. now rewrite length_firstn, length_skipn. Qed.

(** X9.  [_get_saturation_calibration] queries address [0x11] raw and
    checks nothing of the reply but its length: with at least eight bytes
    the saturation factor is [65535.0] divided by the signed 16-bit value
    of bytes 6-7 (a level above 32767 is read as negative), a level of
    zero raises [ZeroDivisionError], and a reply shorter than eight bytes
    raises [struct.error]. *)
Theorem legacy_saturation_from_bytes_6_7 (w : uworld) r rest :
  wscript (dev w) = [] ->
  rscript (dev w) = Some r :: rest ->
  (length r <= 64)%nat ->
  let out := USB2000._get_saturation_calibration w in
  snd out = after_exchange w rest (legacy_exchange [x05; x11])
  /\ ((8 <= length r)%nat -> int16_at 6 r <> 0 ->
      fst out = Ok (fdiv (of_int 65535) (of_int (int16_at 6 r))))
  /\ ((8 <= length r)%nat -> int16_at 6 r = 0 ->
      fst out = Raise ZeroDivisionError)
  /\ ((length r < 8)%nat -> fst out = Raise StructError).
Proof.
  intros Hw Hr Hl out.
  assert (Hv : int16_at 0 (slice 6 8 r) = int16_at 6 r).
  { unfold int16_at, slice. cbn [skipn Nat.sub].
    now rewrite firstn_firstn. }
  assert (E : out
              = (if Nat.leb 8 (length r) then
                   if int16_at 6 r =? 0 then Raise ZeroDivisionError
                   else Ok (fdiv (of_int 65535) (of_int (int16_at 6 r)))
                 else Raise StructError,
                 after_exchange w rest (legacy_exchange [x05; x11]))).
  { unfold out, USB2000._get_saturation_calibration.
    erewrite bind_ok.
    2:{ rewrite (legacy_query_information_steps 17 true w r rest Hw Hr Hl).
        reflexivity. }
    change (byte_of_Z (17 mod 255)) with x11.
    set (w1 := after_exchange _ _ _).
    unfold bind at 1. rewrite unpack_h_tail, length_slice_6_8.
    destruct (Nat.leb 8 (length r)) eqn:E8.
    - apply Nat.leb_le in E8.
      replace (Nat.min 2 (length r - 6)) with 2%nat by lia.
      cbn [Nat.eqb]. unfold int_item, item, bind.
      cbn [nth_error lift_opt ret as_int]. rewrite Hv.
      destruct (int16_at 6 r =? 0); reflexivity.
    - apply Nat.leb_gt in E8.
      replace (Nat.eqb (Nat.min 2 (length r - 6)) 2) with false
        by (symmetry; apply Nat.eqb_neq; lia).
      reflexivity. }
  rewrite E. cbn [fst snd].
  split; [reflexivity |].
  split; [| split].
  - intros H8 Hne. apply Nat.leb_le in H8. apply Z.eqb_neq in Hne.
    now rewrite H8, Hne.
  - intros H8 H0. apply Nat.leb_le in H8. apply Z.eqb_eq in H0.
    now rewrite H8, H0.
  - intros Hlt. apply Nat.leb_gt in Hlt. now rewrite Hlt.
Qed.

End LegacyRegisters.

Section LegacyCalibration.
Local Open Scope py_scope.
Context {F : Type} {FO : FloatOps F}.
Local Abbreviation uworld := (world F (USB2000.obj F)).

Lemma after_exchange_twice {Obj} (w : world F Obj) rest1 evs1 rest2 evs2 :
  after_exchange (after_exchange w rest1 evs1) rest2 evs2
  = after_exchange w rest2 (evs1 ++ evs2).
Proof.
  unfold after_exchange. cbn [dev self trace rscript wscript attached].
  now rewrite app_assoc.
Qed.

Lemma query_float_run address (w : uworld) rest text tail c :
  wscript (dev w) = [] ->
  rscript (dev w) = Some (text_reply address text tail) :: rest ->
  (length (text_reply address text tail) <= 64)%nat ->
  nul_free text ->
  float_of_bytes text = Some c ->
  (s <- USB2000._query_information address false ;; py_float (VStr s)) w
  = (Ok c, after_exchange w rest
             (legacy_exchange [x05; byte_of_Z (address mod 255)])).
Proof.
  intros Hw Hr Hl Ht Hc.
  erewrite bind_ok
    by (eapply query_information_text_run; [exact Hw | exact Hr | exact Hl
                                           | reflexivity | exact Ht]).
  unfold py_float. now rewrite Hc.
Qed.

(** X10.  Legacy [_get_wavelength_calibration] queries the addresses 1, 2,
    3 and 4 in this order, one exchange each, and converts the four texts
    with [float]: when the device answers each query with a well-formed
    text reply, the result is the list of the four numbers in address
    order. *)
Theorem legacy_wavelength_calibration_reads_addresses_1_to_4
    (w : uworld) rest t1 t2 t3 t4 u1 u2 u3 u4 c1 c2 c3 c4 :
  wscript (dev w) = [] ->
  rscript (dev w)
  = map Some [text_reply 1 t1 u1; text_reply 2 t2 u2;
              text_reply 3 t3 u3; text_reply 4 t4 u4] ++ rest ->
  Forall (fun r => (length r <= 64)%nat)
    [text_reply 1 t1 u1; text_reply 2 t2 u2;
     text_reply 3 t3 u3; text_reply 4 t4 u4] ->
  Forall nul_free [t1; t2; t3; t4] ->
  map float_of_bytes [t1; t2; t3; t4] = map Some [c1; c2; c3; c4] ->
  USB2000._get_wavelength_calibration w
  = (Ok [c1; c2; c3; c4],
     after_exchange w rest
       (flat_map (fun a => legacy_exchange [x05; byte_of_Z a]) [1; 2; 3; 4])).
Proof.
  intros Hw Hr Hl Ht Hc.
  apply Forall_cons_iff in Hl. destruct Hl as [L1 Hl].
  apply Forall_cons_iff in Hl. destruct Hl as [L2 Hl].
  apply Forall_cons_iff in Hl. destruct Hl as [L3 Hl].
  apply Forall_cons_iff in Hl. destruct Hl as [L4 _].
  apply Forall_cons_iff in Ht. destruct Ht as [T1 Ht].
  apply Forall_cons_iff in Ht. destruct Ht as [T2 Ht].
  apply Forall_cons_iff in Ht. destruct Ht as [T3 Ht].
  apply Forall_cons_iff in Ht. destruct Ht as [T4 _].
  cbn [map] in Hc. injection Hc as C1 C2 C3 C4.
  unfold USB2000._get_wavelength_calibration.
  cbn [seq map Z.of_nat Pos.of_succ_nat Pos.succ for_each].
  erewrite bind_ok
    by (eapply query_float_run; [exact Hw | exact Hr | exact L1 | exact T1
                                | exact C1]).
  erewrite bind_ok.
  2:{ erewrite bind_ok
        by (eapply query_float_run; [reflexivity | reflexivity | exact L2
                                    | exact T2 | exact C2]).
      erewrite bind_ok.
      2:{ erewrite bind_ok
            by (eapply query_float_run; [reflexivity | reflexivity | exact L3
                                        | exact T3 | exact C3]).
          erewrite bind_ok.
          2:{ erewrite bind_ok
                by (eapply query_float_run; [reflexivity | reflexivity
                                            | exact L4 | exact T4 | exact C4]).
              reflexivity. }
          reflexivity. }
      reflexivity. }
  rewrite !after_exchange_twice. reflexivity.
Qed.

Lemma arr_scale_r_length (a : list F) c : length (arr_scale_r a c) = length a.
Proof. unfold arr_scale_r. apply length_map. Qed.

Lemma acquire_spectrum_keeps : keeps_self (@USB2000.acquire_spectrum F FO).
Proof.
  unfold USB2000.acquire_spectrum.
  apply keeps_bind; [apply request_spectrum_keeps | intros sp].
  apply keeps_bind; [apply keeps_for_each; intros; apply keeps_py_float |].
  intros fl. unfold vstack. keeps.
Qed.

(** X11.  A session returned by the legacy constructor has all that
    [acquire_spectrum] needs: whenever the spectrum request succeeds on
    such a session, [acquire_spectrum] succeeds too, its two rows have
    2028 entries each, and the session's attributes are as before, so it
    can be called again. *)
Theorem legacy_constructed_session_acquires
    (d d' : device F) o (w w' : uworld) spectrum :
  USB2000.new d = (Ok o, d') ->
  self w = o ->
  USB2000._request_spectrum w = (Ok spectrum, w') ->
  exists wavelength intensity,
    USB2000.acquire_spectrum w = (Ok (wavelength, intensity), w')
    /\ length wavelength = 2028%nat /\ length intensity = 2028%nat
    /\ self w' = o.
Proof.
  intros Hnew Ho Hreq.
  destruct (legacy_constructed_session d d' o Hnew)
    as (wl & nl & st & Hwl & Lwl & Hnl & Lnl & Hst).
  destruct (request_spectrum_result _ _ _ Hreq) as (Hself & buf & Hbuf & ->).
  set (raw := map (sample16 buf) (seq 0 2048)) in *.
  assert (Hraw : length raw = 2048%nat)
    by (unfold raw; now rewrite length_map, length_seq).
  exists (wavelength_row wl 20 2048),
    (arr_scale_r (linearized nl 8 (skipn 20 (map of_int raw))) st).
  split; [| split; [| split]].
  - apply acquire_spectrum_run; subst o; auto; lia.
  - apply wavelength_row_length.
  - rewrite arr_scale_r_length, linearized_length, length_skipn, length_map,
      Hraw. reflexivity.
  - now rewrite Hself.
Qed.

(** X12.  When [usb.core.find] finds no device, both constructors raise
    "No OceanOptics ... spectrometer found!" at once: nothing is printed,
    written or read, and no object is returned. *)
Theorem absent_device_fails_before_any_traffic (d : device F) :
  attached d = false ->
  USB2000.new d
  = (Raise (OOError "No OceanOptics USB2000+ spectrometer found!"), d)
  /\ STS.new d
     = (Raise (OOError "No OceanOptics STS spectrometer found!"), d).
Proof.
  intros H. unfold USB2000.new, STS.new, USB2000.__init__, STS.__init__.
  split.
  - erewrite bind_raise
      by (unfold USB2000.init_open; cbn [dev]; now rewrite H).
    reflexivity.
  - erewrite bind_raise
      by (unfold STS.init_open; cbn [dev]; now rewrite H).
    reflexivity.
Qed.

Lemma for_try_unhandled {Obj} (body : M F Obj unit) handled orelse n w e w' :
  body w = (Raise e, w') -> handled e = false ->
  for_try (S n) body handled orelse w = (Raise e, w').
Proof. intros E H. simpl. now rewrite E, H. Qed.

Lemma legacy_init_open_run (d : device F) :
  attached d = true -> wscript d = [] ->
  USB2000.init_open (mkWorld d USB2000.fresh)
  = (Ok tt,
     after_exchange (mkWorld d USB2000.fresh) (rscript d)
       [EvPrint ("*NOTE*: Currently the first device matching the "
                 ++ "Vendor/Product id is used") [];
        EvSetConfiguration;
        EvWrite USB2000._EP1_out [x01]]).
Proof.
  intros Ha Hw. unfold USB2000.init_open. cbn [dev]. rewrite Ha. cbn [negb].
  unfold USB2000._initialize.
  erewrite bind_ok by reflexivity.
  erewrite bind_ok by reflexivity.
  erewrite bind_ok by (apply pack_run; reflexivity).
  rewrite dev_write_run by exact Hw.
  unfold after_exchange, log. cbn [dev self trace rscript wscript attached].
  rewrite <- !app_assoc. reflexivity.
Qed.

(** X13.  The speed-detection loop of the legacy constructor retries
    [USBError] only: when the first status reply arrives but is not 16
    bytes long, construction ends at once with [struct.error], after a
    single status query and with no object returned. *)
Theorem legacy_malformed_status_is_not_retried (d : device F) r rest :
  attached d = true -> wscript d = [] ->
  rscript d = Some r :: rest ->
  (length r <= 64)%nat -> length r <> 16%nat ->
  USB2000.new d
  = (Raise StructError,
     mkDevice true rest []
       (trace d
        ++ [EvPrint ("*NOTE*: Currently the first device matching the "
                     ++ "Vendor/Product id is used") [];
            EvSetConfiguration;
            EvWrite USB2000._EP1_out [x01];
            EvWrite USB2000._EP1_out [xfe];
            EvRead USB2000._EP1_in USB2000._EP1_in_size])).
Proof.
  intros Ha Hw Hr Hl Hne. unfold USB2000.new.
  rewrite (legacy_init_after_open d _ (legacy_init_open_run d Ha Hw)).
  erewrite bind_raise.
  2:{ unfold USB2000.detect_speed. apply for_try_unhandled with (e := StructError); [| reflexivity].
      unfold USB2000.speed_attempt.
      erewrite bind_raise; [reflexivity |].
      apply query_status_wrong_length with (r := r) (rest := rest);
        [reflexivity | exact Hr | exact Hl | exact Hne]. }
  unfold USB2000.constructed, after_exchange, legacy_exchange.
  cbn [dev self trace rscript wscript attached]. rewrite Ha.
  rewrite <- !app_assoc. reflexivity.
Qed.

End LegacyCalibration.

(** * Further properties of the framed protocol *)

Section FramedQueries.
Local Open Scope py_scope.
Context {F : Type} {FO : FloatOps F}.
Local Abbreviation sworld := (world F (STS.obj F)).

(** A request without immediate data, its response, and the payload read
    from field 9 of the format [fmt]. *)
Lemma plain_query_run msg fmt c (w : sworld) r rest :
  u32 msg ->
  wscript (dev w) = [] ->
  rscript (dev w) = Some r :: rest ->
  (length r <= 64)%nat ->
  calcsize fmt = 64%nat ->
  nth_error fmt 3 = Some cH -> calcsize (firstn 3 fmt) = 6%nat ->
  nth_error fmt 9 = Some c -> calcsize (firstn 9 fmt) = 24%nat ->
  (cmd <- STS.plain_request msg ;;
   dev_write STS._EP1_out cmd ;;;
   r <- dev_read STS._EP1_in STS._EP1_in_size ;;
   STS.check_ack fmt r (fun ack => item ack 9)) w
  = (Ok (ack_value r (unpack1 c (firstn (fsize c) (skipn 24 r)))),
     after_exchange w rest (framed_exchange msg ++ ack_prints r)).
Proof.
  intros Hc Hw Hr Hl Hsz H3 Ho3 H9 Ho9.
  erewrite bind_ok by (apply plain_request_run; exact Hc).
  erewrite bind_ok by (apply dev_write_run; exact Hw).
  erewrite bind_ok.
  2:{ apply dev_read_run with (rest := rest); [exact Hr |].
      unfold STS._EP1_in_size. lia. }
  rewrite (check_ack_item9 fmt c) by assumption.
  unfold after_exchange, framed_exchange.
  cbn [dev self trace rscript wscript attached].
  rewrite <- !app_assoc. reflexivity.
Qed.

Lemma item9_unpacked fmt c (r : list byte) (w : sworld) :
  nth_error fmt 9 = Some c -> calcsize (firstn 9 fmt) = 24%nat ->
  item (unpack_fields fmt r) 9 w
  = (Ok (unpack1 c (firstn (fsize c) (skipn 24 r))), w).
Proof.
  intros H9 Ho9. unfold item.
  rewrite (unpack_fields_nth_error fmt 9 r c H9), Ho9. reflexivity.
Qed.

Lemma u32_const z : (0 <=? z) && (z <=? 4294967295) = true -> u32 z.
Proof.
  intros H. apply andb_true_iff in H. destruct H as [A B].
  apply Z.leb_le in A, B. split; assumption.
Qed.

(** X14.  The version queries and the scan-averages query of the framed
    protocol are one exchange each: a 64-byte response with status 0 gives
    the byte at offset 24 ([_get_hw_version], [_get_sw_version]) or the
    16-bit little-endian value at offsets 24-25 ([_get_scan_averages]);
    any other response is reported by a print and gives [-1]. *)
Theorem sts_version_and_averages_queries (w : sworld) r rest :
  wscript (dev w) = [] ->
  rscript (dev w) = Some r :: rest ->
  (length r <= 64)%nat ->
  STS._get_hw_version w
  = (Ok (ack_value r (VInt (uint_at 1 24 r))),
     after_exchange w rest
       (framed_exchange STS._MSG_GET_HW_VERSION ++ ack_prints r))
  /\ STS._get_sw_version w
     = (Ok (ack_value r (VInt (uint_at 1 24 r))),
        after_exchange w rest
          (framed_exchange STS._MSG_GET_SW_VERSION ++ ack_prints r))
  /\ STS._get_scan_averages w
     = (Ok (ack_value r (VInt (uint_at 2 24 r))),
        after_exchange w rest
          (framed_exchange STS._MSG_GET_AVG_SCANS ++ ack_prints r)).
Proof.
  intros Hw Hr Hl.
  unfold STS._get_hw_version, STS._get_sw_version, STS._get_scan_averages.
  split; [| split].
  - apply (plain_query_run _ _ cB); try assumption; try reflexivity.
    now apply u32_const.
  - apply (plain_query_run _ _ cB); try assumption; try reflexivity.
    now apply u32_const.
  - apply (plain_query_run _ _ cH); try assumption; try reflexivity.
    now apply u32_const.
Qed.

Lemma initialize_drains (chunks : list (list byte)) :
  Forall (fun c => Z.of_nat (length c) <= STS._EP1_in_size) chunks ->
  forall (d : device F) rest,
    rscript d = map Some chunks ++ rest ->
    read_raises STS._EP1_in_size rest = true ->
    STS.drain (rscript d) d
    = mkDevice (attached d) (tl rest) (wscript d)
        (trace d ++ repeat (EvRead STS._EP1_in STS._EP1_in_size)
                           (S (length chunks))).
Proof.
  induction 1 as [| c chunks Hc _ IH]; intros d rest Hs Hr.
  - cbn [map app] in Hs. rewrite Hs.
    destruct d as [at_ rs ws tr]. cbn [rscript] in Hs. subst rs.
    unfold read_raises in Hr.
    destruct rest as [| [bs |] rest']; cbn [STS.drain log attached rscript
      wscript trace tl length repeat]; try reflexivity.
    apply negb_true_iff in Hr. rewrite Hr. reflexivity.
  - cbn [map app] in Hs. rewrite Hs.
    destruct d as [at_ rs ws tr]. cbn [rscript] in Hs. subst rs.
    cbn [STS.drain log attached rscript wscript trace].
    apply Z.leb_le in Hc. rewrite Hc.
    specialize (IH (mkDevice at_ (map Some chunks ++ rest) ws
                      (tr ++ [EvRead STS._EP1_in STS._EP1_in_size]))
                   rest eq_refl Hr).
    cbn [attached rscript wscript trace] in IH. rewrite IH.
    cbn [length]. rewrite <- app_assoc. reflexivity.
Qed.

(** X15.  [_initialize] of the framed protocol empties the buffer: it
    prints "Initilizing", reads 64 bytes at a time until a read fails, and
    swallows that failure.  When the device has [n] responses pending and
    the read after them fails (time-out, error or overflow), [n + 1] reads
    are made, the pending responses are discarded, nothing is written and
    no exception is raised. *)
Theorem sts_initialize_drains_buffer (w : sworld) chunks rest :
  Forall (fun c => Z.of_nat (length c) <= STS._EP1_in_size) chunks ->
  rscript (dev w) = map Some chunks ++ rest ->
  read_raises STS._EP1_in_size rest = true ->
  STS._initialize w
  = (Ok tt,
     mkWorld
       (mkDevice (attached (dev w)) (tl rest) (wscript (dev w))
          (trace (dev w)
           ++ EvPrint "Initilizing" []
              :: repeat (EvRead STS._EP1_in STS._EP1_in_size)
                        (S (length chunks))))
       (self w)).
Proof.
  intros Hc Hs Hr. unfold STS._initialize.
  erewrite bind_ok by reflexivity.
  cbn [dev self].
  rewrite (initialize_drains chunks Hc _ rest) by (exact Hs || exact Hr).
  unfold log. cbn [attached rscript wscript trace].
  rewrite <- app_assoc. reflexivity.
Qed.

(** X16.  [_get_serial] of the framed protocol makes two exchanges, the
    serial length and the serial number.  The reported length is printed
    and otherwise unused: the serial number is the 16 payload bytes at
    offsets 24-39 of the second response with every NUL byte removed, or
    [-1] when that response is not a 64-byte response with status 0. *)
Theorem sts_serial_ignores_reported_length (w : sworld) r1 r2 rest :
  wscript (dev w) = [] ->
  rscript (dev w) = Some r1 :: Some r2 :: rest ->
  (length r1 <= 64)%nat -> (length r2 <= 64)%nat ->
  STS._get_serial w
  = (Ok (ack_value r2 (VStr (STS.remove_nul (firstn 16 (skipn 24 r2))))),
     after_exchange w rest
       (framed_exchange STS._MSG_GET_SERIAL_LENGHT ++ ack_prints r1
        ++ [EvPrint "Serial length: %i"
              [ack_value r1 (VInt (frame_byte24 r1))]]
        ++ framed_exchange STS._MSG_GET_SERIAL ++ ack_prints r2)).
Proof.
  intros Hw Hr L1 L2. unfold STS._get_serial.
  erewrite bind_ok
    by (apply query_coefficient_count_run with (rest := Some r2 :: rest);
        [now apply u32_const | exact Hw | exact Hr | exact L1]).
  assert (Hint : exists n, ack_value r1 (@VInt F (frame_byte24 r1)) = VInt n).
  { unfold ack_value. destruct (_ && _); eexists; reflexivity. }
  destruct Hint as [n Hn]. rewrite Hn.
  erewrite bind_ok by reflexivity.
  erewrite bind_ok by reflexivity.
  erewrite bind_ok by (apply plain_request_run; now apply u32_const).
  erewrite bind_ok by (apply dev_write_run; reflexivity).
  erewrite bind_ok.
  2:{ apply dev_read_run with (rest := rest); [reflexivity |].
      unfold STS._EP1_in_size. lia. }
  rewrite check_ack_run by reflexivity.
  unfold ack_value, ack_prints, printed, after_exchange, framed_exchange, log.
  cbn [dev self trace rscript wscript attached].
  destruct (Nat.eqb (length r2) 64).
  - destruct (frame_status r2 =? 0).
    + erewrite bind_ok by (apply (item9_unpacked _ (cs 16)); reflexivity).
      cbn [unpack1 fsize andb ret]. rewrite <- !app_assoc. reflexivity.
    + cbn [andb]. rewrite <- !app_assoc. reflexivity.
  - cbn [andb]. rewrite <- !app_assoc. reflexivity.
Qed.

End FramedQueries.

Section FramedSetters.
Local Open Scope py_scope.
Context {F : Type} {FO : FloatOps F}.
Local Abbreviation sworld := (world F (STS.obj F)).

Lemma pack_scan_averages n :
  0 <= n <= 65535 ->
  struct_pack
    [cH; cH; cH; cH; cL; cL; cL; cH; cB; cB; cH; cs 14; cL; cs 16; cL]
    [@VInt F STS._START_BYTES; VInt STS._PROTOCOL_VERSION; VInt 0; VInt 0;
     VInt STS._MSG_SET_AVG_SCANS; VInt 0; VInt 0; VInt 0;
     VInt 0x00; VInt 0x02; VInt n; VStr []; VInt 0x14;
     VStr []; VInt STS._END_BYTES]
  = Some (request_frame STS._MSG_SET_AVG_SCANS 2
            (le_bytes 2 n ++ repeat x00 14)).
Proof.
  intros Hn. unfold struct_pack, pack1.
  rewrite (in_range_true 0 65535 n Hn). reflexivity.
Qed.

Lemma set_scan_averages_answered n (w : sworld) r rest :
  0 <= n <= 65535 ->
  wscript (dev w) = [] ->
  rscript (dev w) = Some r :: rest ->
  (length r <= 64)%nat ->
  STS._set_scan_averages n w
  = (Ok (Some (VInt (-1))),
     after_exchange w rest
       ([EvWrite STS._EP1_out
           (request_frame STS._MSG_SET_AVG_SCANS 2
                          (le_bytes 2 n ++ repeat x00 14));
         EvRead STS._EP1_in STS._EP1_in_size]
        ++ (if frame_ok r
            then [EvPrint "%s" [VInt (uint_at 2 24 r)];
                  EvPrint "Error setting integration time" []]
            else ack_prints r))).
Proof.
  intros Hn Hw Hr Hl. unfold STS._set_scan_averages.
  erewrite bind_ok by (apply pack_run, pack_scan_averages; exact Hn).
  erewrite bind_ok by (apply dev_write_run; exact Hw).
  unfold try_except.
  erewrite bind_ok.
  2:{ apply dev_read_run with (rest := rest); [exact Hr |].
      unfold STS._EP1_in_size. lia. }
  unfold bind at 1. rewrite check_ack_run by reflexivity.
  unfold frame_ok, ack_prints, printed, after_exchange.
  destruct (Nat.eqb (length r) 64).
  - destruct (frame_status r =? 0).
    + erewrite bind_ok by (apply (item9_unpacked _ cH); reflexivity).
      unfold lift_opt, bind, ret, emit, log.
      cbn [andb dev self trace rscript wscript attached unpack1 fsize].
      rewrite <- !app_assoc. reflexivity.
    + unfold log. cbn [andb dev self trace rscript wscript attached].
      rewrite <- !app_assoc. reflexivity.
  - unfold log. cbn [andb dev self trace rscript wscript attached].
    rewrite <- !app_assoc. reflexivity.
Qed.

Lemma set_scan_averages_silence n (w : sworld) :
  0 <= n <= 65535 ->
  wscript (dev w) = [] ->
  read_raises STS._EP1_in_size (rscript (dev w)) = true ->
  STS._set_scan_averages n w
  = (Ok None,
     mkWorld
       (dev (after_exchange w (tl (rscript (dev w)))
               [EvWrite STS._EP1_out
                  (request_frame STS._MSG_SET_AVG_SCANS 2
                                 (le_bytes 2 n ++ repeat x00 14));
                EvRead STS._EP1_in STS._EP1_in_size]))
       (STS.set__scan_averages n (self w))).
Proof.
  intros Hn Hw Hr. unfold STS._set_scan_averages.
  erewrite bind_ok by (apply pack_run, pack_scan_averages; exact Hn).
  erewrite bind_ok by (apply dev_write_run; exact Hw).
  unfold try_except.
  erewrite bind_raise by (apply dev_read_raises; exact Hr).
  unfold after_exchange.
  cbn [any_exception bind modify_self ret dev self trace rscript wscript
       attached].
  rewrite <- !app_assoc. reflexivity.
Qed.

Lemma read_raises_or_answers size (rs : list (option (list byte))) :
  read_raises size rs = true
  \/ exists r rest, rs = Some r :: rest /\ Z.of_nat (length r) <= size.
Proof.
  destruct rs as [| [r |] rest]; [now left | | now left].
  unfold read_raises.
  destruct (Z.of_nat (length r) <=? size) eqn:E; [| now left].
  right. exists r, rest. split; [reflexivity | now apply Z.leb_le].
Qed.

(** X17.  [_set_scan_averages] on a transport that accepts the command
    (a 16-bit value): [self._scan_averages] is assigned only when the read
    of the acknowledgement raises, and the method then returns nothing;
    when any response arrives the method returns [-1] and no attribute
    changes, and for a 64-byte response with status 0 the value echoed at
    offsets 24-25 and "Error setting integration time" are printed.
    [set_scan_averages()] without a value does nothing. *)
Theorem sts_scan_averages_set_only_on_read_error n (w : sworld) :
  0 <= n <= 65535 ->
  wscript (dev w) = [] ->
  let out := STS._set_scan_averages n w in
  (read_raises STS._EP1_in_size (rscript (dev w)) = true ->
   fst out = Ok None
   /\ self (snd out) = STS.set__scan_averages n (self w))
  /\ (forall r rest,
        rscript (dev w) = Some r :: rest -> (length r <= 64)%nat ->
        fst out = Ok (Some (VInt (-1))) /\ self (snd out) = self w
        /\ (frame_ok r = true ->
            trace (dev (snd out))
            = trace (dev w)
              ++ [EvWrite STS._EP1_out
                    (request_frame STS._MSG_SET_AVG_SCANS 2
                                   (le_bytes 2 n ++ repeat x00 14));
                  EvRead STS._EP1_in STS._EP1_in_size;
                  EvPrint "%s" [VInt (uint_at 2 24 r)];
                  EvPrint "Error setting integration time" []]))
  /\ STS.set_scan_averages None w = (Ok tt, w).
Proof.
  intros Hn Hw out. unfold out. split; [| split].
  - intros Hr. now rewrite (set_scan_averages_silence n w Hn Hw Hr).
  - intros r rest Hr Hl.
    rewrite (set_scan_averages_answered n w r rest Hn Hw Hr Hl).
    cbn [fst snd self dev trace after_exchange]. repeat split.
    intros Hok. now rewrite Hok.
  - reflexivity.
Qed.

(** Whatever the device does after the command, [_set_scan_averages]
    returns normally, keeps [self._it] and leaves a transport that accepts
    writes. *)
Lemma set_scan_averages_keeps_it n (w : sworld) :
  0 <= n <= 65535 ->
  wscript (dev w) = [] ->
  exists x w',
    STS._set_scan_averages n w = (Ok x, w')
    /\ STS._it (self w') = STS._it (self w) /\ wscript (dev w') = [].
Proof.
  intros Hn Hw.
  destruct (read_raises_or_answers STS._EP1_in_size (rscript (dev w)))
    as [Hr | (r & rest & Hr & Hl)].
  - rewrite (set_scan_averages_silence n w Hn Hw Hr).
    eexists _, _. split; [reflexivity |]. split; reflexivity.
  - rewrite (set_scan_averages_answered n w r rest Hn Hw Hr)
      by (unfold STS._EP1_in_size in Hl; lia).
    eexists _, _. split; [reflexivity |]. split; reflexivity.
Qed.

Lemma sts_plain_query_keeps msg fmt on_success :
  (forall ack, keeps_self (on_success ack)) ->
  keeps_self
    (cmd <- STS.plain_request msg ;;
     dev_write STS._EP1_out cmd ;;;
     r <- dev_read STS._EP1_in STS._EP1_in_size ;;
     STS.check_ack fmt r on_success : M F (STS.obj F) _).
Proof.
  intros H. unfold STS.plain_request, pack. keeps.
  apply sts_check_ack_keeps. exact H.
Qed.

Lemma sts_initialize_keeps : keeps_self (@STS._initialize F).
Proof. intro w. reflexivity. Qed.

(** The session after the first two phases of the framed constructor:
    only the number of scan averages (0) and the serial number are
    assigned. *)
Lemma sts_identified_self (d : device F) (w1 : sworld) :
  (STS.init_open ;;; STS.init_identify) (mkWorld d STS.fresh) = (Ok tt, w1) ->
  exists serial,
    self w1 = STS.set_Serial serial (STS.set__scan_averages 0 STS.fresh).
Proof.
  intros H. apply bind_inv in H. destruct H as ([] & w0 & Ho & Hi).
  assert (H0 : self w0 = STS.set__scan_averages 0 STS.fresh).
  { unfold STS.init_open in Ho. cbn [dev] in Ho.
    destruct (negb (attached d)); [discriminate |].
    do 3 inv_bind Ho.
    unfold emit in E, E1. unfold modify_self in E0.
    injection E as E. injection E0 as E0. injection E1 as E1.
    rewrite (keeps_self_run _ _ _ _ sts_initialize_keeps Ho).
    subst. reflexivity. }
  unfold STS.init_identify in Hi.
  apply bind_inv in Hi. destruct Hi as (hw & wa & Ea & Hi).
  apply bind_inv in Hi. destruct Hi as ([] & wb & Eb & Hi).
  apply bind_inv in Hi. destruct Hi as (sw & wc & Ec & Hi).
  apply bind_inv in Hi. destruct Hi as ([] & wd & Ed & Hi).
  apply bind_inv in Hi. destruct Hi as (serial & we & Ee & Hi).
  apply bind_inv in Hi. destruct Hi as ([] & wf & Ef & Hi).
  unfold emit in Hi. injection Hi as <-.
  unfold modify_self in Ef. injection Ef as <-.
  unfold emit in Ed. injection Ed as <-.
  unfold emit in Eb. injection Eb as <-.
  assert (Ka : self wa = self w0).
  { eapply keeps_self_run; [| exact Ea].
    apply sts_plain_query_keeps. intros ack. keeps. }
  assert (Kc : self wc = self wa).
  { eapply (keeps_self_run _ (mkWorld (log _ (dev wa)) (self wa)));
      [| exact Ec].
    apply sts_plain_query_keeps. intros ack. keeps. }
  assert (Ke : self we = self wc).
  { eapply (keeps_self_run _ (mkWorld (log _ (dev wc)) (self wc)));
      [| exact Ee].
    unfold STS._get_serial.
    apply keeps_bind; [apply sts_query_coefficient_count_keeps | intros n].
    apply keeps_bind; [apply keeps_as_int | intros m].
    apply keeps_bind; [apply keeps_emit | intros _].
    apply sts_plain_query_keeps. intros ack. keeps. }
  exists serial. cbn [self]. now rewrite Ke, Kc, Ka, H0.
Qed.

Lemma sts_identified_has_no_it (d : device F) (w1 : sworld) :
  (STS.init_open ;;; STS.init_identify) (mkWorld d STS.fresh) = (Ok tt, w1) ->
  STS._it (self w1) = None.
Proof.
  intros H. destruct (sts_identified_self d w1 H) as [serial ->]. reflexivity.
Qed.

(** X18.  The framed constructor relies on the device staying silent
    after the set-integration-time command: if, once the device has been
    opened and identified, it answers that command with any response,
    [self._it] is never assigned and the spectrum request that follows
    raises [AttributeError]; construction fails and returns no object. *)
Theorem sts_answered_integration_time_breaks_construction
    (d : device F) (w1 : sworld) r rest :
  (STS.init_open ;;; STS.init_identify) (mkWorld d STS.fresh) = (Ok tt, w1) ->
  wscript (dev w1) = [] ->
  rscript (dev w1) = Some r :: rest ->
  (length r <= 64)%nat ->
  fst (STS.new d) = Raise AttributeError.
Proof.
  intros Hpre Hw Hr Hl.
  pose proof (sts_identified_has_no_it d w1 Hpre) as Hit.
  apply bind_inv in Hpre. destruct Hpre as ([] & w0 & Ho & Hi).
  unfold STS.new, STS.__init__.
  erewrite bind_ok by exact Ho.
  erewrite bind_ok by exact Hi.
  unfold STS.integration_time.
  rewrite bind_assoc. rewrite bind_assoc.
  erewrite bind_ok
    by (apply set_integration_time_answered with (rest := rest);
        [now apply u32_const | exact Hw | exact Hr | exact Hl]).
  erewrite bind_ok by reflexivity.
  erewrite bind_ok by reflexivity.
  unfold STS.set_scan_averages.
  match goal with
  | |- fst (STS.constructed (_ ?w)) = _ =>
      destruct (set_scan_averages_keeps_it 10 w ltac:(lia) eq_refl)
        as (x & w3 & E3 & Kit & Hw3)
  end.
  rewrite bind_assoc.
  erewrite bind_ok by exact E3.
  erewrite bind_ok by reflexivity.
  cbn [self] in Kit.
  erewrite bind_raise; [reflexivity |].
  unfold STS._request_spectrum.
  erewrite bind_ok by (apply plain_request_run; now apply u32_const).
  erewrite bind_ok by (apply dev_write_run; exact Hw3).
  erewrite bind_raise; [reflexivity |].
  unfold getattr. cbn [self]. rewrite Kit, Hit. reflexivity.
Qed.

End FramedSetters.

Section FramedCalibration.
Local Open Scope py_scope.
Context {F : Type} {FO : FloatOps F}.
Local Abbreviation sworld := (world F (STS.obj F)).

Lemma frame_byte24_range (r : list byte) : 0 <= frame_byte24 r < 256.
Proof.
  unfold frame_byte24. destruct (skipn 24 r) as [| b s]; simpl; [lia |].
  pose proof (byte_val_range b). lia.
Qed.

Lemma coefficient_query_run i command (w : sworld) r rest :
  (i < 256)%nat -> u32 command ->
  wscript (dev w) = [] ->
  rscript (dev w) = Some r :: rest ->
  (length r <= 64)%nat ->
  (v <- STS._query_coefficient (Z.of_nat i) command ;; py_float v) w
  = (Ok (coefficient_of r),
     after_exchange w rest (coefficient_exchange command (i, r))).
Proof.
  intros Hi Hc Hw Hr Hl.
  erewrite bind_ok
    by (apply query_coefficient_run with (rest := rest);
        [lia | exact Hc | exact Hw | exact Hr | exact Hl]).
  unfold coefficient_of, frame_ok, ack_value, after_exchange,
    coefficient_exchange.
  cbn [fst snd]. destruct (_ && _); reflexivity.
Qed.

Lemma coefficients_run command rs :
  Forall (fun r => (length r <= 64)%nat) rs ->
  forall a (w : sworld) rest,
    u32 command -> (a + length rs <= 256)%nat ->
    wscript (dev w) = [] ->
    rscript (dev w) = map Some rs ++ rest ->
    for_each (fun i => v <- STS._query_coefficient i command ;; py_float v)
             (map Z.of_nat (seq a (length rs))) w
    = (Ok (map coefficient_of rs),
       after_exchange w rest
         (flat_map (coefficient_exchange command)
                   (combine (seq a (length rs)) rs))).
Proof.
  induction 1 as [| r rs Hr _ IH]; intros a w rest Hc Ha Hw Hs.
  - cbn [length seq map for_each combine flat_map]. unfold ret, after_exchange.
    cbn [map app] in Hs. rewrite app_nil_r.
    destruct w as [[at_ rs ws tr] o]. cbn in *. now subst.
  - cbn [length seq map for_each combine flat_map]. cbn [length] in Ha.
    erewrite bind_ok
      by (apply coefficient_query_run with (rest := map Some rs ++ rest);
          [lia | exact Hc | exact Hw | exact Hs | exact Hr]).
    erewrite bind_ok
      by (apply IH; [exact Hc | lia | reflexivity | reflexivity]).
    now rewrite after_exchange_twice.
Qed.

(** X19.  Framed [_get_wavelength_calibration] queries the coefficients
    0, 1, 2, 3 and never rejects a response: each response that is a
    64-byte frame with status 0 contributes the binary32 value at offsets
    24-27, and any other response (reported by a print) silently
    contributes [float(-1)]. *)
Theorem sts_wavelength_calibration_accepts_any_response
    (w : sworld) rs rest :
  wscript (dev w) = [] ->
  length rs = 4%nat ->
  Forall (fun r => (length r <= 64)%nat) rs ->
  rscript (dev w) = map Some rs ++ rest ->
  STS._get_wavelength_calibration w
  = (Ok (map coefficient_of rs),
     after_exchange w rest
       (flat_map (coefficient_exchange STS._MSG_GET_WAVELENGTH_COEFF)
                 (combine (seq 0 4) rs))).
Proof.
  intros Hw H4 Hl Hs. unfold STS._get_wavelength_calibration.
  replace (seq 0 4) with (seq 0 (length rs)) by (now rewrite H4).
  apply coefficients_run; [exact Hl | now apply u32_const | lia | exact Hw
                          | exact Hs].
Qed.

Lemma count_query_as_int command (w : sworld) r rest :
  u32 command ->
  wscript (dev w) = [] ->
  rscript (dev w) = Some r :: rest ->
  (length r <= 64)%nat ->
  (n <- STS._query_coefficient_count command ;; as_int n) w
  = (Ok (if frame_ok r then frame_byte24 r else -1),
     after_exchange w rest (framed_exchange command ++ ack_prints r)).
Proof.
  intros Hc Hw Hr Hl.
  erewrite bind_ok
    by (apply query_coefficient_count_run with (r := r) (rest := rest);
        assumption).
  unfold ack_value, frame_ok, after_exchange, framed_exchange.
  destruct (_ && _); reflexivity.
Qed.

(** X20.  Framed [_get_nonlinearity_calibration] on a transport that
    accepts the commands: when the count response is a 64-byte frame with
    status 0 whose byte 24 is 8, the coefficients 0..7 are queried and the
    eight values returned; in every other case, an error response
    included (its sentinel [-1] is compared with 8), the method raises
    "This spectrometer has less correction factors" without querying any
    coefficient. *)
Theorem sts_nonlinearity_calibration_cases (w : sworld) r rs rest :
  wscript (dev w) = [] ->
  rscript (dev w) = Some r :: map Some rs ++ rest ->
  (length r <= 64)%nat ->
  length rs = 8%nat ->
  Forall (fun r => (length r <= 64)%nat) rs ->
  (frame_ok r = true -> frame_byte24 r = 8 ->
   STS._get_nonlinearity_calibration w
   = (Ok (map coefficient_of rs),
      after_exchange w rest
        (framed_exchange STS._MSG_GET_NONLINEAR_COEFF_COUNT ++ ack_prints r
         ++ flat_map (coefficient_exchange STS._MSG_GET_NONLINEAR_COEFF)
                     (combine (seq 0 8) rs))))
  /\ (frame_ok r = false \/ frame_byte24 r <> 8 ->
      STS._get_nonlinearity_calibration w
      = (Raise (OOError "This spectrometer has less correction factors"),
         after_exchange w (map Some rs ++ rest)
           (framed_exchange STS._MSG_GET_NONLINEAR_COEFF_COUNT
            ++ ack_prints r))).
Proof.
  intros Hw Hs Hl H8 Hrs.
  assert (Hcount := count_query_as_int STS._MSG_GET_NONLINEAR_COEFF_COUNT
                      w r (map Some rs ++ rest)
                      (u32_const STS._MSG_GET_NONLINEAR_COEFF_COUNT eq_refl)
                      Hw Hs Hl).
  unfold STS._get_nonlinearity_calibration.
  rewrite <- bind_assoc. split.
  - intros Hok E8. erewrite bind_ok by exact Hcount.
    rewrite Hok, E8. cbn [Z.eqb Pos.eqb negb].
    change (Z.to_nat 8) with 8%nat.
    replace (seq 0 8) with (seq 0 (length rs)) by (now rewrite H8).
    rewrite (coefficients_run _ rs Hrs 0 _ rest)
      by first [reflexivity | now apply u32_const | lia].
    rewrite after_exchange_twice, <- app_assoc. reflexivity.
  - intros Hbad. erewrite bind_ok by exact Hcount.
    assert (Hne : ((if frame_ok r then frame_byte24 r else -1) =? 8) = false).
    { apply Z.eqb_neq. destruct Hbad as [-> | Hb]; [lia |].
      destruct (frame_ok r); [exact Hb | lia]. }
    rewrite Hne. reflexivity.
Qed.

(** X21.  Framed [_get_stray_light_calibration] asks the device for a
    count and queries that many coefficients, 0 first.  When the count
    response is not a 64-byte frame with status 0, the sentinel [-1] is
    taken for the count: no coefficient is queried and the calibration is
    the empty list, without any exception. *)
Theorem sts_stray_light_calibration_follows_count (w : sworld) r rs rest :
  wscript (dev w) = [] ->
  rscript (dev w) = Some r :: map Some rs ++ rest ->
  (length r <= 64)%nat ->
  Forall (fun r => (length r <= 64)%nat) rs ->
  (frame_ok r = true -> frame_byte24 r = Z.of_nat (length rs) ->
   STS._get_stray_light_calibration w
   = (Ok (map coefficient_of rs),
      after_exchange w rest
        (framed_exchange STS._MSG_GET_STRAYLIGHT_COEFF_COUNT ++ ack_prints r
         ++ flat_map (coefficient_exchange STS._MSG_GET_STRAYLIGHT_COEFF)
                     (combine (seq 0 (length rs)) rs))))
  /\ (frame_ok r = false ->
      STS._get_stray_light_calibration w
      = (Ok [],
         after_exchange w (map Some rs ++ rest)
           (framed_exchange STS._MSG_GET_STRAYLIGHT_COEFF_COUNT
            ++ ack_prints r))).
Proof.
  intros Hw Hs Hl Hrs.
  assert (Hcount := count_query_as_int STS._MSG_GET_STRAYLIGHT_COEFF_COUNT
                      w r (map Some rs ++ rest)
                      (u32_const STS._MSG_GET_STRAYLIGHT_COEFF_COUNT eq_refl)
                      Hw Hs Hl).
  unfold STS._get_stray_light_calibration.
  rewrite <- bind_assoc. split.
  - intros Hok En. erewrite bind_ok by exact Hcount.
    rewrite Hok, En, Nat2Z.id.
    pose proof (frame_byte24_range r) as Hb.
    rewrite (coefficients_run _ rs Hrs 0 _ rest)
      by first [reflexivity | now apply u32_const | lia].
    rewrite after_exchange_twice, <- app_assoc. reflexivity.
  - intros Hbad. erewrite bind_ok by exact Hcount.
    rewrite Hbad. reflexivity.
Qed.

End FramedCalibration.

Section FramedReadings.
Local Open Scope py_scope.
Context {F : Type} {FO : FloatOps F}.
Local Abbreviation sworld := (world F (STS.obj F)).

Lemma item_float_unpacked {Obj} fmt i (r : list byte) (w : world F Obj) :
  nth_error fmt i = Some cf ->
  item (unpack_fields fmt r) i w
  = (Ok (VFloat (float_at (calcsize (firstn i fmt)) r)), w).
Proof.
  intros Hn. unfold item.
  rewrite (unpack_fields_nth_error fmt i r cf Hn). reflexivity.
Qed.

Lemma read_temperatures_steps (w : sworld) r rest :
  wscript (dev w) = [] ->
  rscript (dev w) = Some r :: rest ->
  (length r <= 64)%nat ->
  STS._read_temperatures w
  = (if Nat.eqb (length r) 64
     then Ok [VFloat (float_at 24 r); VFloat (float_at 32 r)]
     else Raise StructError,
     after_exchange w rest (framed_exchange STS._MSG_GET_ALL_TEMPERATURE)).
Proof.
  intros Hw Hr Hl. unfold STS._read_temperatures.
  erewrite bind_ok by (apply plain_request_run; now apply u32_const).
  erewrite bind_ok by (apply dev_write_run; exact Hw).
  erewrite bind_ok.
  2:{ apply dev_read_run with (rest := rest); [exact Hr |].
      unfold STS._EP1_in_size. lia. }
  unfold after_exchange, framed_exchange.
  cbn [dev self trace rscript wscript attached]. rewrite <- app_assoc.
  destruct (Nat.eqb (length r) 64) eqn:El.
  - erewrite bind_ok.
    2:{ apply unpack_run. unfold struct_unpack.
        change (calcsize _) with 64%nat. rewrite El. reflexivity. }
    erewrite bind_ok by (apply (item_float_unpacked _ 10); reflexivity).
    erewrite bind_ok by (apply (item_float_unpacked _ 12); reflexivity).
    reflexivity.
  - erewrite bind_raise; [reflexivity |].
    unfold unpack, struct_unpack. change (calcsize _) with 64%nat.
    rewrite El. reflexivity.
Qed.

(** X22.  Framed [device_temperature] makes one exchange and decodes the
    response without looking at its status or markers: for a response of
    64 bytes it returns the binary32 value at offsets 24-27 (the detector;
    [_read_temperatures] pairs it with the value at offsets 32-35 and
    skips the one at 28-31); a response of any other length raises
    [struct.error]. *)
Theorem sts_device_temperature_decodes (w : sworld) r rest :
  wscript (dev w) = [] ->
  rscript (dev w) = Some r :: rest ->
  (length r <= 64)%nat ->
  snd (STS.device_temperature w)
  = after_exchange w rest (framed_exchange STS._MSG_GET_ALL_TEMPERATURE)
  /\ (length r = 64%nat ->
      fst (STS._read_temperatures w)
      = Ok [VFloat (float_at 24 r); VFloat (float_at 32 r)]
      /\ fst (STS.device_temperature w) = Ok (VFloat (float_at 24 r)))
  /\ (length r <> 64%nat ->
      fst (STS.device_temperature w) = Raise StructError).
Proof.
  intros Hw Hr Hl. unfold STS.device_temperature, bind at 1 2 3.
  rewrite (read_temperatures_steps w r rest Hw Hr Hl).
  destruct (Nat.eqb (length r) 64) eqn:El.
  - apply Nat.eqb_eq in El.
    split; [reflexivity |]. split; [intros _; split; reflexivity |].
    intros Hne. now elim Hne.
  - apply Nat.eqb_neq in El.
    split; [reflexivity |]. split; [intros E; now elim El |].
    intros _. reflexivity.
Qed.

Lemma irradiance_format_slice bs :
  slice 12 1036 (@unpack_fields F FO STS.irradiance_format bs)
  = map (fun k => VFloat (float_at (44 + 4 * k) bs)) (seq 0 1024).
Proof.
  unfold STS.irradiance_format.
  rewrite unpack_fields_app, unpack_fields_app.
  rewrite slice_middle.
  - rewrite unpack_fields_repeat. apply map_ext. intros k.
    unfold float_at. cbn [unpack1 fsize]. rewrite skipn_skipn.
    change (calcsize _) with 44%nat.
    replace (k * 4 + 44)%nat with (44 + 4 * k)%nat by lia. reflexivity.
  - apply unpack_fields_length.
  - rewrite unpack_fields_length, repeat_length. reflexivity.
Qed.

(** X23.  [_read_irradiance_calibration] writes one request and makes 65
    reads of at most 64 bytes.  When they deliver 4160 bytes in all, the
    result is the 1024 binary32 values found from byte 44 on, four bytes
    each, the 44-byte header and the 20-byte trailer being ignored; when
    they deliver any other number of bytes the method raises
    [struct.error]. *)
Theorem sts_irradiance_calibration_reads_65_chunks (w : sworld) chunks rest :
  wscript (dev w) = [] ->
  length chunks = 65%nat ->
  Forall (fun c => Z.of_nat (length c) <= STS._EP1_in_size) chunks ->
  rscript (dev w) = map Some chunks ++ rest ->
  snd (STS._read_irradiance_calibration w)
  = after_exchange w rest
      (EvWrite STS._EP1_out
         (request_frame STS._MSG_GET_IRRADIANCE_COEFF 0 (repeat x00 16))
       :: repeat (EvRead STS._EP1_in STS._EP1_in_size) 65)
  /\ (length (concat chunks) = 4160%nat ->
      fst (STS._read_irradiance_calibration w)
      = Ok (map (fun k => VFloat (float_at (44 + 4 * k) (concat chunks)))
                (seq 0 1024)))
  /\ (length (concat chunks) <> 4160%nat ->
      fst (STS._read_irradiance_calibration w) = Raise StructError).
Proof.
  intros Hw Hn Hc Hr.
  assert (E : STS._read_irradiance_calibration w
              = (if Nat.eqb (length (concat chunks)) 4160
                 then Ok (map (fun k => VFloat (float_at (44 + 4 * k)
                                                   (concat chunks)))
                              (seq 0 1024))
                 else Raise StructError,
                 after_exchange w rest
                   (EvWrite STS._EP1_out
                      (request_frame STS._MSG_GET_IRRADIANCE_COEFF 0
                                     (repeat x00 16))
                    :: repeat (EvRead STS._EP1_in STS._EP1_in_size) 65))).
  { unfold STS._read_irradiance_calibration.
    erewrite bind_ok by (apply plain_request_run; now apply u32_const).
    erewrite bind_ok by (apply dev_write_run; exact Hw).
    erewrite bind_ok
      by (eapply read_chunks; [exact Hc | exact Hn | simpl; exact Hr]).
    erewrite bind_ok by (apply concat_chunks_run; intros ->; discriminate).
    assert (Hsz : calcsize STS.irradiance_format = 4160%nat).
    { unfold STS.irradiance_format.
      rewrite !calcsize_app, calcsize_repeat. reflexivity. }
    unfold after_exchange. cbn [dev self trace rscript wscript attached].
    rewrite <- app_assoc. cbn [app].
    destruct (Nat.eqb (length (concat chunks)) 4160) eqn:El.
    - erewrite bind_ok.
      2:{ apply unpack_run. unfold struct_unpack. rewrite Hsz, El.
          reflexivity. }
      rewrite irradiance_format_slice. reflexivity.
    - erewrite bind_raise; [reflexivity |].
      unfold unpack, struct_unpack. rewrite Hsz, El. reflexivity. }
  rewrite E. cbn [fst snd].
  split; [reflexivity |]. split.
  - intros H. apply Nat.eqb_eq in H. now rewrite H.
  - intros H. apply Nat.eqb_neq in H. now rewrite H.
Qed.

(** X24.  A session returned by the framed constructor has all that
    [acquire_spectrum] needs: whenever the spectrum request succeeds on
    such a session, [acquire_spectrum] succeeds too, its two rows have
    1024 entries each and the attributes are as before.
    [acquire_radiance_spectrum] does exactly the same: it applies no
    irradiance calibration. *)
Theorem sts_constructed_session_acquires
    (d d' : device F) o (w w' : sworld) spectrum :
  STS.new d = (Ok o, d') ->
  self w = o ->
  STS._request_spectrum w = (Ok spectrum, w') ->
  exists wavelength intensity,
    STS.acquire_spectrum w = (Ok (wavelength, intensity), w')
    /\ STS.acquire_radiance_spectrum w = (Ok (wavelength, intensity), w')
    /\ length wavelength = 1024%nat /\ length intensity = 1024%nat
    /\ self w' = o.
Proof.
  intros Hnew Ho Hreq.
  destruct (sts_constructed_session d d' o Hnew)
    as (wl & nl & Hwl & Lwl & Hnl & Lnl).
  destruct (sts_request_spectrum_result _ _ _ Hreq)
    as (Hself & buf & Hbuf & ->).
  set (raw := map (sample_u16 (skipn 44 buf)) (seq 0 1024)) in *.
  assert (Hraw : length raw = 1024%nat)
    by (unfold raw; now rewrite length_map, length_seq).
  exists (wavelength_row wl 0 1024),
    (linearized nl (length nl) (map of_int raw)).
  assert (E : STS.acquire_spectrum w
              = (Ok (wavelength_row wl 0 1024,
                     linearized nl (length nl) (map of_int raw)), w'))
    by (apply sts_acquire_spectrum_run; subst o; auto; lia).
  split; [exact E |]. split; [exact E |].
  split; [apply wavelength_row_length |].
  split; [now rewrite linearized_length, length_map | now rewrite Hself].
Qed.

(** X25.  Framed [_request_spectrum] needs all of its 33 reads and all
    2112 bytes: when the device delivers fewer than 33 chunks and the next
    read fails, the method raises [USBError]; when 33 chunks arrive whose
    total length is not 2112 bytes, it raises [struct.error].  Nothing is
    retried. *)
Theorem sts_spectrum_needs_33_full_reads (w : sworld) it sa chunks rest :
  STS._it (self w) = Some it ->
  STS._scan_averages (self w) = Some sa ->
  wscript (dev w) = [] ->
  Forall (fun c => Z.of_nat (length c) <= STS._EP1_in_size) chunks ->
  rscript (dev w) = map Some chunks ++ rest ->
  ((length chunks < 33)%nat ->
   read_raises STS._EP1_in_size rest = true ->
   fst (STS._request_spectrum w) = Raise USBError)
  /\ (length chunks = 33%nat -> length (concat chunks) <> 2112%nat ->
      fst (STS._request_spectrum w) = Raise StructError).
Proof.
  intros Hit Hsa Hw Hc Hr.
  unfold STS._request_spectrum.
  erewrite bind_ok by (apply plain_request_run; now apply u32_const).
  erewrite bind_ok by (apply dev_write_run; exact Hw).
  erewrite bind_ok by (apply getattr_run; exact Hit).
  erewrite bind_ok by (apply getattr_run; exact Hsa).
  erewrite bind_ok by reflexivity.
  split.
  - intros Hn Hx. unfold bind at 1.
    match goal with
    | |- fst (match ?x with _ => _ end) = _ =>
        assert (E : fst x = Raise USBError)
          by (eapply read_chunks_short; [exact Hc | exact Hn | simpl; exact Hr
                                        | exact Hx]);
        destruct x as [[ys | e] w2]; simpl in E; [discriminate |]
    end.
    injection E as ->. reflexivity.
  - intros Hn Hlen.
    erewrite bind_ok
      by (eapply read_chunks; [exact Hc | exact Hn | simpl; exact Hr]).
    erewrite bind_ok by (apply concat_chunks_run; intros ->; discriminate).
    erewrite bind_raise; [reflexivity |].
    unfold unpack, struct_unpack, STS.spectrum_format.
    rewrite !calcsize_app, calcsize_repeat.
    apply Nat.eqb_neq in Hlen.
    change (calcsize _ + (1024 * fsize cH + calcsize _))%nat with 2112%nat.
    rewrite Hlen. reflexivity.
Qed.

End FramedReadings.

Section SessionInvariants.
Local Open Scope py_scope.
Context {F : Type} {FO : FloatOps F} {FL : FloatLiterals F}.
Local Abbreviation uworld := (world F (USB2000.obj F)).
Local Abbreviation sworld := (world F (STS.obj F)).

(** X26.  Legacy [_request_spectrum] needs every chunk and every byte:
    when the device delivers fewer chunks than the speed asks for (8 or
    64) and the next read fails, the method raises [USBError]; when all
    chunks arrive but their total length is not 4096 bytes, it raises
    [struct.error] and the synchronisation byte is left unread.  Nothing
    is retried. *)
Theorem legacy_spectrum_needs_every_chunk_and_byte
    (w : uworld) it speed chunks rest :
  USB2000._it (self w) = Some it ->
  USB2000._usbcomm (self w) = Some speed ->
  wscript (dev w) = [] ->
  Forall (fun c => Z.of_nat (length c) <= spec_chunk_size speed) chunks ->
  rscript (dev w) = map Some chunks ++ rest ->
  ((length chunks < spec_chunk_count speed)%nat ->
   read_raises (spec_chunk_size speed) rest = true ->
   fst (USB2000._request_spectrum w) = Raise USBError)
  /\ (length chunks = spec_chunk_count speed ->
      length (concat chunks) <> 4096%nat ->
      fst (USB2000._request_spectrum w) = Raise StructError
      /\ rscript (dev (snd (USB2000._request_spectrum w))) = rest).
Proof.
  intros Hit Hsp Hw Hc Hr. split.
  - intros Hn Hx.
    exact (legacy_spectrum_needs_every_chunk w it speed chunks rest
             Hit Hsp Hw Hn Hc Hr Hx).
  - intros Hn Hlen.
    exact (legacy_spectrum_needs_4096_bytes w it speed chunks rest
             Hit Hsp Hw Hn Hc Hlen Hr).
Qed.

Lemma legacy_query_status_keeps : keeps_self (@USB2000._query_status F FO).
Proof. unfold USB2000._query_status, pack, unpack. keeps. Qed.

Lemma legacy_wavelength_keeps :
  keeps_self (@USB2000._get_wavelength_calibration F FO).
Proof.
  unfold USB2000._get_wavelength_calibration.
  apply keeps_for_each. intros i.
  apply keeps_bind; [apply legacy_query_information_keeps | intros s].
  apply keeps_py_float.
Qed.

Lemma legacy_read_register_keeps a :
  keeps_self (@USB2000._read_register_information F FO a).
Proof. unfold USB2000._read_register_information, pack, unpack. keeps. Qed.

Lemma legacy_device_temperature_keeps :
  keeps_self (@USB2000.device_temperature F FO FL).
Proof.
  unfold USB2000.device_temperature, USB2000._read_pcb_temperature,
    USB2000.single, pack, unpack.
  keeps.
Qed.

(** X27.  The legacy session is changed by [integration_time] and by the
    constructor only: whatever the device sends and whether or not an
    exception is raised, [acquire_spectrum], [device_temperature] and the
    query and calibration methods leave every attribute as it was. *)
Theorem legacy_reads_never_touch_the_session (w : uworld) address raw :
  self (snd (USB2000.acquire_spectrum w)) = self w
  /\ self (snd (USB2000.device_temperature w)) = self w
  /\ self (snd (USB2000._request_spectrum w)) = self w
  /\ self (snd (USB2000._query_status w)) = self w
  /\ self (snd (USB2000._query_information address raw w)) = self w
  /\ self (snd (USB2000._read_register_information address w)) = self w
  /\ self (snd (USB2000._get_serial w)) = self w
  /\ self (snd (USB2000._get_wavelength_calibration w)) = self w
  /\ self (snd (USB2000._get_nonlinearity_calibration w)) = self w
  /\ self (snd (USB2000._get_saturation_calibration w)) = self w.
Proof.
  repeat split.
  - apply acquire_spectrum_keeps.
  - apply legacy_device_temperature_keeps.
  - apply request_spectrum_keeps.
  - apply legacy_query_status_keeps.
  - apply legacy_query_information_keeps.
  - apply legacy_read_register_keeps.
  - apply (legacy_query_information_keeps 0 false).
  - apply legacy_wavelength_keeps.
  - apply legacy_nonlinearity_keeps.
  - apply legacy_saturation_keeps.
Qed.

Lemma sts_acquire_spectrum_keeps : keeps_self (@STS.acquire_spectrum F FO).
Proof.
  unfold STS.acquire_spectrum.
  apply keeps_bind; [apply sts_request_spectrum_keeps | intros sp].
  apply keeps_bind; [apply keeps_for_each; intros; apply keeps_py_float |].
  intros fl. unfold vstack. keeps.
Qed.

Lemma sts_get_serial_keeps : keeps_self (@STS._get_serial F FO).
Proof.
  unfold STS._get_serial.
  apply keeps_bind; [apply sts_query_coefficient_count_keeps | intros n].
  apply keeps_bind; [apply keeps_as_int | intros m].
  apply keeps_bind; [apply keeps_emit | intros _].
  apply sts_plain_query_keeps. intros ack. keeps.
Qed.

Lemma sts_read_temperatures_keeps : keeps_self (@STS._read_temperatures F FO).
Proof. unfold STS._read_temperatures, STS.plain_request, pack, unpack. keeps. Qed.

Lemma sts_read_irradiance_keeps :
  keeps_self (@STS._read_irradiance_calibration F FO).
Proof.
  unfold STS._read_irradiance_calibration, STS.plain_request, pack, unpack.
  keeps.
Qed.

(** X28.  The framed session is changed by the two set commands and by
    the constructor only: whatever the device sends and whether or not an
    exception is raised, the acquisition methods, [device_temperature] and
    the query and calibration methods leave every attribute as it was. *)
Theorem sts_reads_never_touch_the_session (w : sworld) index command :
  self (snd (STS.acquire_spectrum w)) = self w
  /\ self (snd (STS.acquire_radiance_spectrum w)) = self w
  /\ self (snd (STS.device_temperature w)) = self w
  /\ self (snd (STS._request_spectrum w)) = self w
  /\ self (snd (STS._read_irradiance_calibration w)) = self w
  /\ self (snd (STS._get_hw_version w)) = self w
  /\ self (snd (STS._get_sw_version w)) = self w
  /\ self (snd (STS._get_serial w)) = self w
  /\ self (snd (STS._get_scan_averages w)) = self w
  /\ self (snd (STS._query_coefficient_count command w)) = self w
  /\ self (snd (STS._query_coefficient index command w)) = self w
  /\ self (snd (STS._get_wavelength_calibration w)) = self w
  /\ self (snd (STS._get_nonlinearity_calibration w)) = self w
  /\ self (snd (STS._get_stray_light_calibration w)) = self w
  /\ self (snd (STS._initialize w)) = self w.
Proof.
  repeat split.
  - apply sts_acquire_spectrum_keeps.
  - apply sts_acquire_spectrum_keeps.
  - unfold STS.device_temperature.
    apply keeps_bind; [apply sts_read_temperatures_keeps | intros; keeps].
  - apply sts_request_spectrum_keeps.
  - apply sts_read_irradiance_keeps.
  - apply sts_plain_query_keeps. intros ack. keeps.
  - apply sts_plain_query_keeps. intros ack. keeps.
  - apply sts_get_serial_keeps.
  - apply sts_plain_query_keeps. intros ack. keeps.
  - apply sts_query_coefficient_count_keeps.
  - apply sts_query_coefficient_keeps.
  - apply (sts_coefficients_keep STS._MSG_GET_WAVELENGTH_COEFF 4).
  - apply sts_nonlinearity_keeps.
  - apply sts_stray_light_keeps.
Qed.

End SessionInvariants.

Section FrameLayout.
Local Open Scope py_scope.
Context {F : Type} {FO : FloatOps F}.
Local Abbreviation sworld := (world F (STS.obj F)).

Lemma le_uint_le_bytes n z :
  0 <= z < 256 ^ Z.of_nat n -> le_uint (le_bytes n z) = z.
Proof.
  revert z. induction n as [| n IH]; intros z Hz.
  - simpl in *. lia.
  - cbn [le_bytes le_uint fold_right]. fold (le_uint (le_bytes n (z / 256))).
    rewrite byte_val_of_Z, IH.
    + pose proof (Z.div_mod z 256 ltac:(lia)). lia.
    + rewrite Nat2Z.inj_succ, Z.pow_succ_r in Hz by lia.
      split; [apply Z.div_pos; lia |].
      apply Z.div_lt_upper_bound; lia.
Qed.

Lemma length_le_bytes n z : length (le_bytes n z) = n.
Proof. revert z. induction n as [| n IH]; intros z; simpl; auto. Qed.

(** X29.  Every request without immediate data that the framed driver
    builds is a 64-byte frame which, read back with the layout the driver
    uses for responses, carries the start marker [0xC0C1], status 0, the
    message type it was built for at offsets 8-11 and the end marker
    [0xC2C3C4C5]; a message type that does not fit 32 bits is refused with
    [struct.error]. *)
Theorem sts_request_frame_layout msg (w : sworld) :
  (u32 msg ->
   exists cmd,
     STS.plain_request msg w = (Ok cmd, w)
     /\ length cmd = 64%nat
     /\ frame_start cmd = STS._START_BYTES
     /\ uint_at 2 2 cmd = STS._PROTOCOL_VERSION
     /\ frame_status cmd = 0
     /\ uint_at 4 8 cmd = msg
     /\ frame_end cmd = STS._END_BYTES)
  /\ (~ u32 msg -> STS.plain_request msg w = (Raise StructError, w)).
Proof.
  split.
  - intros Hm. exists (request_frame msg 0 (repeat x00 16)).
    split; [now apply plain_request_run |].
    unfold request_frame, frame_start, frame_status, frame_end, uint_at.
    set (m := le_bytes 4 msg).
    assert (Lm : length m = 4%nat) by apply length_le_bytes.
    assert (Vm : le_uint m = msg).
    { apply le_uint_le_bytes. unfold u32 in Hm. simpl. lia. }
    destruct m as [| m0 [| m1 [| m2 [| m3 [| m4 m]]]]]; try discriminate.
    repeat split; try reflexivity. exact Vm.
  - intros Hm. unfold STS.plain_request, pack, struct_pack, pack1.
    rewrite (in_range_false 0 4294967295 msg Hm). reflexivity.
Qed.

End FrameLayout.

Section FramedConstruction.
Local Open Scope py_scope.
Context {F : Type} {FO : FloatOps F}.
Local Abbreviation sworld := (world F (STS.obj F)).

Lemma sts_set_body_keeps fmt on_success :
  (forall ack, keeps_self (on_success ack)) ->
  keeps_self
    (r <- dev_read STS._EP1_in STS._EP1_in_size ;;
     v <- STS.check_ack fmt r on_success ;;
     ret (Some v) : M F (STS.obj F) _).
Proof.
  intros H. apply keeps_bind; [apply keeps_dev_read | intros r].
  apply keeps_bind; [now apply sts_check_ack_keeps | intros v].
  apply keeps_ret.
Qed.

(** A set command either leaves the session as it was or runs the
    assignment of its handler, once. *)
Lemma sts_set_command_self {A} fmt vals (body : M F (STS.obj F) (option A))
    g (w : sworld) r wf :
  keeps_self body ->
  (cmd <- pack fmt vals ;;
   dev_write STS._EP1_out cmd ;;;
   try_except body any_exception (modify_self g ;;; ret None)) w = (r, wf) ->
  self wf = self w \/ self wf = g (self w).
Proof.
  intros K E. unfold bind at 1 in E.
  destruct (pack fmt vals w) as [[cmd | e] w0] eqn:Ep;
    (assert (w0 = w) by (eapply silent_run; [| exact Ep]; silent); subst w0).
  2:{ injection E as _ <-. now left. }
  unfold bind at 1 in E.
  destruct (dev_write STS._EP1_out cmd w) as [[u | e] w1] eqn:Ew;
    apply dev_write_effect in Ew; destruct Ew as (_ & _ & Hself).
  2:{ injection E as _ <-. now left. }
  unfold try_except in E. specialize (K w1).
  destruct (body w1) as [[v | e] w2]; cbn [snd] in K.
  - injection E as _ <-. left. now rewrite K.
  - cbn [any_exception bind modify_self ret] in E. injection E as _ <-.
    right. cbn [self]. now rewrite K, Hself.
Qed.

Lemma sts_set_integration_time_self t (w : sworld) :
  self (snd (STS._set_integration_time t w)) = self w
  \/ self (snd (STS._set_integration_time t w)) = STS.set__it t (self w).
Proof.
  destruct (STS._set_integration_time t w) as [r wf] eqn:E.
  unfold STS._set_integration_time in E.
  eapply sts_set_command_self; [| exact E].
  apply sts_set_body_keeps. intros ack. keeps.
Qed.

Lemma sts_set_scan_averages_self n (w : sworld) :
  self (snd (STS._set_scan_averages n w)) = self w
  \/ self (snd (STS._set_scan_averages n w))
     = STS.set__scan_averages n (self w).
Proof.
  destruct (STS._set_scan_averages n w) as [r wf] eqn:E.
  unfold STS._set_scan_averages in E.
  eapply sts_set_command_self; [| exact E].
  apply sts_set_body_keeps. intros ack. keeps.
Qed.

Lemma sts_request_needs_it (w w' : sworld) spectrum :
  STS._request_spectrum w = (Ok spectrum, w') ->
  exists it, STS._it (self w) = Some it.
Proof.
  intros H. unfold STS._request_spectrum in H.
  apply bind_inv in H. destruct H as (cmd & w0 & Ep & H).
  assert (w0 = w) by (eapply silent_run; [| exact Ep];
                      unfold STS.plain_request; silent). subst w0.
  apply bind_inv in H. destruct H as (u & w1 & Ew & H).
  apply dev_write_effect in Ew. destruct Ew as (_ & _ & Hself).
  apply bind_inv in H. destruct H as (it & w2 & Eg & _).
  unfold getattr in Eg. rewrite Hself in Eg.
  destruct (STS._it (self w)) as [x |]; [now exists x | discriminate].
Qed.

(** X30.  What a successful framed constructor has recorded: the
    integration time is 10000, the value asked for (it is stored only when
    the device did not answer the set command, and the first spectrum
    request needs it); the number of scan averages is 10 or, when the
    device answered that set command, still 0; and a serial number is
    stored. *)
Theorem sts_constructed_session_records_requested_time
    (d d' : device F) o :
  STS.new d = (Ok o, d') ->
  STS._it o = Some 10000
  /\ (STS._scan_averages o = Some 0 \/ STS._scan_averages o = Some 10)
  /\ exists serial, STS.Serial o = Some serial.
Proof.
  unfold STS.new, STS.constructed.
  destruct (STS.__init__ _) as [[[] | e] wf] eqn:H; [| discriminate].
  intros E. injection E as <- _.
  unfold STS.__init__ in H.
  rewrite <- bind_assoc in H.
  apply bind_inv in H. destruct H as ([] & w1 & Hid & H).
  destruct (sts_identified_self d w1 Hid) as [serial S1].
  apply bind_inv in H. destruct H as (x & w2 & Eit & H).
  assert (S2 : self w2 = self w1 \/ self w2 = STS.set__it 10000 (self w1)).
  { unfold STS.integration_time in Eit.
    apply bind_inv in Eit. destruct Eit as ([] & wa & Ea & Eit).
    unfold ret in Eit. injection Eit as _ <-.
    apply bind_inv in Ea. destruct Ea as (y & wb & Eb & Ea).
    unfold ret in Ea. injection Ea as <-.
    pose proof (sts_set_integration_time_self 10000 w1) as K.
    now rewrite Eb in K. }
  apply bind_inv in H. destruct H as ([] & w3 & Esa & H).
  assert (S3 : self w3 = self w2
               \/ self w3 = STS.set__scan_averages 10 (self w2)).
  { unfold STS.set_scan_averages in Esa.
    apply bind_inv in Esa. destruct Esa as (y & wb & Eb & Esa).
    unfold ret in Esa. injection Esa as <-.
    pose proof (sts_set_scan_averages_self 10 w2) as K.
    now rewrite Eb in K. }
  apply bind_inv in H. destruct H as (sp & w4 & Esp & H).
  destruct (sts_request_needs_it _ _ _ Esp) as [it Hit].
  pose proof (keeps_self_run _ _ _ _ sts_request_spectrum_keeps Esp) as S4.
  apply bind_inv in H. destruct H as ([] & w5 & Ewl & H).
  unfold STS.load_wavelength in Ewl.
  apply bind_inv in Ewl. destruct Ewl as (wl & wa & Ea & Ewl).
  unfold modify_self in Ewl. injection Ewl as <-.
  pose proof (keeps_self_run _ _ _ _
                (sts_coefficients_keep STS._MSG_GET_WAVELENGTH_COEFF 4) Ea)
    as Ka.
  apply bind_inv in H. destruct H as ([] & w6 & Enl & H).
  unfold STS.load_nonlinearity in Enl.
  apply bind_inv in Enl. destruct Enl as (nl & wb & Eb & Enl).
  unfold modify_self in Enl. injection Enl as <-.
  pose proof (keeps_self_run _ _ _ _ sts_nonlinearity_keeps Eb) as Kb.
  apply bind_inv in H. destruct H as ([] & w7 & Esl & H).
  unfold STS.load_stray_light in Esl.
  apply bind_inv in Esl. destruct Esl as (sl & wc & Ec & Esl).
  pose proof (keeps_self_run _ _ _ _ sts_stray_light_keeps Ec) as Kc.
  apply bind_inv in Esl. destruct Esl as ([] & wd & Em & Esl).
  unfold modify_self in Em. injection Em as <-.
  unfold emit in Esl. injection Esl as <-.
  pose proof (keeps_self_run _ _ _ _ sts_verify_acquisition_keeps H) as Kf.
  cbn [self] in Kb, Kc, Kf.
  assert (Hfinal : STS._it (self wf) = STS._it (self w3)
                   /\ STS._scan_averages (self wf)
                      = STS._scan_averages (self w3)
                   /\ STS.Serial (self wf) = STS.Serial (self w3)).
  { rewrite Kf, Kc, Kb, Ka, S4. repeat split. }
  destruct Hfinal as (-> & -> & ->).
  destruct S2 as [S2 | S2]; rewrite S1 in S2;
    destruct S3 as [S3 | S3]; rewrite S2 in S3;
    rewrite S3 in Hit |- *; cbn in Hit |- *; try discriminate Hit;
    (split; [reflexivity |]); (split; [auto | now exists serial]).
Qed.

End FramedConstruction.

(** * Concrete runs of the further properties *)

Section FurtherRuns.
Import Exact Sim.
Local Open Scope py_scope.

Lemma legacy_query_information_returns_text_witness :
  USB2000._query_information 1 false (usb_answering (info_reply 1 "350"))
  = (Ok (list_byte_of_string "350"),
     after_exchange (usb_answering (info_reply 1 "350")) []
       (legacy_exchange [x05; x01])).
Proof.
  apply (legacy_query_information_returns_text
           1 (usb_answering (info_reply 1 "350")) (info_reply 1 "350") []
           (list_byte_of_string "350") []).
  - reflexivity.
  - reflexivity.
  - simpl. lia.
  - reflexivity.
  - repeat constructor; vm_compute; discriminate.
Defined.

Lemma legacy_query_information_rejects_witness :
  fst (USB2000._query_information 1 false (usb_answering (bytes [6; 1; 0])))
  = Raise (PyException "query_information: Wrong answer")
  /\ fst (USB2000._query_information 1 true (usb_answering (bytes [6; 1; 0])))
     = Ok (bytes [6; 1; 0]).
Proof.
  destruct (legacy_query_information_rejects
              1 (usb_answering (bytes [6; 1; 0])) (bytes [6; 1; 0]) []
              eq_refl eq_refl ltac:(simpl; lia))
    as (H0 & _ & _ & _ & Hraw).
  split; [| exact Hraw].
  apply (H0 (byte_of_Z 6) (bytes [1; 0]) eq_refl).
  vm_compute. discriminate.
Defined.

Lemma legacy_query_status_decodes_witness :
  exists st,
    fst (USB2000._query_status (usb_answering (status_reply 1000 0x80)))
    = Ok st
    /\ USB2000.st_integration_time st = 1000 /\ USB2000.usb_speed st = 0x80.
Proof.
  destruct (proj1 (legacy_query_status_decodes
                     (usb_answering (status_reply 1000 0x80))
                     (status_reply 1000 0x80) []
                     eq_refl eq_refl ltac:(simpl; lia)) eq_refl)
    as (st & E & _ & Hit & _ & _ & _ & _ & _ & _ & Hsp).
  exists st. rewrite E, Hit, Hsp. repeat split.
Defined.

Lemma legacy_integration_time_reports_device_value_witness :
  fst (USB2000.integration_time (Some 2000)
         (usb_answering (status_reply 1000 0x80)))
  = Ok 1000.
Proof.
  rewrite (proj1 (legacy_integration_time_reports_device_value
                    2000 (usb_answering (status_reply 1000 0x80))
                    (status_reply 1000 0x80) []
                    ltac:(unfold u32; lia) eq_refl eq_refl eq_refl)).
  reflexivity.
Defined.

Lemma out_of_range_values_are_refused_unsent_witness :
  USB2000.integration_time (Some (-1)) usb_silent = (Raise StructError, usb_silent)
  /\ STS.set_scan_averages (Some 70000) sts_silent
     = (Raise StructError, sts_silent).
Proof.
  destruct (out_of_range_values_are_refused_unsent
              (-1) 70000 usb_silent sts_silent
              ltac:(unfold u32; lia) ltac:(lia))
    as (Hu & _ & _ & _ & Hs).
  split; assumption.
Defined.

Lemma legacy_read_register_information_decodes_witness :
  fst (USB2000._read_register_information 3
         (usb_answering (bytes [3; 0x34; 0x12])))
  = Ok 0x1234.
Proof.
  exact (proj1 (proj2 (legacy_read_register_information_decodes
                         3 (usb_answering (bytes [3; 0x34; 0x12]))
                         (bytes [3; 0x34; 0x12]) []
                         eq_refl eq_refl ltac:(simpl; lia)))
               (byte_of_Z 0x34) (byte_of_Z 0x12) eq_refl).
Defined.

Lemma legacy_device_temperature_decodes_witness :
  fst (USB2000.device_temperature (usb_answering (bytes [8; 0; 25])))
  = Ok ((3906 # 1000000) * inject_Z 6400)%Q.
Proof.
  exact (proj1 (proj2 (legacy_device_temperature_decodes
                         (usb_answering (bytes [8; 0; 25]))
                         (bytes [8; 0; 25]) []
                         eq_refl eq_refl ltac:(simpl; lia)))
               (byte_of_Z 0) (byte_of_Z 25) eq_refl).
Defined.

Lemma legacy_saturation_from_bytes_6_7_witness :
  fst (USB2000._get_saturation_calibration
         (usb_answering (saturation_reply 32767)))
  = Ok (inject_Z 65535 / inject_Z 32767)%Q.
Proof.
  exact (proj1 (proj2 (legacy_saturation_from_bytes_6_7
                         (usb_answering (saturation_reply 32767))
                         (saturation_reply 32767) []
                         eq_refl eq_refl ltac:(simpl; lia)))
               ltac:(simpl; lia) ltac:(vm_compute; discriminate)).
Defined.

Lemma legacy_wavelength_calibration_reads_addresses_1_to_4_witness :
  fst (USB2000._get_wavelength_calibration usb_before_wavelength)
  = Ok [350; 2; -1; 0]%Q.
Proof.
  rewrite (legacy_wavelength_calibration_reads_addresses_1_to_4
             usb_before_wavelength []
             (list_byte_of_string "350") (list_byte_of_string "2")
             (list_byte_of_string "-1") (list_byte_of_string "0")
             [] [] [] [] 350%Q 2%Q (-1)%Q 0%Q).
  - reflexivity.
  - reflexivity.
  - reflexivity.
  - repeat constructor; simpl; lia.
  - repeat constructor; vm_compute; discriminate.
  - vm_compute. reflexivity.
Defined.

Lemma legacy_spectrum_needs_every_chunk_and_byte_witness :
  fst (USB2000._request_spectrum usb_silent) = Raise USBError.
Proof.
  apply (proj1 (legacy_spectrum_needs_every_chunk_and_byte
                  usb_silent 1000 0x80 [] []
                  eq_refl eq_refl eq_refl ltac:(constructor) eq_refl)).
  - vm_compute. lia.
  - reflexivity.
Defined.

Lemma usb_complete_constructs :
  USB2000.new usb_complete = (Ok usb_session, snd (USB2000.new usb_complete)).
Proof. vm_compute. reflexivity. Qed.

Lemma sts_complete_constructs :
  STS.new sts_complete = (Ok sts_session, snd (STS.new sts_complete)).
Proof. vm_compute. reflexivity. Qed.

Lemma usb_ready_request :
  USB2000._request_spectrum usb_ready
  = (Ok (map VInt pattern), snd (USB2000._request_spectrum usb_ready)).
Proof. vm_compute. reflexivity. Qed.

Lemma sts_ready_request :
  STS._request_spectrum sts_ready
  = (Ok (map VInt sts_pattern), snd (STS._request_spectrum sts_ready)).
Proof. vm_compute. reflexivity. Qed.

Lemma legacy_constructed_session_acquires_witness :
  exists wavelength intensity,
    fst (USB2000.acquire_spectrum usb_ready) = Ok (wavelength, intensity)
    /\ length wavelength = 2028%nat /\ length intensity = 2028%nat.
Proof.
  destruct (legacy_constructed_session_acquires
              usb_complete _ usb_session usb_ready _ _
              usb_complete_constructs eq_refl usb_ready_request)
    as (wv & it & E & Lw & Li & _).
  exists wv, it. rewrite E. auto.
Defined.

Lemma absent_device_fails_before_any_traffic_witness :
  USB2000.new absent
  = (Raise (OOError "No OceanOptics USB2000+ spectrometer found!"), absent)
  /\ STS.new absent
     = (Raise (OOError "No OceanOptics STS spectrometer found!"), absent).
Proof. exact (absent_device_fails_before_any_traffic absent eq_refl). Defined.

Lemma legacy_malformed_status_is_not_retried_witness :
  fst (USB2000.new usb_short_status) = Raise StructError.
Proof.
  rewrite (legacy_malformed_status_is_not_retried
             usb_short_status (bytes [0; 8; 0xE8; 3]) []
             eq_refl eq_refl eq_refl ltac:(simpl; lia)
             ltac:(simpl; discriminate)).
  reflexivity.
Defined.

Lemma sts_version_and_averages_queries_witness :
  fst (STS._get_hw_version (sts_answering (good_frame 0x80 (bytes [3]))))
  = Ok (VInt 3).
Proof.
  rewrite (proj1 (sts_version_and_averages_queries
                    (sts_answering (good_frame 0x80 (bytes [3])))
                    (good_frame 0x80 (bytes [3])) []
                    eq_refl eq_refl ltac:(vm_compute; lia))).
  vm_compute. reflexivity.
Defined.

Lemma sts_initialize_drains_buffer_witness :
  fst (STS._initialize sts_pending) = Ok tt
  /\ rscript (dev (snd (STS._initialize sts_pending))) = [Some [x02]].
Proof.
  rewrite (sts_initialize_drains_buffer
             sts_pending [[x00]; [x01]] [None; Some [x02]]).
  - split; reflexivity.
  - repeat constructor; vm_compute; discriminate.
  - reflexivity.
  - reflexivity.
Defined.

Lemma sts_serial_ignores_reported_length_witness :
  fst (STS._get_serial sts_before_serial)
  = Ok (VStr (list_byte_of_string "S0042")).
Proof.
  rewrite (sts_serial_ignores_reported_length
             sts_before_serial error_frame
             (good_frame 0x100 (list_byte_of_string "S0042")) []
             eq_refl eq_refl ltac:(vm_compute; lia) ltac:(vm_compute; lia)).
  vm_compute. reflexivity.
Defined.

Lemma sts_scan_averages_set_only_on_read_error_witness :
  STS._scan_averages
    (self (snd (STS._set_scan_averages 5 sts_silent))) = Some 5
  /\ STS._scan_averages
       (self (snd (STS._set_scan_averages 5 (sts_answering error_frame))))
     = STS._scan_averages sts_session.
Proof.
  destruct (sts_scan_averages_set_only_on_read_error
              5 sts_silent ltac:(lia) eq_refl) as (Hs & _ & _).
  destruct (sts_scan_averages_set_only_on_read_error
              5 (sts_answering error_frame) ltac:(lia) eq_refl)
    as (_ & Ha & _).
  destruct (Hs eq_refl) as (_ & ->).
  destruct (Ha error_frame [] eq_refl ltac:(vm_compute; lia)) as (_ & -> & _).
  split; reflexivity.
Defined.

Lemma sts_answered_integration_time_breaks_construction_witness :
  fst (STS.new sts_acknowledging) = Raise AttributeError.
Proof.
  apply (sts_answered_integration_time_breaks_construction
           sts_acknowledging sts_acknowledging_identified
           (good_frame 0x110010 (le_bytes 4 10000)) []).
  - vm_compute. reflexivity.
  - vm_compute. reflexivity.
  - vm_compute. reflexivity.
  - vm_compute. lia.
Defined.

Lemma sts_stray_light_calibration_follows_count_witness :
  fst (STS._get_stray_light_calibration
         (mkWorld (sts_device [Some error_frame;
                               Some (coeff_frame 0x183101 f32_one)])
                  sts_session))
  = Ok [].
Proof.
  assert (Hl : (length error_frame <= 64)%nat) by (vm_compute; lia).
  assert (Hrs : Forall (fun r => (length r <= 64)%nat)
                       [coeff_frame 0x183101 f32_one])
    by (repeat constructor; vm_compute; lia).
  assert (Hbad : frame_ok error_frame = false) by (vm_compute; reflexivity).
  destruct (sts_stray_light_calibration_follows_count
              (mkWorld (sts_device [Some error_frame;
                                    Some (coeff_frame 0x183101 f32_one)])
                       sts_session)
              error_frame [coeff_frame 0x183101 f32_one] []
              eq_refl eq_refl Hl Hrs) as [_ H].
  rewrite (H Hbad). reflexivity.
Defined.

Lemma sts_nonlinearity_calibration_cases_witness :
  fst (STS._get_nonlinearity_calibration
         (mkWorld (sts_device (Some error_frame :: map Some eight_coefficients))
                  sts_session))
  = Raise (OOError "This spectrometer has less correction factors").
Proof.
  assert (Hl : (length error_frame <= 64)%nat) by (vm_compute; lia).
  assert (Hrs : Forall (fun r => (length r <= 64)%nat) eight_coefficients)
    by (repeat constructor; vm_compute; lia).
  assert (Hbad : frame_ok error_frame = false) by (vm_compute; reflexivity).
  destruct (sts_nonlinearity_calibration_cases
              (mkWorld (sts_device (Some error_frame
                                    :: map Some eight_coefficients))
                       sts_session)
              error_frame eight_coefficients []
              eq_refl eq_refl Hl eq_refl Hrs) as [_ H].
  rewrite (H (or_introl Hbad)). reflexivity.
Defined.

Lemma sts_wavelength_calibration_accepts_any_response_witness :
  fst (STS._get_wavelength_calibration
         (mkWorld (sts_device (map Some mixed_coefficients)) sts_session))
  = Ok [1; -1; 2; 0]%Q.
Proof.
  rewrite (sts_wavelength_calibration_accepts_any_response
             (mkWorld (sts_device (map Some mixed_coefficients)) sts_session)
             mixed_coefficients []
             eq_refl eq_refl ltac:(repeat constructor; vm_compute; lia)
             eq_refl).
  vm_compute. reflexivity.
Defined.

Lemma sts_device_temperature_decodes_witness :
  fst (STS.device_temperature (sts_answering temperature_frame))
  = Ok (VFloat 1%Q)
  /\ fst (STS._read_temperatures (sts_answering temperature_frame))
     = Ok [VFloat 1%Q; VFloat 2%Q].
Proof.
  destruct (proj1 (proj2 (sts_device_temperature_decodes
                            (sts_answering temperature_frame)
                            temperature_frame []
                            eq_refl eq_refl ltac:(vm_compute; lia)))
                  eq_refl) as (-> & ->).
  split; vm_compute; reflexivity.
Defined.

Lemma sts_irradiance_calibration_reads_65_chunks_witness :
  exists values,
    fst (STS._read_irradiance_calibration sts_before_irradiance) = Ok values
    /\ length values = 1024%nat.
Proof.
  eexists. split.
  - apply (proj1 (proj2 (sts_irradiance_calibration_reads_65_chunks
                           sts_before_irradiance zero_chunks []
                           eq_refl eq_refl
                           ltac:(apply Forall_forall; intros c Hc;
                                 apply repeat_spec in Hc; subst c;
                                 vm_compute; discriminate)
                           ltac:(rewrite app_nil_r; reflexivity)))).
    reflexivity.
  - rewrite length_map, length_seq. reflexivity.
Defined.

Lemma sts_constructed_session_acquires_witness :
  exists wavelength intensity,
    fst (STS.acquire_radiance_spectrum sts_ready) = Ok (wavelength, intensity)
    /\ length wavelength = 1024%nat /\ length intensity = 1024%nat.
Proof.
  destruct (sts_constructed_session_acquires
              sts_complete _ sts_session sts_ready _ _
              sts_complete_constructs eq_refl sts_ready_request)
    as (wv & it & _ & E & Lw & Li & _).
  exists wv, it. rewrite E. auto.
Defined.

Lemma sts_spectrum_needs_33_full_reads_witness :
  fst (STS._request_spectrum sts_silent) = Raise USBError.
Proof.
  apply (proj1 (sts_spectrum_needs_33_full_reads
                  sts_silent 10000 10 [] []
                  eq_refl eq_refl eq_refl ltac:(constructor) eq_refl)).
  - simpl. lia.
  - reflexivity.
Defined.

Lemma sts_request_frame_layout_witness :
  exists cmd,
    STS.plain_request 0x80 sts_silent = (Ok cmd, sts_silent)
    /\ length cmd = 64%nat /\ uint_at 4 8 cmd = 0x80.
Proof.
  destruct (proj1 (sts_request_frame_layout 0x80 sts_silent)
                  ltac:(unfold u32; lia))
    as (cmd & E & L & _ & _ & _ & Hm & _).
  exists cmd. auto.
Defined.

Lemma sts_constructed_session_records_requested_time_witness :
  STS._it sts_session = Some 10000
  /\ exists serial, STS.Serial sts_session = Some serial.
Proof.
  destruct (sts_constructed_session_records_requested_time
              sts_complete _ sts_session sts_complete_constructs)
    as (Hit & _ & Hs).
  split; assumption.
Defined.

End FurtherRuns.
